(** * Solar position and Equation-of-Time engine of the analemma simulation

    A shallow embedding of the numerical core shared by the three
    presentations of the repository:

    - [Analemma]  : the orbit / Equation-of-Time dashboard (simulation.js),
    - [Sky]       : the single-instant sky view (sky.js),
    - [Solograph] : the daily sun-path view with its per-hour yearly traces,

    and of the helpers around that core ([Dashboard], [SkyView],
    [SolographView]): calendar, clock labels, projection onto the canvas,
    the steps of the animation loops and the slider handlers.

    JavaScript numbers are modelled as extended reals: arithmetic is exact
    (rounding of binary64 is not modelled), and the IEEE special values
    +Infinity, -Infinity and NaN appear exactly where an operation has no
    real result (division by zero, asin/acos outside [-1,1], Infinity minus
    Infinity, ...).

    Three things that exact arithmetic cannot see are fixed as the program
    has them.  The model has a single zero, whose sign is not modelled; the
    one operation of the program that observes it, the first argument of
    [Math.atan2], is given the sign that argument has in the program (see
    [Ratan2]).  No binary64 number is an odd multiple of PI/2, so
    [Math.tan] has no pole: the model takes the value it returns next to
    PI/2 (see [Rtan]).  And no binary64 cosine is 0, so the unguarded
    quotients of the sky view never divide by 0: where an exact cosine
    vanishes the model gives no position rather than a wrong one (see
    [Sky.equatorialToHorizontal]). *)

From Stdlib Require Import Reals Lra Lia ZArith List.
From stdpp Require Import gmap list strings pretty.
From Equations Require Import Equations.

Open Scope R_scope.

(* ===================================================================== *)
(** ** Numbers *)
(* ===================================================================== *)

Inductive num : Type :=
| Fin (r : R)
| PInf
| NInf
| NaN.

Declare Scope num_scope.
Delimit Scope num_scope with num.
Bind Scope num_scope with num.

(** Sign of a real, as a [comparison] with zero. *)
Definition Rsign (x : R) : comparison :=
  if Rlt_dec 0 x then Gt else if Rlt_dec x 0 then Lt else Eq.

(** The infinity of a given sign; a zero sign gives NaN (0 * Infinity, 0 / 0). *)
Definition inf_of (s : comparison) : num :=
  match s with Gt => PInf | Lt => NInf | Eq => NaN end.

Definition nneg (a : num) : num :=
  match a with
  | Fin x => Fin (- x)
  | PInf => NInf
  | NInf => PInf
  | NaN => NaN
  end.

Definition nadd (a b : num) : num :=
  match a, b with
  | NaN, _ | _, NaN => NaN
  | Fin x, Fin y => Fin (x + y)
  | PInf, NInf | NInf, PInf => NaN
  | PInf, _ | _, PInf => PInf
  | NInf, _ | _, NInf => NInf
  end.

Definition nsub (a b : num) : num := nadd a (nneg b).

Definition nmul (a b : num) : num :=
  match a, b with
  | NaN, _ | _, NaN => NaN
  | Fin x, Fin y => Fin (x * y)
  | Fin x, PInf | PInf, Fin x => inf_of (Rsign x)
  | Fin x, NInf | NInf, Fin x => inf_of (CompOpp (Rsign x))
  | PInf, PInf | NInf, NInf => PInf
  | PInf, NInf | NInf, PInf => NInf
  end.

Definition ndiv (a b : num) : num :=
  match a, b with
  | NaN, _ | _, NaN => NaN
  | Fin x, Fin y => if Req_dec_T y 0 then inf_of (Rsign x) else Fin (x / y)
  | Fin _, PInf | Fin _, NInf => Fin 0
  | PInf, Fin y => if Rlt_dec y 0 then NInf else PInf
  | NInf, Fin y => if Rlt_dec y 0 then PInf else NInf
  | _, _ => NaN
  end.

(** Truncation toward zero, the rounding used by the remainder operator. *)
Definition Rtrunc (x : R) : Z :=
  if Rle_dec 0 x then Int_part x else (- Int_part (- x))%Z.

(** The remainder operator [%]: the result has the sign of the dividend. *)
Definition nmod (a b : num) : num :=
  match a, b with
  | Fin x, Fin y =>
      if Req_dec_T y 0 then NaN else Fin (x - y * IZR (Rtrunc (x / y)))
  | Fin x, PInf | Fin x, NInf => Fin x
  | _, _ => NaN
  end.

(** Comparisons: every comparison with NaN is false. *)
Definition nlt (a b : num) : bool :=
  match a, b with
  | Fin x, Fin y => if Rlt_dec x y then true else false
  | NInf, Fin _ | NInf, PInf | Fin _, PInf => true
  | _, _ => false
  end.

Definition ngt (a b : num) : bool := nlt b a.

(** Whether a number is (exactly) zero. *)
Definition is_zero (a : num) : bool :=
  match a with
  | Fin x => if Req_dec_T x 0 then true else false
  | _ => false
  end.

Notation "a + b" := (nadd a b) : num_scope.
Notation "a - b" := (nsub a b) : num_scope.
Notation "a * b" := (nmul a b) : num_scope.
Notation "a / b" := (ndiv a b) : num_scope.
Notation "- a" := (nneg a) : num_scope.
Notation "a 'mod' b" := (nmod a b) : num_scope.
Notation "a <? b" := (nlt a b) : num_scope.
Notation "a >? b" := (ngt a b) : num_scope.

(** *** The Math object *)

Definition Math_PI : num := Fin PI.

Definition Math_sin (a : num) : num :=
  match a with Fin x => Fin (sin x) | _ => NaN end.

Definition Math_cos (a : num) : num :=
  match a with Fin x => Fin (cos x) | _ => NaN end.

(** [Math.tan] is finite on every number: no binary64 number is an odd
    multiple of PI/2.  At [Math.PI / 2], the number next to PI/2 that the
    program reaches from a latitude of 90 degrees (or a declination of 90
    degrees), it returns 16331239353195370, and the opposite at
    [-Math.PI / 2].  The model, whose PI/2 is exact, takes these values
    where the cosine vanishes, by the sign of the sine; the arguments of
    the program stay within [[-PI/2, PI/2]], so no other pole is met. *)
Definition tan_next_to_pole : R := 16331239353195370.

Definition Rtan (x : R) : R :=
  if Req_dec_T (cos x) 0
  then (if Rlt_dec 0 (sin x) then tan_next_to_pole else - tan_next_to_pole)
  else tan x.

Definition Math_tan (a : num) : num :=
  match a with Fin x => Fin (Rtan x) | _ => NaN end.

Definition Math_asin (a : num) : num :=
  match a with
  | Fin x => if Rlt_dec x (-1) then NaN
             else if Rlt_dec 1 x then NaN else Fin (asin x)
  | _ => NaN
  end.

Definition Math_acos (a : num) : num :=
  match a with
  | Fin x => if Rlt_dec x (-1) then NaN
             else if Rlt_dec 1 x then NaN else Fin (acos x)
  | _ => NaN
  end.

Definition Math_max (a b : num) : num :=
  match a, b with
  | NaN, _ | _, NaN => NaN
  | PInf, _ | _, PInf => PInf
  | NInf, c | c, NInf => c
  | Fin x, Fin y => Fin (Rmax x y)
  end.

Definition Math_min (a b : num) : num :=
  match a, b with
  | NaN, _ | _, NaN => NaN
  | NInf, _ | _, NInf => NInf
  | PInf, c | c, PInf => c
  | Fin x, Fin y => Fin (Rmin x y)
  end.

(** The two-argument arctangent as the program calls it: the angle of
    the point [(x, y)].  For [y = 0] the result of [Math.atan2] depends on
    the sign of the zero.  In both transforms the first argument is
    [-Math.sin(ha) * Math.cos(dec) / ...] over a positive denominator,
    the cosine of a declination is positive, and the only number whose
    sine is 0 is the hour angle 0 itself, which the program always has as
    +0 (a difference [hour - 12], or the literal 0): so a zero first
    argument is -0, and the result is -PI on the negative real axis, where
    +0 would give +PI.  At the origin the value -PI of
    [Math.atan2(-0, -0)] is taken; there (the poles and the zenith at hour
    angle 0) the second argument of the program is a rounding residue of
    either sign, and its result -PI or -0 as rounding decides.  Where the
    sine of the hour angle is 0 only in exact arithmetic (hour angle 12 or
    -12) the program has a rounding residue of either sign for [y] and
    returns an angle next to PI or to -PI, the same direction. *)
Definition Ratan2 (y x : R) : R :=
  if Rlt_dec 0 x then atan (y / x)
  else if Rlt_dec x 0 then
    (if Rlt_dec 0 y then atan (y / x) + PI else atan (y / x) - PI)
  else if Rlt_dec 0 y then PI / 2
  else if Rlt_dec y 0 then - (PI / 2)
  else - PI.

Definition Math_atan2 (a b : num) : num :=
  match a, b with
  | NaN, _ | _, NaN => NaN
  | Fin y, Fin x => Fin (Ratan2 y x)
  | Fin _, PInf => Fin 0
  | Fin y, NInf => if Rlt_dec 0 y then Fin PI else Fin (- PI)
  | PInf, Fin _ => Fin (PI / 2)
  | NInf, Fin _ => Fin (- (PI / 2))
  | PInf, PInf => Fin (PI / 4)
  | PInf, NInf => Fin (3 * PI / 4)
  | NInf, PInf => Fin (- (PI / 4))
  | NInf, NInf => Fin (- (3 * PI / 4))
  end.

(** *** Counted loops

    [for (let i = lo; i <= hi; i++) body] and
    [for (let i = lo; i < bound; i += step) body], threading the state
    that [body] updates. *)

Equations for_upto {A : Type} (i hi : Z) (body : Z -> A -> A) (acc : A) : A
  by wf (Z.to_nat (hi + 1 - i)) lt :=
  for_upto i hi body acc with decide (i <= hi)%Z := {
    | left _ => for_upto (i + 1) hi body (body i acc)
    | right _ => acc }.
Next Obligation. lia. Qed.

Equations for_step {A : Type} (i bound : Z) (step : positive)
    (body : Z -> A -> A) (acc : A) : A
  by wf (Z.to_nat (bound - i)) lt :=
  for_step i bound step body acc with decide (i < bound)%Z := {
    | left _ => for_step (i + Z.pos step) bound step body (body i acc)
    | right _ => acc }.
Next Obligation. lia. Qed.

(** The object literal [{ altitude, azimuth }] returned by the transforms. *)
Record Position : Type := mkPosition { altitude : num; azimuth : num }.

(* ===================================================================== *)
(** ** The orbit / Equation-of-Time dashboard (class AnalemmaSimulation) *)
(* ===================================================================== *)

Module Analemma.

(** [this.params]: the only part of the object the engine reads. *)
Record params : Type := mkParams {
  tilt : num;
  eccentricity : num;
  perihelionDay : num;
  speed : num;
  currentDay : num;
  isPlaying : bool;
  showTiltComponent : bool;
  showEccentricityComponent : bool
}.

(** The values installed by the constructor (and by the reset button). *)
Definition defaults : params :=
  {| tilt := Fin 23.4;
     eccentricity := Fin 0.017;
     perihelionDay := Fin 3;
     speed := Fin 1;
     currentDay := Fin 0;
     isPlaying := true;
     showTiltComponent := true;
     showEccentricityComponent := true |}.

(** The object literal returned by [getEOTComponents]. *)
Module EOT.
Record t : Type := mk { eccentricity : num; obliquity : num }.
End EOT.

Definition toRad (deg : num) : num := (deg * Math_PI / Fin 180)%num.

Definition toDeg (rad : num) : num := (rad * Fin 180 / Math_PI)%num.

Definition getMeanAnomaly (p : params) (day : num) : num :=
  let daysSincePerihelion :=
    ((day - perihelionDay p + Fin 365) mod Fin 365)%num in
  toRad (Fin 360 * daysSincePerihelion / Fin 365)%num.

Definition getTrueAnomaly (p : params) (meanAnomaly : num) : num :=
  let e := eccentricity p in
  let M := meanAnomaly in
  let C := ((Fin 2 * e - e * e * e / Fin 4) * Math_sin M +
            (Fin 5 * e * e / Fin 4) * Math_sin (Fin 2 * M) +
            (Fin 13 * e * e * e / Fin 12) * Math_sin (Fin 3 * M))%num in
  (M + C)%num.

Definition getSolarLongitude (p : params) (day : num) : num :=
  let springEquinox := Fin 80 in
  let meanLongitude := toRad (Fin 360 * (day - springEquinox) / Fin 365)%num in
  let meanAnomaly := getMeanAnomaly p day in
  let trueAnomaly := getTrueAnomaly p meanAnomaly in
  let equationOfCenter := (trueAnomaly - meanAnomaly)%num in
  (meanLongitude + equationOfCenter)%num.

Definition getSolarDeclination (p : params) (day : num) : num :=
  let solarLongitude := getSolarLongitude p day in
  let obliquity := toRad (tilt p) in
  let declination :=
    Math_asin (Math_sin obliquity * Math_sin solarLongitude)%num in
  toDeg declination.

Definition getEOTComponents (p : params) (day : num) : EOT.t :=
  let obliquity := toRad (tilt p) in
  let e := eccentricity p in
  let M := getMeanAnomaly p day in
  let springEquinox := Fin 80 in
  let L := toRad (Fin 360 * (day - springEquinox) / Fin 365)%num in
  let eccentricityEffect :=
    (Fin (-2) * e * Math_sin M
     - Fin 1.25 * e * e * Math_sin (Fin 2 * M))%num in
  let y := Math_tan (obliquity / Fin 2)%num in
  let y2 := (y * y)%num in
  let obliquityEffect :=
    (y2 * Math_sin (Fin 2 * L)
     - Fin 0.5 * y2 * y2 * Math_sin (Fin 4 * L))%num in
  {| EOT.eccentricity := (eccentricityEffect * Fin 229.18)%num;
     EOT.obliquity := (obliquityEffect * Fin 229.18)%num |}.

Definition getEquationOfTime (p : params) (day : num) : num :=
  let components := getEOTComponents p day in
  let eot := Fin 0 in
  let eot := if showEccentricityComponent p
             then (eot + EOT.eccentricity components)%num else eot in
  let eot := if showTiltComponent p
             then (eot + EOT.obliquity components)%num else eot in
  eot.

Definition getOrbitalSpeed (p : params) (day : num) : num :=
  let meanAnomaly := getMeanAnomaly p day in
  let trueAnomaly := getTrueAnomaly p meanAnomaly in
  let e := eccentricity p in
  (Fin 1 + e * Math_cos trueAnomaly)%num.

End Analemma.

(* ===================================================================== *)
(** ** The single-instant sky view (class SkySimulation) *)
(* ===================================================================== *)

Module Sky.

Record t : Type := mk {
  hour : num;
  latitude : num;
  tilt : num;
  eccentricity : num;
  perihelionDay : num
}.

(** The values installed by the constructor; only [hour] and [latitude]
    have a slider, the orbital parameters stay fixed. *)
Definition defaults : t :=
  {| hour := Fin 12;
     latitude := Fin 40;
     tilt := Fin 23.44;
     eccentricity := Fin 0.0167;
     perihelionDay := Fin 3 |}.

Definition toRad (deg : num) : num := (deg * Math_PI / Fin 180)%num.

Definition toDeg (rad : num) : num := (rad * Fin 180 / Math_PI)%num.

Definition getMeanAnomaly (this : t) (day : num) : num :=
  let daysFromPerihelion :=
    ((day - perihelionDay this + Fin 365) mod Fin 365)%num in
  toRad (Fin 360 * daysFromPerihelion / Fin 365)%num.

Definition getTrueAnomaly (this : t) (M : num) : num :=
  let e := eccentricity this in
  (M + Fin 2 * e * Math_sin M + Fin 1.25 * e * e * Math_sin (Fin 2 * M))%num.

Definition getDeclination (this : t) (day : num) : num :=
  let obliquity := toRad (tilt this) in
  let springEquinox := Fin 80 in
  let M := getMeanAnomaly this day in
  let v := getTrueAnomaly this M in
  let perihelionLongitude :=
    toRad (Fin 360 * (perihelionDay this - springEquinox) / Fin 365)%num in
  let solarLongitude := (v + perihelionLongitude + Math_PI)%num in
  Math_asin (Math_sin obliquity * Math_sin solarLongitude)%num.

(** Equation of time, in hours. *)
Definition getEquationOfTime (this : t) (day : num) : num :=
  let obliquity := toRad (tilt this) in
  let e := eccentricity this in
  let M := getMeanAnomaly this day in
  let springEquinox := Fin 80 in
  let L := toRad (Fin 360 * (day - springEquinox) / Fin 365)%num in
  let eccentricityEffect :=
    (Fin (-2) * e * Math_sin M
     - Fin 1.25 * e * e * Math_sin (Fin 2 * M))%num in
  let y := Math_tan (obliquity / Fin 2)%num in
  let y2 := (y * y)%num in
  let obliquityEffect :=
    (y2 * Math_sin (Fin 2 * L)
     - Fin 0.5 * y2 * y2 * Math_sin (Fin 4 * L))%num in
  ((eccentricityEffect + obliquityEffect) * Fin 24 / (Fin 2 * Math_PI))%num.

(** No clamp on [sinAlt], no guard on the two denominators.  The cosine
    of a binary64 number is never 0, so the program never divides by 0
    here.  At a pole and at the zenith, where the exact cosine is 0, the
    denominators of the program are rounding residues and its quotients
    are not determined by exact arithmetic: there the model gives no
    position ([None]); everywhere else it gives the position the program
    computes. *)
Definition equatorialToHorizontal (hourAngle declination latitude : num)
  : option Position :=
  let ha := toRad (hourAngle * Fin 15)%num in
  let dec := declination in
  let lat := toRad latitude in
  let sinAlt := (Math_sin dec * Math_sin lat
                 + Math_cos dec * Math_cos lat * Math_cos ha)%num in
  let altitude := Math_asin sinAlt in
  if is_zero (Math_cos lat * Math_cos altitude)%num then None
  else
    let cosAz := ((Math_sin dec - Math_sin lat * sinAlt)
                  / (Math_cos lat * Math_cos altitude))%num in
    let sinAz := (- Math_sin ha * Math_cos dec / Math_cos altitude)%num in
    let azimuth := Math_atan2 sinAz cosAz in
    Some {| altitude := toDeg altitude; azimuth := toDeg azimuth |}.

Definition getSunPosition (this : t) (day hour : num) : option Position :=
  let declination := getDeclination this day in
  let eot := getEquationOfTime this day in
  let solarHour := (hour + eot)%num in
  let hourAngle := (solarHour - Fin 12)%num in
  equatorialToHorizontal hourAngle declination (latitude this).

End Sky.

(* ===================================================================== *)
(** ** The daily sun-path view (class Solograph) *)
(* ===================================================================== *)

Module Solograph.

(** An entry of a yearly trace: [{ day, altitude, azimuth }]. *)
Module Trace.
Record point : Type := mk { day : Z; altitude : num; azimuth : num }.
End Trace.

(** An entry of a day path: [{ hour, altitude, azimuth }]. *)
Module Path.
Record point : Type := mk { hour : num; altitude : num; azimuth : num }.
End Path.

(** The object literals returned by [getSunTimes].  A flag that the
    literal does not mention is an absent property ([None]), which reads
    as [undefined]. *)
Record SunTimes : Type := mkSunTimes {
  sunrise : num;
  sunset : num;
  dayLength : num;
  neverSets : option bool;
  neverRises : option bool
}.

(** The object state the engine reads and writes.  [hourTraces] is the
    object used as a map from clock hour to that hour's yearly trace. *)
Record t : Type := mk {
  latitude : num;
  dayOfYear : num;
  tilt : num;
  hourTraces : gmap Z (list Trace.point)
}.

(** The fields as the constructor sets them, before it calls
    [initializeHourTraces]. *)
Definition initial : t :=
  {| latitude := Fin 40; dayOfYear := Fin 172; tilt := Fin 23.44;
     hourTraces := ∅ |}.

Definition set_latitude (this : t) (l : num) : t :=
  {| latitude := l;
     dayOfYear := dayOfYear this;
     tilt := tilt this;
     hourTraces := hourTraces this |}.

Definition set_hourTraces (this : t) (h : gmap Z (list Trace.point)) : t :=
  {| latitude := latitude this;
     dayOfYear := dayOfYear this;
     tilt := tilt this;
     hourTraces := h |}.

Definition toRad (deg : num) : num := (deg * Math_PI / Fin 180)%num.

Definition toDeg (rad : num) : num := (rad * Fin 180 / Math_PI)%num.

Definition getDeclination (this : t) (day : num) : num :=
  let obliquity := toRad (tilt this) in
  let springEquinox := Fin 80 in
  let angle := toRad (Fin 360 * (day - springEquinox) / Fin 365)%num in
  Math_asin (Math_sin obliquity * Math_sin angle)%num.

(** [sinAlt] is clamped to [-1, 1]; both denominators are padded with
    0.0001. *)
Definition equatorialToHorizontal (hourAngle declination latitude : num)
  : Position :=
  let ha := toRad (hourAngle * Fin 15)%num in
  let dec := declination in
  let lat := toRad latitude in
  let sinAlt := (Math_sin dec * Math_sin lat
                 + Math_cos dec * Math_cos lat * Math_cos ha)%num in
  let altitude := Math_asin (Math_max (Fin (-1)) (Math_min (Fin 1) sinAlt)) in
  let cosAz := ((Math_sin dec - Math_sin lat * sinAlt)
                / (Math_cos lat * Math_cos altitude + Fin 0.0001))%num in
  let sinAz := (- Math_sin ha * Math_cos dec
                / (Math_cos altitude + Fin 0.0001))%num in
  let azimuth := Math_atan2 sinAz cosAz in
  {| altitude := toDeg altitude; azimuth := toDeg azimuth |}.

(** The body of the inner loop of [initializeHourTraces]: push the entry of
    [day] onto the array stored under [hour]. *)
Definition pushTracePoint (this : t) (hour day : Z)
    (traces : gmap Z (list Trace.point)) : gmap Z (list Trace.point) :=
  let declination := getDeclination this (Fin (IZR day)) in
  let hourAngle := (Fin (IZR hour) - Fin 12)%num in
  let pos := equatorialToHorizontal hourAngle declination (latitude this) in
  alter (fun trace => trace ++ [ {| Trace.day := day;
                                    Trace.altitude := altitude pos;
                                    Trace.azimuth := azimuth pos |} ])
        hour traces.

Definition initializeHourTraces (this : t) : t :=
  let traces : gmap Z (list Trace.point) := ∅ in
  set_hourTraces this
    (for_upto 5 19
       (fun hour traces =>
          let traces := <[ hour := [] ]> traces in
          for_upto 1 365 (pushTracePoint this hour) traces)
       traces).

Definition getSunPath (this : t) (day : num) : list Path.point :=
  let declination := getDeclination this day in
  let points : list Path.point := [] in
  for_step 0 (24 * 60) 5
    (fun minutes points =>
       let hour := (Fin (IZR minutes) / Fin 60)%num in
       let hourAngle := (hour - Fin 12)%num in
       let pos := equatorialToHorizontal hourAngle declination (latitude this) in
       points ++ [ {| Path.hour := hour;
                      Path.altitude := altitude pos;
                      Path.azimuth := azimuth pos |} ])
    points.

Definition getSunTimes (this : t) (day : num) : SunTimes :=
  let declination := getDeclination this day in
  let lat := toRad (latitude this) in
  let cosHa := (- Math_tan lat * Math_tan declination)%num in
  if (cosHa <? Fin (-1))%num then
    {| sunrise := Fin 0; sunset := Fin 24; dayLength := Fin 24;
       neverSets := Some true; neverRises := None |}
  else if (cosHa >? Fin 1)%num then
    {| sunrise := Fin 12; sunset := Fin 12; dayLength := Fin 0;
       neverSets := None; neverRises := Some true |}
  else
    let ha := (toDeg (Math_acos cosHa) / Fin 15)%num in
    let sunrise := (Fin 12 - ha)%num in
    let sunset := (Fin 12 + ha)%num in
    {| sunrise := sunrise; sunset := sunset;
       dayLength := (sunset - sunrise)%num;
       neverSets := None; neverRises := None |}.

End Solograph.

(* ===================================================================== *)
(** ** Specification-side notions *)
(* ===================================================================== *)

(** The positive-result modulo of the mean-anomaly formula: the remainder of
    the floor division, always in [[0, m)] for a positive [m]. *)
Definition posmod (x m : R) : R := x - m * IZR (Int_part (x / m)).

(** The equation-of-center series through the third power of [e]. *)
Definition trueAnomalySeries (e M : R) : R :=
  M + (2 * e - e ^ 3 / 4) * sin M + (5 * e ^ 2 / 4) * sin (2 * M)
    + (13 * e ^ 3 / 12) * sin (3 * M).

(** The same series cut after the second power, as the sky view has it. *)
Definition trueAnomalySeries2 (e M : R) : R :=
  M + 2 * e * sin M + 1.25 * e ^ 2 * sin (2 * M).

(** The two Equation-of-Time effects, in radians. *)
Definition eccentricityEffect (e M : R) : R :=
  - 2 * e * sin M - 1.25 * e ^ 2 * sin (2 * M).

Definition obliquityEffect (y L : R) : R :=
  y ^ 2 * sin (2 * L) - 0.5 * y ^ 4 * sin (4 * L).

(** The quantity [cosHa] that [getSunTimes] branches on. *)
Definition cosHourAngle (this : Solograph.t) (day : num) : num :=
  (- Math_tan (Solograph.toRad (Solograph.latitude this))
   * Math_tan (Solograph.getDeclination this day))%num.

(** The entry that [initializeHourTraces] pushes for a clock hour and a
    day: the position at hour angle [hour - 12], with no Equation-of-Time
    shift. *)
Definition tracePointOf (this : Solograph.t) (hour day : Z) : Solograph.Trace.point :=
  let pos := Solograph.equatorialToHorizontal
               (Fin (IZR hour) - Fin 12)%num
               (Solograph.getDeclination this (Fin (IZR day)))
               (Solograph.latitude this) in
  {| Solograph.Trace.day := day;
     Solograph.Trace.altitude := altitude pos;
     Solograph.Trace.azimuth := azimuth pos |}.

(** The point that [getSunPath] pushes for a minute of the day. *)
Definition pathPointOf (this : Solograph.t) (day : num) (minutes : Z)
  : Solograph.Path.point :=
  let hour := (Fin (IZR minutes) / Fin 60)%num in
  let pos := Solograph.equatorialToHorizontal
               (hour - Fin 12)%num
               (Solograph.getDeclination this day)
               (Solograph.latitude this) in
  {| Solograph.Path.hour := hour;
     Solograph.Path.altitude := altitude pos;
     Solograph.Path.azimuth := azimuth pos |}.

(** The mean of [getOrbitalSpeed] over 365 consecutive days starting with
    [first], computed with the arithmetic of the program: the dashboard
    counts the days of its year 0, 1, ..., 364, the solograph 1, ..., 365. *)
Definition yearlyMeanSpeed (first : Z) (p : Analemma.params) : num :=
  (fold_left nadd
     ((fun d => Analemma.getOrbitalSpeed p (Fin (IZR d))) <$> seqZ first 365)
     (Fin 0)
   / Fin 365)%num.

(** Sum of a list of reals, left to right. *)
Definition Rsum (l : list R) : R := fold_left Rplus l 0.




(** The dashboard parameters with the eccentricity slider moved. *)
Definition set_eccentricity (p : Analemma.params) (e : num) : Analemma.params :=
  {| Analemma.tilt := Analemma.tilt p;
     Analemma.eccentricity := e;
     Analemma.perihelionDay := Analemma.perihelionDay p;
     Analemma.speed := Analemma.speed p;
     Analemma.currentDay := Analemma.currentDay p;
     Analemma.isPlaying := Analemma.isPlaying p;
     Analemma.showTiltComponent := Analemma.showTiltComponent p;
     Analemma.showEccentricityComponent := Analemma.showEccentricityComponent p |}.

(** The dashboard parameters with the tilt slider moved. *)
Definition set_tilt (p : Analemma.params) (t : num) : Analemma.params :=
  {| Analemma.tilt := t;
     Analemma.eccentricity := Analemma.eccentricity p;
     Analemma.perihelionDay := Analemma.perihelionDay p;
     Analemma.speed := Analemma.speed p;
     Analemma.currentDay := Analemma.currentDay p;
     Analemma.isPlaying := Analemma.isPlaying p;
     Analemma.showTiltComponent := Analemma.showTiltComponent p;
     Analemma.showEccentricityComponent := Analemma.showEccentricityComponent p |}.

(** The dashboard parameters with the two display toggles replaced. *)
Definition set_toggles (p : Analemma.params) (ecc obl : bool) : Analemma.params :=
  {| Analemma.tilt := Analemma.tilt p;
     Analemma.eccentricity := Analemma.eccentricity p;
     Analemma.perihelionDay := Analemma.perihelionDay p;
     Analemma.speed := Analemma.speed p;
     Analemma.currentDay := Analemma.currentDay p;
     Analemma.isPlaying := Analemma.isPlaying p;
     Analemma.showTiltComponent := obl;
     Analemma.showEccentricityComponent := ecc |}.

(* ===================================================================== *)
(** ** The rest of the three classes

    The functions of the three classes that the engine's callers use:
    calendar helpers, the time formatter, the noon altitude, the projection
    onto the canvas, and the state updates of the animation loops and of
    the slider handlers.  Drawing on the canvas and writing to the document
    are not modelled. *)
(* ===================================================================== *)

(** *** Further operations on numbers *)

Definition nle (a b : num) : bool :=
  match a, b with
  | Fin x, Fin y => if Rle_dec x y then true else false
  | NInf, Fin _ | NInf, PInf | NInf, NInf | Fin _, PInf | PInf, PInf => true
  | _, _ => false
  end.

Definition nge (a b : num) : bool := nle b a.

Notation "a <=? b" := (nle a b) : num_scope.
Notation "a >=? b" := (nge a b) : num_scope.

Definition Math_abs (a : num) : num :=
  match a with
  | Fin x => Fin (Rabs x)
  | PInf | NInf => PInf
  | NaN => NaN
  end.

Definition Math_floor (a : num) : num :=
  match a with
  | Fin x => Fin (IZR (Int_part x))
  | b => b
  end.

(** [Math.round]: the nearest integer, a tie going up. *)
Definition Math_round (a : num) : num := Math_floor (a + Fin 0.5)%num.

(** [toString] of a number that is an integer, as [Math.floor] and
    [Math.round] return them: its decimal digits.  (Printing of fractions
    is not modelled; no function below prints one.) *)
Definition toString (a : num) : string :=
  match a with
  | Fin x => pretty (Int_part x)
  | PInf => "Infinity"
  | NInf => "-Infinity"
  | NaN => "NaN"
  end.

(** [s.padStart(target, fill)]. *)
Definition padStart (target : nat) (fill s : string) : string :=
  let n := String.length s in
  if (target <=? n)%nat then s
  else if String.eqb fill "" then s
  else String.substring 0 (target - n)
         (String.concat "" (replicate (target - n) fill)) +:+ s.

(** The object literal [{ x, y }] of a canvas position. *)
Module Point.
Record t : Type := mk { x : num; y : num }.
End Point.

(** The fields that [setupCanvas] derives from the size of the canvas
    element and that [skyToCanvas] reads; sky view and solograph set them
    in the same way. *)
Record Canvas : Type := mkCanvas {
  width : num;
  height : num;
  centerX : num;
  horizonY : num;
  skyRadius : num
}.

(** [setupCanvas], for a bounding rectangle of the given size. *)
Definition setupCanvas (rectWidth rectHeight : num) : Canvas :=
  {| width := rectWidth;
     height := rectHeight;
     centerX := (rectWidth / Fin 2)%num;
     horizonY := (rectHeight * Fin 0.85)%num;
     skyRadius := (rectHeight * Fin 0.75)%num |}.

(** A flag read in a condition: an absent property is [undefined], which
    counts as false. *)
Definition truthy (flag : option bool) : bool := default false flag.

(** [formatTime], identical in the sky view and in the solograph. *)
Definition formatTime (hour : num) : string :=
  let h := Math_floor hour in
  let m := Math_round ((hour - h) * Fin 60)%num in
  padStart 2 "0" (toString h) +:+ ":" +:+ padStart 2 "0" (toString m).

(* --------------------------------------------------------------------- *)
(** *** The dashboard *)

Module Dashboard.

Definition months : list string :=
  ["Jan"; "Feb"; "Mar"; "Apr"; "May"; "Jun";
   "Jul"; "Aug"; "Sep"; "Oct"; "Nov"; "Dec"].

Definition daysInMonth : list Z :=
  [31; 28; 31; 30; 31; 30; 31; 31; 30; 31; 30; 31]%Z.

(** The object literal [{ month, day }]. *)
Record DayMonth : Type := mkDayMonth { month : string; day : Z }.

(** The [while] loop of [getDayMonth], on the pair (month, day). *)
Equations getDayMonth_loop (month : nat) (day : Z) : nat * Z
  by wf (12 - month)%nat lt :=
  getDayMonth_loop month day with decide (month < 12)%nat := {
    | left _ with decide (daysInMonth !!! month <= day)%Z := {
        | left _ => getDayMonth_loop (S month) (day - daysInMonth !!! month)%Z
        | right _ => (month, day) }
    | right _ => (month, day) }.
Next Obligation. lia. Qed.

(** [getDayMonth], on the integer days that [params.currentDay] holds (on
    an integer [Math.floor] changes nothing). *)
Definition getDayMonth (dayOfYear : Z) : DayMonth :=
  let '(month, day) := getDayMonth_loop 0 dayOfYear in
  let '(month, day) :=
    if decide (12 <= month)%nat then (0%nat, dayOfYear) else (month, day) in
  {| month := months !!! month; day := (day + 1)%Z |}.

(** The state that [animate] updates. *)
Record AnimState : Type := mkAnimState {
  params : Analemma.params;
  lastTime : num;
  dayAccumulator : num
}.

Definition set_currentDay (p : Analemma.params) (d : num) : Analemma.params :=
  {| Analemma.tilt := Analemma.tilt p;
     Analemma.eccentricity := Analemma.eccentricity p;
     Analemma.perihelionDay := Analemma.perihelionDay p;
     Analemma.speed := Analemma.speed p;
     Analemma.currentDay := d;
     Analemma.isPlaying := Analemma.isPlaying p;
     Analemma.showTiltComponent := Analemma.showTiltComponent p;
     Analemma.showEccentricityComponent := Analemma.showEccentricityComponent p |}.

(** The state update of one frame of [animate]. *)
Definition animate (this : AnimState) (currentTime : num) : AnimState :=
  let deltaTime := (currentTime - lastTime this)%num in
  if Analemma.isPlaying (params this) then
    let dayAccumulator :=
      (dayAccumulator this
       + deltaTime * Fin 0.012 * Analemma.speed (params this))%num in
    if (dayAccumulator >=? Fin 1)%num then
      {| params :=
           set_currentDay (params this)
             ((Analemma.currentDay (params this) + Math_floor dayAccumulator)
              mod Fin 365)%num;
         lastTime := currentTime;
         dayAccumulator := (dayAccumulator mod Fin 1)%num |}
    else
      {| params := params this;
         lastTime := currentTime;
         dayAccumulator := dayAccumulator |}
  else
    {| params := params this;
       lastTime := currentTime;
       dayAccumulator := dayAccumulator this |}.

(** [getEquationOfTime] as the earlier revision of the dashboard has it:
    the toggles mask the effects in radians and the sum is converted
    once.  ([toRad] and [getMeanAnomaly] are the same in both revisions.) *)
Definition getEquationOfTime_earlier (p : Analemma.params) (day : num) : num :=
  let obliquity := Analemma.toRad (Analemma.tilt p) in
  let e := Analemma.eccentricity p in
  let M := Analemma.getMeanAnomaly p day in
  let springEquinox := Fin 80 in
  let L := Analemma.toRad (Fin 360 * (day - springEquinox) / Fin 365)%num in
  let eccentricityEffect :=
    (Fin (-2) * e * Math_sin M
     - Fin 1.25 * e * e * Math_sin (Fin 2 * M))%num in
  let y := Math_tan (obliquity / Fin 2)%num in
  let y2 := (y * y)%num in
  let obliquityEffect :=
    (y2 * Math_sin (Fin 2 * L)
     - Fin 0.5 * y2 * y2 * Math_sin (Fin 4 * L))%num in
  let eot := Fin 0 in
  let eot := if Analemma.showEccentricityComponent p
             then (eot + eccentricityEffect)%num else eot in
  let eot := if Analemma.showTiltComponent p
             then (eot + obliquityEffect)%num else eot in
  (eot * Fin 229.18)%num.

End Dashboard.

(* --------------------------------------------------------------------- *)
(** *** The sky view *)

Module SkyView.

Definition skyToCanvas (c : Canvas) (altitude azimuth : num) : Point.t :=
  let r := (skyRadius c * (Fin 90 - altitude) / Fin 90)%num in
  let az := Sky.toRad (azimuth - Fin 180)%num in
  let x := (centerX c + r * Math_sin az)%num in
  let y := (horizonY c - r * Math_cos az)%num in
  {| Point.x := x; Point.y := y |}.

(** The update of [this.hour] by one frame of the closure [animate] of
    [startAnimation]; [lastTime] is the time of the previous frame. *)
Definition animate (hour animationSpeed lastTime currentTime : num) : num :=
  let delta := ((currentTime - lastTime) / Fin 1000)%num in
  let hour := (hour + delta * animationSpeed)%num in
  if (hour >? Fin 20)%num then Fin 4 else hour.

End SkyView.

(* --------------------------------------------------------------------- *)
(** *** The solograph *)

Module SolographView.

Definition months : list string :=
  ["Jan"; "Feb"; "Mar"; "Apr"; "May"; "Jun";
   "Jul"; "Aug"; "Sep"; "Oct"; "Nov"; "Dec"].

Definition daysInMonth : list Z :=
  [31; 28; 31; 30; 31; 30; 31; 31; 30; 31; 30; 31]%Z.

(** The [for] loop of [getDayName] over the months still to try, with its
    early [return]; falling out of the loop gives the last line.  The day
    is modelled as an integer, as the day slider, the preset buttons and
    the label update of the animation (which rounds down first) pass it;
    the call in [draw], which passes [this.dayOfYear] as it is, also with
    a fraction while the animation runs, is outside this model. *)
Fixpoint getDayName_loop (ms : list nat) (remaining : Z) : string :=
  match ms with
  | [] => "Dec 31"
  | m :: ms' =>
      if decide (remaining <= daysInMonth !!! m)%Z
      then (months !!! m) +:+ " " +:+ pretty remaining
      else getDayName_loop ms' (remaining - daysInMonth !!! m)%Z
  end.

Definition getDayName (day : Z) : string := getDayName_loop (seq 0 12) day.

Definition getNoonAltitude (this : Solograph.t) (day : num) : num :=
  let declination := Solograph.getDeclination this day in
  (Fin 90 - Math_abs (Solograph.latitude this - Solograph.toDeg declination))%num.

Definition skyToCanvas (c : Canvas) (altitude azimuth : num) : Point.t :=
  let r := (skyRadius c * (Fin 90 - Math_max (Fin 0) altitude) / Fin 90)%num in
  let az := Solograph.toRad (azimuth - Fin 180)%num in
  let x := (centerX c + r * Math_sin az)%num in
  let y := (horizonY c - r * Math_cos az)%num in
  {| Point.x := x; Point.y := y |}.

(** The update of [this.dayOfYear] by one frame of the closure [animate]
    of [startAnimation]; [lastTime] is the time of the previous frame. *)
Definition animate (dayOfYear animationSpeed lastTime currentTime : num) : num :=
  let delta := ((currentTime - lastTime) / Fin 1000)%num in
  let dayOfYear := (dayOfYear + delta * Fin 30 * animationSpeed)%num in
  if (dayOfYear >? Fin 365)%num then Fin 1 else dayOfYear.

(** The state updates of the latitude and of the day slider. *)
Definition onLatitudeInput (this : Solograph.t) (value : num) : Solograph.t :=
  Solograph.initializeHourTraces (Solograph.set_latitude this value).

Definition onDayInput (this : Solograph.t) (value : num) : Solograph.t :=
  {| Solograph.latitude := Solograph.latitude this;
     Solograph.dayOfYear := value;
     Solograph.tilt := Solograph.tilt this;
     Solograph.hourTraces := Solograph.hourTraces this |}.

(** The object as the constructor leaves it. *)
Definition construct : Solograph.t :=
  Solograph.initializeHourTraces Solograph.initial.

(** The texts that [drawCurrentDay] writes into the info panel, under the
    ids of their elements. *)
Record InfoTexts : Type := mkInfoTexts {
  sunriseTime : string;
  sunsetTime : string;
  noonTime : string;
  dayLength : string
}.

Definition drawCurrentDay_info (this : Solograph.t) : InfoTexts :=
  let times := Solograph.getSunTimes this (Solograph.dayOfYear this) in
  let hours := Math_floor (Solograph.dayLength times) in
  let mins :=
    Math_round ((Solograph.dayLength times - hours) * Fin 60)%num in
  {| sunriseTime :=
       if truthy (Solograph.neverRises times) then "Never"
       else if truthy (Solograph.neverSets times) then "00:00"
       else formatTime (Solograph.sunrise times);
     sunsetTime :=
       if truthy (Solograph.neverRises times) then "Never"
       else if truthy (Solograph.neverSets times) then "24:00"
       else formatTime (Solograph.sunset times);
     noonTime := "12:00";
     dayLength :=
       if truthy (Solograph.neverRises times) then "0h 0m"
       else toString hours +:+ "h " +:+ toString mins +:+ "m" |}.

End SolographView.

(* --------------------------------------------------------------------- *)
(** *** Notions used in the statements about these functions *)

(** The number of days of the year that lie before month [m] (counted from
    0), by the table both classes use. *)
Definition daysBefore (m : nat) : Z :=
  foldr Z.add 0%Z (take m Dashboard.daysInMonth).

(** The two decimal digits of a number from 0 to 99, as a clock shows
    them. *)
Definition digit (d : Z) : Ascii.ascii :=
  Ascii.ascii_of_nat (48 + Z.to_nat d).

Definition twoDigits (z : Z) : string :=
  String (digit (z / 10)) (String (digit (z mod 10)) "").

(** The stored hourly traces are those of the present latitude and tilt:
    recomputing them would change nothing. *)
Definition TracesCurrent (this : Solograph.t) : Prop :=
  Solograph.hourTraces this
  = Solograph.hourTraces (Solograph.initializeHourTraces this).

(* ===================================================================== *)
(** ** Arithmetic on finite numbers *)
(* ===================================================================== *)

Lemma ndiv_Fin (x y : R) : y <> 0 -> (Fin x / Fin y)%num = Fin (x / y).
Proof.
  intros Hy. unfold ndiv. destruct (Req_dec_T y 0); [contradiction | reflexivity].
Qed.

Lemma ndiv_PI (x : R) : (Fin x / Math_PI)%num = Fin (x / PI).
Proof. apply ndiv_Fin, PI_neq0. Qed.

Lemma nmod_Fin (x y : R) :
  y <> 0 -> (Fin x mod Fin y)%num = Fin (x - y * IZR (Rtrunc (x / y))).
Proof.
  intros Hy. unfold nmod. destruct (Req_dec_T y 0); [contradiction | reflexivity].
Qed.

Lemma nlt_Fin_true (x y : R) : x < y -> (Fin x <? Fin y)%num = true.
Proof. intros H. unfold nlt. destruct (Rlt_dec x y); [reflexivity | contradiction]. Qed.

Lemma nlt_Fin_false (x y : R) : y <= x -> (Fin x <? Fin y)%num = false.
Proof. intros H. unfold nlt. destruct (Rlt_dec x y); [lra | reflexivity]. Qed.

Lemma Math_asin_Fin (x : R) : -1 <= x <= 1 -> Math_asin (Fin x) = Fin (asin x).
Proof.
  intros [H1 H2]. unfold Math_asin.
  destruct (Rlt_dec x (-1)); [lra |]. destruct (Rlt_dec 1 x); [lra | reflexivity].
Qed.

Lemma Math_acos_Fin (x : R) : -1 <= x <= 1 -> Math_acos (Fin x) = Fin (acos x).
Proof.
  intros [H1 H2]. unfold Math_acos.
  destruct (Rlt_dec x (-1)); [lra |]. destruct (Rlt_dec 1 x); [lra | reflexivity].
Qed.

Lemma Math_tan_Fin (x : R) : cos x <> 0 -> Math_tan (Fin x) = Fin (tan x).
Proof.
  intros H. unfold Math_tan, Rtan.
  destruct (Req_dec_T (cos x) 0); [contradiction | reflexivity].
Qed.

(** Rewriting of the numeric operations on finite arguments; divisions are
    by a non-zero literal or by PI. *)
Ltac fin_arith :=
  cbn [nadd nsub nmul nneg Math_sin Math_cos Math_PI];
  repeat (first
    [ rewrite ndiv_PI
    | rewrite ndiv_Fin by lra
    | rewrite nmod_Fin by lra ]);
  cbn [nadd nsub nmul nneg Math_sin Math_cos Math_PI].

Lemma toRad_Fin (x : R) : Analemma.toRad (Fin x) = Fin (x * PI / 180).
Proof. unfold Analemma.toRad. now fin_arith. Qed.

Lemma toDeg_Fin (x : R) : Analemma.toDeg (Fin x) = Fin (x * 180 / PI).
Proof. unfold Analemma.toDeg. now fin_arith. Qed.

Lemma Sky_toRad_Fin (x : R) : Sky.toRad (Fin x) = Fin (x * PI / 180).
Proof. unfold Sky.toRad. now fin_arith. Qed.

Lemma Sky_toDeg_Fin (x : R) : Sky.toDeg (Fin x) = Fin (x * 180 / PI).
Proof. unfold Sky.toDeg. now fin_arith. Qed.

Lemma Solograph_toRad_Fin (x : R) : Solograph.toRad (Fin x) = Fin (x * PI / 180).
Proof. unfold Solograph.toRad. now fin_arith. Qed.

Lemma Solograph_toDeg_Fin (x : R) : Solograph.toDeg (Fin x) = Fin (x * 180 / PI).
Proof. unfold Solograph.toDeg. now fin_arith. Qed.

(** *** The remainder operator on a non-negative dividend *)

Lemma Int_part_bounds (x : R) : IZR (Int_part x) <= x < IZR (Int_part x) + 1.
Proof. destruct (base_Int_part x) as [H1 H2]. lra. Qed.

Lemma Rtrunc_nonneg (x : R) : 0 <= x -> Rtrunc x = Int_part x.
Proof. intros H. unfold Rtrunc. destruct (Rle_dec 0 x); [reflexivity | contradiction]. Qed.

Lemma posmod_range (x m : R) : 0 < m -> 0 <= posmod x m < m.
Proof.
  intros Hm. unfold posmod.
  destruct (Int_part_bounds (x / m)) as [H1 H2].
  assert (Hx : x = m * (x / m)) by (field; lra).
  split.
  - apply Rmult_le_compat_l with (r := m) in H1; lra.
  - apply Rmult_lt_compat_l with (r := m) in H2; lra.
Qed.

Lemma posmod_congruent (x m : R) : exists k : Z, x = posmod x m + m * IZR k.
Proof. exists (Int_part (x / m)). unfold posmod. lra. Qed.

Lemma nmod_posmod (x m : R) :
  0 <= x -> 0 < m -> (Fin x mod Fin m)%num = Fin (posmod x m).
Proof.
  intros Hx Hm. rewrite nmod_Fin by lra. unfold posmod.
  rewrite Rtrunc_nonneg; [reflexivity |].
  apply Rmult_le_pos; [lra |]. left. now apply Rinv_0_lt_compat.
Qed.

(** On integers the positive-result modulo is [Z.modulo]. *)
Lemma posmod_IZR (a m : Z) : (0 < m)%Z -> posmod (IZR a) (IZR m) = IZR (a mod m).
Proof.
  intros Hm. unfold posmod.
  assert (HmR : 0 < IZR m) by (now apply IZR_lt).
  assert (Hq : Int_part (IZR a / IZR m) = (a / m)%Z).
  { symmetry. apply Int_part_spec.
    pose proof (Z.div_mod a m ltac:(lia)) as Hdm.
    pose proof (Z.mod_pos_bound a m Hm) as [Hlo Hhi].
    assert (HaR : IZR a = IZR m * IZR (a / m) + IZR (a mod m)).
    { rewrite <- mult_IZR, <- plus_IZR. now f_equal. }
    apply IZR_le in Hlo. apply IZR_lt in Hhi.
    assert (Hd : IZR a / IZR m = IZR (a / m) + IZR (a mod m) / IZR m).
    { rewrite HaR at 1. field. lra. }
    rewrite Hd.
    assert (0 <= IZR (a mod m) / IZR m < 1).
    { split.
      - apply Rmult_le_pos; [lra |]. left. now apply Rinv_0_lt_compat.
      - apply Rmult_lt_reg_r with (r := IZR m); [lra |].
        unfold Rdiv. rewrite Rmult_assoc, Rinv_l by lra. lra. }
    lra. }
  rewrite Hq.
  pose proof (Z.div_mod a m ltac:(lia)) as Hdm.
  rewrite <- mult_IZR, <- minus_IZR. f_equal. lia.
Qed.

(* ===================================================================== *)
(** ** Mean anomaly *)
(* ===================================================================== *)

Lemma meanAnomaly_angle (r : R) :
  0 <= r < 365 -> 0 <= 2 * PI * r / 365 < 2 * PI.
Proof.
  intros [H0 H1]. pose proof PI_RGT_0 as Hpi. split.
  - apply Rmult_le_pos; [| lra]. apply Rmult_le_pos; lra.
  - assert (2 * PI * r < 2 * PI * 365) by (apply Rmult_lt_compat_l; lra). lra.
Qed.

Lemma Analemma_getMeanAnomaly_Fin (p : Analemma.params) (day pd : R) :
  Analemma.perihelionDay p = Fin pd ->
  0 <= day - pd + 365 ->
  Analemma.getMeanAnomaly p (Fin day)
  = Fin (2 * PI * posmod (day - pd + 365) 365 / 365).
Proof.
  intros Hp Hx. unfold Analemma.getMeanAnomaly. rewrite Hp.
  cbn [nsub nadd nneg]. replace (day + - pd + 365) with (day - pd + 365) by lra.
  rewrite nmod_posmod by lra. cbn [nmul]. rewrite ndiv_Fin by lra.
  rewrite toRad_Fin. f_equal. field.
Qed.

Lemma Sky_getMeanAnomaly_Fin (s : Sky.t) (day pd : R) :
  Sky.perihelionDay s = Fin pd ->
  0 <= day - pd + 365 ->
  Sky.getMeanAnomaly s (Fin day)
  = Fin (2 * PI * posmod (day - pd + 365) 365 / 365).
Proof.
  intros Hp Hx. unfold Sky.getMeanAnomaly. rewrite Hp.
  cbn [nsub nadd nneg]. replace (day + - pd + 365) with (day - pd + 365) by lra.
  rewrite nmod_posmod by lra. cbn [nmul]. rewrite ndiv_Fin by lra.
  rewrite Sky_toRad_Fin. f_equal. field.
Qed.

(** C5.  For a day in [[0, 365)] and an integer perihelion day in 1..365,
    [getMeanAnomaly] (dashboard and sky view alike) returns
    2 PI ((day - perihelionDay + 365) mod 365) / 365, where the modulo is the
    positive-result one; the angle lies in [[0, 2 PI)], also when
    day - perihelionDay is negative; on an integer day the modulo is the
    integer one. *)
Theorem getMeanAnomaly_positive_modulo
    (p : Analemma.params) (s : Sky.t) (day : R) (pd : Z) :
  0 <= day < 365 ->
  (1 <= pd <= 365)%Z ->
  Analemma.perihelionDay p = Fin (IZR pd) ->
  Sky.perihelionDay s = Fin (IZR pd) ->
  let r := posmod (day - IZR pd + 365) 365 in
  Analemma.getMeanAnomaly p (Fin day) = Fin (2 * PI * r / 365)
  /\ Sky.getMeanAnomaly s (Fin day) = Fin (2 * PI * r / 365)
  /\ 0 <= r < 365
  /\ (exists k : Z, day - IZR pd + 365 = r + 365 * IZR k)
  /\ 0 <= 2 * PI * r / 365 < 2 * PI
  /\ (forall d : Z, day = IZR d -> r = IZR ((d - pd + 365) mod 365)).
Proof.
  intros Hday [Hpd1 Hpd2] Hp Hs r.
  assert (HpdR : 1 <= IZR pd <= 365) by (split; apply IZR_le; lia).
  assert (Hr : 0 <= r < 365) by (apply posmod_range; lra).
  repeat split.
  - apply Analemma_getMeanAnomaly_Fin; [assumption | lra].
  - apply Sky_getMeanAnomaly_Fin; [assumption | lra].
  - apply Hr.
  - apply Hr.
  - apply posmod_congruent.
  - now apply meanAnomaly_angle.
  - now apply meanAnomaly_angle.
  - intros d ->. subst r.
    replace (IZR d - IZR pd + 365) with (IZR (d - pd + 365))
      by (rewrite plus_IZR, minus_IZR; reflexivity).
    apply (posmod_IZR _ 365). lia.
Qed.

(** A day before the perihelion day: 1 - 3 is negative, the angle is not. *)
Lemma getMeanAnomaly_positive_modulo_witness :
  Analemma.getMeanAnomaly Analemma.defaults (Fin 1)
  = Fin (2 * PI * posmod (1 - 3 + 365) 365 / 365)
  /\ 0 <= 2 * PI * posmod (1 - 3 + 365) 365 / 365 < 2 * PI
  /\ posmod (1 - 3 + 365) 365 = 363.
Proof.
  destruct (getMeanAnomaly_positive_modulo Analemma.defaults Sky.defaults 1 3)
    as (H1 & _ & _ & _ & H5 & H6);
    [ lra | lia | reflexivity | reflexivity | ].
  split; [exact H1 | split; [exact H5 |]].
  exact (H6 1%Z eq_refl).
Defined.

(* ===================================================================== *)
(** ** True anomaly *)
(* ===================================================================== *)

Lemma Analemma_getTrueAnomaly_Fin (p : Analemma.params) (e M : R) :
  Analemma.eccentricity p = Fin e ->
  Analemma.getTrueAnomaly p (Fin M) = Fin (trueAnomalySeries e M).
Proof.
  intros He. unfold Analemma.getTrueAnomaly, trueAnomalySeries. rewrite He.
  fin_arith. f_equal. field.
Qed.

Lemma Sky_getTrueAnomaly_Fin (s : Sky.t) (e M : R) :
  Sky.eccentricity s = Fin e ->
  Sky.getTrueAnomaly s (Fin M) = Fin (trueAnomalySeries2 e M).
Proof.
  intros He. unfold Sky.getTrueAnomaly, trueAnomalySeries2. rewrite He.
  fin_arith. f_equal. field.
Qed.

(** C4, as the code has it.  The dashboard's [getTrueAnomaly] returns the
    equation-of-center series with the terms through e^3; the sky view's
    [getTrueAnomaly] returns the series cut after e^2,
    M + 2 e sin M + 1.25 e^2 sin 2M. *)
Theorem getTrueAnomaly_series
    (p : Analemma.params) (s : Sky.t) (e e' M : R) :
  Analemma.eccentricity p = Fin e ->
  Sky.eccentricity s = Fin e' ->
  Analemma.getTrueAnomaly p (Fin M)
  = Fin (M + (2 * e - e ^ 3 / 4) * sin M + (5 * e ^ 2 / 4) * sin (2 * M)
           + (13 * e ^ 3 / 12) * sin (3 * M))
  /\ Sky.getTrueAnomaly s (Fin M)
     = Fin (M + 2 * e' * sin M + 1.25 * e' ^ 2 * sin (2 * M)).
Proof.
  intros He He'. split.
  - now apply Analemma_getTrueAnomaly_Fin.
  - now apply Sky_getTrueAnomaly_Fin.
Qed.

Lemma getTrueAnomaly_series_witness :
  Analemma.getTrueAnomaly Analemma.defaults (Fin 1)
  = Fin (1 + (2 * 0.017 - 0.017 ^ 3 / 4) * sin 1
           + (5 * 0.017 ^ 2 / 4) * sin (2 * 1)
           + (13 * 0.017 ^ 3 / 12) * sin (3 * 1))
  /\ Sky.getTrueAnomaly Sky.defaults (Fin 1)
     = Fin (1 + 2 * 0.0167 * sin 1 + 1.25 * 0.0167 ^ 2 * sin (2 * 1)).
Proof.
  apply (getTrueAnomaly_series Analemma.defaults Sky.defaults 0.017 0.0167 1);
    reflexivity.
Defined.

Lemma Fin_inj (x y : R) : Fin x = Fin y -> x = y.
Proof. now intros [= ->]. Qed.

(** C4, the claim as stated, fails on the sky view: at the quarter orbit
    M = PI/2, with the sky view's eccentricity 0.0167, its [getTrueAnomaly]
    is not the value of the series through e^3. *)
Lemma Sky_getTrueAnomaly_not_third_order :
  Sky.getTrueAnomaly Sky.defaults (Fin (PI / 2))
  <> Fin (PI / 2 + (2 * 0.0167 - 0.0167 ^ 3 / 4) * sin (PI / 2)
          + (5 * 0.0167 ^ 2 / 4) * sin (2 * (PI / 2))
          + (13 * 0.0167 ^ 3 / 12) * sin (3 * (PI / 2))).
Proof.
  rewrite (Sky_getTrueAnomaly_Fin Sky.defaults 0.0167) by reflexivity.
  unfold trueAnomalySeries2. intros H%Fin_inj. revert H.
  rewrite sin_3PI2, sin_PI2.
  replace (2 * (PI / 2)) with PI by field. rewrite sin_PI. lra.
Qed.

(* ===================================================================== *)
(** ** Equation of Time *)
(* ===================================================================== *)

Lemma PI_bounds : 3.14159 < PI < 3.14160.
Proof.
  pose proof (Machin.PI_2_3_7_ineq 3) as H.
  unfold sum_f_R0, tg_alt, Machin.PI_2_3_7_tg, Ratan_seq in H.
  cbn [Nat.mul Nat.add INR] in H. simpl in H. lra.
Qed.

(** The literal 229.18 is 1440 / (2 PI) to two decimals. *)
Lemma minutes_per_radian : Rabs (229.18 - 1440 / (2 * PI)) < 0.01.
Proof.
  destruct PI_bounds as [Hlo Hhi].
  assert (H1 : 229.18 < 1440 / (2 * PI)).
  { apply Rmult_lt_reg_r with (r := 2 * PI); [lra |].
    unfold Rdiv. rewrite Rmult_assoc, Rinv_l by lra. lra. }
  assert (H2 : 1440 / (2 * PI) < 229.19).
  { apply Rmult_lt_reg_r with (r := 2 * PI); [lra |].
    unfold Rdiv. rewrite Rmult_assoc, Rinv_l by lra. lra. }
  apply Rabs_def1; lra.
Qed.

(** The mean anomaly of a finite day is a finite number, whatever the sign
    of the dividend of the remainder. *)
Lemma Analemma_getMeanAnomaly_finite (p : Analemma.params) (day pd : R) :
  Analemma.perihelionDay p = Fin pd ->
  exists M : R, Analemma.getMeanAnomaly p (Fin day) = Fin M.
Proof.
  intros Hp. unfold Analemma.getMeanAnomaly. rewrite Hp. fin_arith.
  rewrite toRad_Fin. eauto.
Qed.

Lemma cos_half_tilt_neq0 (t : R) : -180 < t < 180 -> cos (t * PI / 180 / 2) <> 0.
Proof.
  intros [H1 H2]. pose proof PI_RGT_0 as Hpi.
  apply Rgt_not_eq, cos_gt_0.
  - assert (PI * (-180) < PI * t) by (apply Rmult_lt_compat_l; lra). lra.
  - assert (PI * t < PI * 180) by (apply Rmult_lt_compat_l; lra). lra.
Qed.

Lemma set_toggles_id (p : Analemma.params) :
  set_toggles p (Analemma.showEccentricityComponent p)
                (Analemma.showTiltComponent p) = p.
Proof. now destruct p. Qed.

Lemma getEOTComponents_toggles (p : Analemma.params) (b1 b2 : bool) (day : num) :
  Analemma.getEOTComponents (set_toggles p b1 b2) day
  = Analemma.getEOTComponents p day.
Proof. reflexivity. Qed.

Lemma getEOTComponents_Fin (p : Analemma.params) (day t e M : R) :
  Analemma.tilt p = Fin t -> -180 < t < 180 ->
  Analemma.eccentricity p = Fin e ->
  Analemma.getMeanAnomaly p (Fin day) = Fin M ->
  Analemma.getEOTComponents p (Fin day)
  = {| Analemma.EOT.eccentricity := Fin (eccentricityEffect e M * 229.18);
       Analemma.EOT.obliquity :=
         Fin (obliquityEffect (tan (t * PI / 180 / 2))
                              (2 * PI * (day - 80) / 365) * 229.18) |}.
Proof.
  intros Ht Hrange He HM. unfold Analemma.getEOTComponents.
  rewrite Ht, He, HM, !toRad_Fin. fin_arith. rewrite !toRad_Fin.
  rewrite Math_tan_Fin by now apply cos_half_tilt_neq0.
  fin_arith. unfold eccentricityEffect, obliquityEffect.
  replace ((360 * (day + - (80)) / 365) * PI / 180)
    with (2 * PI * (day - 80) / 365) by field.
  f_equal; f_equal; ring.
Qed.

(** C7.  [getEquationOfTime] is the sum of exactly those components of
    [getEOTComponents] whose toggle is on, each being its effect in radians
    times 229.18 (1440 / (2 PI) to two decimals); the components do not
    depend on the toggles; with both toggles off the result is exactly 0,
    for every day. *)
Theorem getEquationOfTime_masked_sum
    (p : Analemma.params) (day t e pd : R) :
  Analemma.tilt p = Fin t -> -180 < t < 180 ->
  Analemma.eccentricity p = Fin e ->
  Analemma.perihelionDay p = Fin pd ->
  exists M cE cO : R,
    Analemma.getMeanAnomaly p (Fin day) = Fin M
    /\ cE = eccentricityEffect e M * 229.18
    /\ cO = obliquityEffect (tan (t * PI / 180 / 2))
                            (2 * PI * (day - 80) / 365) * 229.18
    /\ Rabs (229.18 - 1440 / (2 * PI)) < 0.01
    /\ (forall b1 b2 : bool,
          Analemma.getEOTComponents (set_toggles p b1 b2) (Fin day)
          = {| Analemma.EOT.eccentricity := Fin cE;
               Analemma.EOT.obliquity := Fin cO |})
    /\ (forall b1 b2 : bool,
          Analemma.getEquationOfTime (set_toggles p b1 b2) (Fin day)
          = Fin ((if b1 then cE else 0) + (if b2 then cO else 0)))
    /\ Analemma.getEquationOfTime p (Fin day)
       = Fin ((if Analemma.showEccentricityComponent p then cE else 0)
              + (if Analemma.showTiltComponent p then cO else 0))
    /\ (forall d : num,
          Analemma.getEquationOfTime (set_toggles p false false) d = Fin 0).
Proof.
  intros Ht Hrange He Hpd.
  destruct (Analemma_getMeanAnomaly_finite p day pd Hpd) as [M HM].
  pose proof (getEOTComponents_Fin p day t e M Ht Hrange He HM) as Hc.
  exists M, (eccentricityEffect e M * 229.18),
    (obliquityEffect (tan (t * PI / 180 / 2)) (2 * PI * (day - 80) / 365) * 229.18).
  assert (Hsum : forall b1 b2 : bool,
    Analemma.getEquationOfTime (set_toggles p b1 b2) (Fin day)
    = Fin ((if b1 then eccentricityEffect e M * 229.18 else 0)
           + (if b2 then obliquityEffect (tan (t * PI / 180 / 2))
                           (2 * PI * (day - 80) / 365) * 229.18 else 0))).
  { intros b1 b2. unfold Analemma.getEquationOfTime.
    rewrite getEOTComponents_toggles, Hc.
    destruct b1, b2; cbn; f_equal; lra. }
  repeat split; try assumption; try reflexivity.
  - apply minutes_per_radian.
  - intros b1 b2. now rewrite getEOTComponents_toggles.
  - rewrite <- (set_toggles_id p) at 1. apply Hsum.
Qed.

Lemma getEquationOfTime_masked_sum_witness :
  exists M cE cO : R,
    Analemma.getMeanAnomaly Analemma.defaults (Fin 100) = Fin M
    /\ Analemma.getEOTComponents Analemma.defaults (Fin 100)
       = {| Analemma.EOT.eccentricity := Fin cE;
            Analemma.EOT.obliquity := Fin cO |}
    /\ Analemma.getEquationOfTime Analemma.defaults (Fin 100) = Fin (cE + cO)
    /\ Analemma.getEquationOfTime (set_toggles Analemma.defaults false false)
         (Fin 100) = Fin 0.
Proof.
  destruct (getEquationOfTime_masked_sum Analemma.defaults 100 23.4 0.017 3)
    as (M & cE & cO & HM & _ & _ & _ & Hc & _ & Hs & H0);
    [ reflexivity | lra | reflexivity | reflexivity | ].
  exists M, cE, cO. split; [exact HM |]. split; [exact (Hc true true) |].
  split; [exact Hs | exact (H0 (Fin 100))].
Defined.

(* ===================================================================== *)
(** ** Declination *)
(* ===================================================================== *)

Lemma sin_prod_bound (a b : R) : -1 <= sin a * sin b <= 1.
Proof.
  pose proof (SIN_bound a) as [Ha1 Ha2]. pose proof (SIN_bound b) as [Hb1 Hb2].
  split; nra.
Qed.

Lemma asin_le_compat (x y : R) : -1 <= x -> x <= y -> y <= 1 -> asin x <= asin y.
Proof.
  intros Hx Hxy Hy.
  destruct (Rle_lt_dec (asin x) (asin y)) as [H | H]; [assumption | exfalso].
  pose proof (asin_bound x) as [Hx1 Hx2]. pose proof (asin_bound y) as [Hy1 Hy2].
  assert (Hs : sin (asin y) < sin (asin x))
    by (apply sin_increasing_1; lra).
  rewrite !sin_asin in Hs by lra. lra.
Qed.

(** The arcsine of a product of sines is bounded by the first angle. *)
Lemma asin_sin_prod_bound (o a : R) :
  0 <= o <= PI / 2 -> - o <= asin (sin o * sin a) <= o.
Proof.
  intros [Ho1 Ho2].
  assert (Hso : 0 <= sin o) by (apply sin_ge_0; pose proof PI_RGT_0; lra).
  pose proof (SIN_bound o) as [_ Hso1]. pose proof (SIN_bound a) as [Ha1 Ha2].
  assert (Hp : - sin o <= sin o * sin a <= sin o) by (split; nra).
  split.
  - rewrite <- (asin_sin (- o)) by lra. rewrite sin_neg.
    apply asin_le_compat; lra.
  - rewrite <- (asin_sin o) at 2 by lra.
    apply asin_le_compat; lra.
Qed.

Lemma Solograph_getDeclination_Fin (s : Solograph.t) (day t : R) :
  Solograph.tilt s = Fin t ->
  Solograph.getDeclination s (Fin day)
  = Fin (asin (sin (t * PI / 180) * sin (2 * PI * (day - 80) / 365))).
Proof.
  intros Ht. unfold Solograph.getDeclination. rewrite Ht.
  rewrite Solograph_toRad_Fin. fin_arith. rewrite Solograph_toRad_Fin. fin_arith.
  replace ((360 * (day + - (80)) / 365) * PI / 180)
    with (2 * PI * (day - 80) / 365) by field.
  apply Math_asin_Fin, sin_prod_bound.
Qed.

Lemma Analemma_getSolarLongitude_finite (p : Analemma.params) (day e pd : R) :
  Analemma.eccentricity p = Fin e ->
  Analemma.perihelionDay p = Fin pd ->
  exists lon : R, Analemma.getSolarLongitude p (Fin day) = Fin lon.
Proof.
  intros He Hpd. unfold Analemma.getSolarLongitude.
  destruct (Analemma_getMeanAnomaly_finite p day pd Hpd) as [M HM].
  rewrite HM, (Analemma_getTrueAnomaly_Fin p e M He). fin_arith.
  rewrite toRad_Fin. fin_arith. eauto.
Qed.

Lemma Analemma_getSolarDeclination_Fin (p : Analemma.params) (day t lon : R) :
  Analemma.tilt p = Fin t ->
  Analemma.getSolarLongitude p (Fin day) = Fin lon ->
  Analemma.getSolarDeclination p (Fin day)
  = Fin (asin (sin (t * PI / 180) * sin lon) * 180 / PI).
Proof.
  intros Ht Hlon. unfold Analemma.getSolarDeclination.
  rewrite Hlon, Ht, toRad_Fin. fin_arith.
  rewrite Math_asin_Fin by apply sin_prod_bound. apply toDeg_Fin.
Qed.

Lemma toRad_tilt_range (t : R) : 0 <= t <= 90 -> 0 <= t * PI / 180 <= PI / 2.
Proof.
  intros [H0 H1]. pose proof PI_RGT_0 as Hpi. split.
  - apply Rmult_le_pos; [| lra]. apply Rmult_le_pos; lra.
  - assert (t * PI <= 90 * PI) by (apply Rmult_le_compat_r; lra). lra.
Qed.

Lemma degrees_bound (d t : R) :
  - (t * PI / 180) <= d <= t * PI / 180 -> Rabs (d * 180 / PI) <= t.
Proof.
  intros [H1 H2]. pose proof PI_RGT_0 as Hpi.
  assert (Hinv : 0 < 180 / PI) by (apply Rdiv_lt_0_compat; lra).
  assert (Ht : (t * PI / 180) * (180 / PI) = t) by (field; lra).
  replace (d * 180 / PI) with (d * (180 / PI)) by (field; lra).
  assert (Hu : d * (180 / PI) <= (t * PI / 180) * (180 / PI))
    by (apply Rmult_le_compat_r; lra).
  assert (Hl : (- (t * PI / 180)) * (180 / PI) <= d * (180 / PI))
    by (apply Rmult_le_compat_r; lra).
  rewrite <- Ropp_mult_distr_l, Ht in Hl. rewrite Ht in Hu.
  apply Rabs_le. lra.
Qed.

(** C6.  For a tilt in [[0, 90]] degrees the declination is a finite number
    bounded by the tilt, in the unit of each view: the dashboard's
    [getSolarDeclination] (degrees) by [tilt], the solograph's
    [getDeclination] (radians) by the tilt in radians; with [tilt = 0] both
    are exactly 0. *)
Theorem declination_bounded_by_tilt
    (p : Analemma.params) (s : Solograph.t) (day t e pd : R) :
  Analemma.tilt p = Fin t ->
  Analemma.eccentricity p = Fin e ->
  Analemma.perihelionDay p = Fin pd ->
  Solograph.tilt s = Fin t ->
  0 <= t <= 90 ->
  exists deg rad : R,
    Analemma.getSolarDeclination p (Fin day) = Fin deg
    /\ Rabs deg <= t
    /\ Solograph.getDeclination s (Fin day) = Fin rad
    /\ Rabs rad <= t * PI / 180
    /\ Rabs (rad * 180 / PI) <= t
    /\ (t = 0 -> deg = 0 /\ rad = 0).
Proof.
  intros Ht He Hpd Hts Hrange.
  destruct (Analemma_getSolarLongitude_finite p day e pd He Hpd) as [lon Hlon].
  pose proof (toRad_tilt_range t Hrange) as Ho.
  pose proof (asin_sin_prod_bound (t * PI / 180) lon Ho) as B1.
  pose proof (asin_sin_prod_bound (t * PI / 180) (2 * PI * (day - 80) / 365) Ho) as B2.
  exists (asin (sin (t * PI / 180) * sin lon) * 180 / PI),
         (asin (sin (t * PI / 180) * sin (2 * PI * (day - 80) / 365))).
  assert (D1 := degrees_bound _ _ B1). assert (D2 := degrees_bound _ _ B2).
  repeat split.
  - now apply Analemma_getSolarDeclination_Fin.
  - exact D1.
  - now apply Solograph_getDeclination_Fin.
  - apply Rabs_le. lra.
  - exact D2.
  - subst t.
    assert (Hz : asin (sin (0 * PI / 180) * sin lon) = 0) by lra.
    rewrite Hz. unfold Rdiv. ring.
  - subst t. lra.
Qed.

(** With the axis upright the declination is the number 0, not NaN. *)
Lemma declination_bounded_by_tilt_witness :
  exists deg rad : R,
    Analemma.getSolarDeclination (set_tilt Analemma.defaults (Fin 0)) (Fin 172)
    = Fin deg
    /\ Solograph.getDeclination
         {| Solograph.latitude := Fin 40; Solograph.dayOfYear := Fin 172;
            Solograph.tilt := Fin 0; Solograph.hourTraces := ∅ |} (Fin 172)
       = Fin rad
    /\ deg = 0 /\ rad = 0.
Proof.
  edestruct (declination_bounded_by_tilt
    (set_tilt Analemma.defaults (Fin 0))
    {| Solograph.latitude := Fin 40; Solograph.dayOfYear := Fin 172;
       Solograph.tilt := Fin 0; Solograph.hourTraces := ∅ |}
    172 0 0.017 3) as (deg & rad & H1 & _ & H3 & _ & _ & H6);
    [ reflexivity | reflexivity | reflexivity | reflexivity | lra | ].
  exists deg, rad. destruct (H6 eq_refl) as [Hd Hr].
  split; [exact H1 | split; [exact H3 | split; assumption]].
Defined.

(* ===================================================================== *)
(** ** Sunrise, sunset and day length *)
(* ===================================================================== *)

(** The three object literals [getSunTimes] can return. *)
Lemma getSunTimes_unfold (s : Solograph.t) (day : num) :
  Solograph.getSunTimes s day
  = if (cosHourAngle s day <? Fin (-1))%num then
      {| Solograph.sunrise := Fin 0; Solograph.sunset := Fin 24;
         Solograph.dayLength := Fin 24;
         Solograph.neverSets := Some true; Solograph.neverRises := None |}
    else if (cosHourAngle s day >? Fin 1)%num then
      {| Solograph.sunrise := Fin 12; Solograph.sunset := Fin 12;
         Solograph.dayLength := Fin 0;
         Solograph.neverSets := None; Solograph.neverRises := Some true |}
    else
      let ha := (Solograph.toDeg (Math_acos (cosHourAngle s day)) / Fin 15)%num in
      {| Solograph.sunrise := (Fin 12 - ha)%num;
         Solograph.sunset := (Fin 12 + ha)%num;
         Solograph.dayLength := (Fin 12 + ha - (Fin 12 - ha))%num;
         Solograph.neverSets := None; Solograph.neverRises := None |}.
Proof. reflexivity. Qed.

Lemma half_day_arc (c : R) :
  -1 <= c <= 1 -> 0 <= acos c * 180 / PI / 15 <= 12.
Proof.
  intros Hc. pose proof (acos_bound c) as [H0 H1]. pose proof PI_RGT_0 as Hpi.
  assert (Hk : 0 < 12 / PI) by (apply Rdiv_lt_0_compat; lra).
  replace (acos c * 180 / PI / 15) with (acos c * (12 / PI)) by (field; lra).
  split.
  - apply Rmult_le_pos; lra.
  - replace 12 with (PI * (12 / PI)) at 2 by (field; lra).
    apply Rmult_le_compat_r; lra.
Qed.

Lemma getSunTimes_ordinary (s : Solograph.t) (day : num) (c : R) :
  cosHourAngle s day = Fin c -> -1 <= c <= 1 ->
  Solograph.getSunTimes s day
  = {| Solograph.sunrise := Fin (12 - acos c * 180 / PI / 15);
       Solograph.sunset := Fin (12 + acos c * 180 / PI / 15);
       Solograph.dayLength :=
         Fin (12 + acos c * 180 / PI / 15 - (12 - acos c * 180 / PI / 15));
       Solograph.neverSets := None; Solograph.neverRises := None |}.
Proof.
  intros Hc Hr. rewrite getSunTimes_unfold, Hc. unfold ngt.
  rewrite !nlt_Fin_false by lra. cbv zeta.
  rewrite Math_acos_Fin by lra. rewrite Solograph_toDeg_Fin. fin_arith.
  reflexivity.
Qed.

Lemma sin_lt_1_open (o : R) : - (PI / 2) < o < PI / 2 -> -1 < sin o < 1.
Proof.
  intros [H1 H2]. pose proof PI_RGT_0 as Hpi. split.
  - replace (-1) with (sin (- (PI / 2))) by (rewrite sin_neg, sin_PI2; reflexivity).
    apply sin_increasing_1; lra.
  - rewrite <- sin_PI2. apply sin_increasing_1; lra.
Qed.

Lemma toRad_open_range (t : R) :
  -90 < t < 90 -> - (PI / 2) < t * PI / 180 < PI / 2.
Proof.
  intros [H0 H1]. pose proof PI_RGT_0 as Hpi.
  assert (t * PI < 90 * PI) by (apply Rmult_lt_compat_r; lra).
  assert ((-90) * PI < t * PI) by (apply Rmult_lt_compat_r; lra).
  lra.
Qed.

(** The tangent of the program: the real tangent wherever that exists,
    an odd function, and finite at the two poles. *)
Lemma Rtan_tan (x : R) : cos x <> 0 -> Rtan x = tan x.
Proof.
  intros H. unfold Rtan. destruct (Req_dec_T (cos x) 0); [contradiction | reflexivity].
Qed.

Lemma Rtan_neg (x : R) : Rtan (- x) = - Rtan x.
Proof.
  unfold Rtan. rewrite cos_neg, sin_neg.
  destruct (Req_dec_T (cos x) 0) as [Hc | Hc]; [| apply tan_neg].
  assert (Hs : sin x <> 0).
  { intros Hs. pose proof (sin2_cos2 x) as H1. unfold Rsqr in H1.
    rewrite Hc, Hs in H1. lra. }
  destruct (Rlt_dec 0 (sin x)), (Rlt_dec 0 (- sin x)); lra.
Qed.

Lemma Rtan_north_pole : Rtan (90 * PI / 180) = tan_next_to_pole.
Proof.
  replace (90 * PI / 180) with (PI / 2) by field. unfold Rtan.
  rewrite cos_PI2, sin_PI2.
  destruct (Req_dec_T 0 0); [| contradiction].
  destruct (Rlt_dec 0 1); [reflexivity | lra].
Qed.

(** The declination stays strictly between the poles when the tilt does. *)
Lemma declination_open_range (t a : R) :
  -90 < t < 90 ->
  - (PI / 2) < asin (sin (t * PI / 180) * sin a) < PI / 2.
Proof.
  intros Hr.
  pose proof (sin_lt_1_open _ (toRad_open_range t Hr)) as [Hs1 Hs2].
  pose proof (SIN_bound a) as [Ha1 Ha2].
  assert (Hp : -1 < sin (t * PI / 180) * sin a < 1)
    by (destruct (Rle_dec 0 (sin (t * PI / 180))); split; nra).
  apply (asin_bound_lt _ Hp).
Qed.

(** [cosHa] is a number at every latitude, the poles included. *)
Lemma cosHourAngle_Rtan (s : Solograph.t) (day lat t : R) :
  Solograph.latitude s = Fin lat -> Solograph.tilt s = Fin t ->
  cosHourAngle s (Fin day)
  = Fin (- Rtan (lat * PI / 180)
         * Rtan (asin (sin (t * PI / 180) * sin (2 * PI * (day - 80) / 365)))).
Proof.
  intros Hlat Ht. unfold cosHourAngle.
  rewrite (Solograph_getDeclination_Fin s day t Ht), Hlat, Solograph_toRad_Fin.
  reflexivity.
Qed.

(** Away from the poles, and with the axis not lying in the orbital plane,
    [cosHa] is the real number -tan(latitude) tan(declination). *)
Lemma cosHourAngle_Fin (s : Solograph.t) (day lat t : R) :
  Solograph.latitude s = Fin lat -> Solograph.tilt s = Fin t ->
  -90 < lat < 90 -> -90 < t < 90 ->
  cosHourAngle s (Fin day)
  = Fin (- tan (lat * PI / 180)
         * tan (asin (sin (t * PI / 180) * sin (2 * PI * (day - 80) / 365)))).
Proof.
  intros Hlat Ht Hl Hr. rewrite (cosHourAngle_Rtan s day lat t Hlat Ht).
  pose proof (toRad_open_range lat Hl) as [Hl1 Hl2].
  pose proof (declination_open_range t (2 * PI * (day - 80) / 365) Hr) as [Hd1 Hd2].
  rewrite !Rtan_tan by (apply Rgt_not_eq, cos_gt_0; lra).
  reflexivity.
Qed.

(** C2.  At every latitude from -90 to 90, the poles included, and on
    every day, [getSunTimes] computes the number
    cosHa = -tan(latitude) tan(declination) (the tangent being that of the
    program, finite at a pole) and branches on it: below -1 it returns the
    midnight-sun record (0, 24, 24, neverSets), above 1 the polar-night
    record (12, 12, 0, neverRises), and in between sunrise = 12 - Ha and
    sunset = 12 + Ha with Ha = acos(cosHa) in degrees over 15.  Whenever
    neither flag is set, sunrise + sunset = 24 and
    dayLength = sunset - sunrise lies in [[0, 24]]. *)
Theorem getSunTimes_three_branches (s : Solograph.t) (day lat t : R) :
  Solograph.latitude s = Fin lat ->
  Solograph.tilt s = Fin t ->
  -90 <= lat <= 90 ->
  let r := Solograph.getSunTimes s (Fin day) in
  let dec := asin (sin (t * PI / 180) * sin (2 * PI * (day - 80) / 365)) in
  let c := - Rtan (lat * PI / 180) * Rtan dec in
  let midnightSun :=
    {| Solograph.sunrise := Fin 0; Solograph.sunset := Fin 24;
       Solograph.dayLength := Fin 24;
       Solograph.neverSets := Some true; Solograph.neverRises := None |} in
  let polarNight :=
    {| Solograph.sunrise := Fin 12; Solograph.sunset := Fin 12;
       Solograph.dayLength := Fin 0;
       Solograph.neverSets := None; Solograph.neverRises := Some true |} in
  cosHourAngle s (Fin day) = Fin c
  /\ (-90 < lat < 90 -> -90 < t < 90 ->
      c = - tan (lat * PI / 180) * tan dec)
  /\ (c < -1 -> r = midnightSun)
  /\ (c > 1 -> r = polarNight)
  /\ (-1 <= c <= 1 ->
        let Ha := acos c * 180 / PI / 15 in
        r = {| Solograph.sunrise := Fin (12 - Ha);
               Solograph.sunset := Fin (12 + Ha);
               Solograph.dayLength := Fin (12 + Ha - (12 - Ha));
               Solograph.neverSets := None; Solograph.neverRises := None |}
        /\ 0 <= Ha <= 12)
  /\ (Solograph.neverSets r = None -> Solograph.neverRises r = None ->
      exists sr ss : R,
        Solograph.sunrise r = Fin sr /\ Solograph.sunset r = Fin ss
        /\ Solograph.dayLength r = Fin (ss - sr)
        /\ sr + ss = 24 /\ 0 <= ss - sr <= 24).
Proof.
  intros Hlat Ht Hl r dec c midnightSun polarNight.
  pose proof (cosHourAngle_Rtan s day lat t Hlat Ht) as Hc. fold dec c in Hc.
  assert (Hmid : c < -1 -> r = midnightSun).
  { intros Hlt. subst r. rewrite getSunTimes_unfold, Hc.
    rewrite nlt_Fin_true by assumption. reflexivity. }
  assert (Hpol : c > 1 -> r = polarNight).
  { intros Hgt. subst r. rewrite getSunTimes_unfold, Hc. unfold ngt.
    rewrite nlt_Fin_false by lra. rewrite nlt_Fin_true by lra. reflexivity. }
  assert (Hord : -1 <= c <= 1 ->
            let Ha := acos c * 180 / PI / 15 in
            r = {| Solograph.sunrise := Fin (12 - Ha);
                   Solograph.sunset := Fin (12 + Ha);
                   Solograph.dayLength := Fin (12 + Ha - (12 - Ha));
                   Solograph.neverSets := None; Solograph.neverRises := None |}
            /\ 0 <= Ha <= 12).
  { intros Hr Ha. split; [| now apply half_day_arc].
    now apply getSunTimes_ordinary. }
  split; [exact Hc |].
  split.
  { intros Hlo Hr. unfold c.
    pose proof (toRad_open_range lat Hlo) as [Hl1 Hl2].
    pose proof (declination_open_range t (2 * PI * (day - 80) / 365) Hr)
      as [Hd1 Hd2]. fold dec in Hd1, Hd2.
    rewrite !Rtan_tan by (apply Rgt_not_eq, cos_gt_0; lra). reflexivity. }
  split; [exact Hmid |]. split; [exact Hpol |]. split; [exact Hord |].
  intros Hs Hr.
  destruct (Rlt_dec c (-1)) as [Hlo | Hlo].
  { rewrite (Hmid Hlo) in Hs. discriminate. }
  destruct (Rlt_dec 1 c) as [Hhi | Hhi].
  { rewrite (Hpol Hhi) in Hr. discriminate. }
  assert (Hrange : -1 <= c <= 1) by lra.
  destruct (Hord Hrange) as [Heq [H0 H12]].
  exists (12 - acos c * 180 / PI / 15), (12 + acos c * 180 / PI / 15).
  rewrite Heq. cbn. repeat split; lra.
Qed.

(** C10.  Only the branch taken contributes its flag: the midnight-sun
    record carries [neverSets] and no [neverRises], the polar-night record
    [neverRises] and no [neverSets], the ordinary record neither; a flag is
    never present with the value false. *)
Theorem getSunTimes_flag_presence (s : Solograph.t) (day : num) :
  let r := Solograph.getSunTimes s day in
  let cosHa := cosHourAngle s day in
  ((cosHa <? Fin (-1))%num = true
   /\ Solograph.neverSets r = Some true /\ Solograph.neverRises r = None)
  \/ ((cosHa <? Fin (-1))%num = false /\ (cosHa >? Fin 1)%num = true
      /\ Solograph.neverSets r = None /\ Solograph.neverRises r = Some true)
  \/ ((cosHa <? Fin (-1))%num = false /\ (cosHa >? Fin 1)%num = false
      /\ Solograph.neverSets r = None /\ Solograph.neverRises r = None).
Proof.
  intros r cosHa. subst r. rewrite getSunTimes_unfold. fold cosHa.
  destruct (cosHa <? Fin (-1))%num; [left; auto |].
  destruct (cosHa >? Fin 1)%num; right; [left | right]; auto.
Qed.

(* ===================================================================== *)
(** ** Trace generation *)
(* ===================================================================== *)

Section Loops.
Context {A : Type}.
Implicit Types (body : Z -> A -> A) (acc : A).

Lemma for_upto_continue i hi body acc :
  (i <= hi)%Z ->
  for_upto i hi body acc = for_upto (i + 1) hi body (body i acc).
Proof.
  intros H. rewrite for_upto_equation_1 at 1.
  destruct (decide (i <= hi)%Z); [reflexivity | contradiction].
Qed.

Lemma for_upto_exit i hi body acc :
  (hi < i)%Z -> for_upto i hi body acc = acc.
Proof.
  intros H. rewrite for_upto_equation_1.
  destruct (decide (i <= hi)%Z); [lia | reflexivity].
Qed.

(** The loop runs its body once for each of [i, i+1, ..., hi], in order. *)
Lemma for_upto_fold (n : nat) i body acc :
  for_upto i (i + Z.of_nat n - 1) body acc
  = fold_left (fun a x => body x a) (seqZ i (Z.of_nat n)) acc.
Proof.
  revert i acc. induction n as [| n IH]; intros i acc.
  - rewrite for_upto_exit by lia. now rewrite seqZ_nil by lia.
  - rewrite for_upto_continue by lia.
    rewrite seqZ_cons by lia. cbn [fold_left].
    replace (Z.pred (Z.of_nat (S n))) with (Z.of_nat n) by lia.
    replace (i + Z.of_nat (S n) - 1)%Z with (Z.succ i + Z.of_nat n - 1)%Z by lia.
    replace (i + 1)%Z with (Z.succ i) by lia. apply IH.
Qed.

Lemma for_step_continue i bound step body acc :
  (i < bound)%Z ->
  for_step i bound step body acc
  = for_step (i + Z.pos step) bound step body (body i acc).
Proof.
  intros H. rewrite for_step_equation_1 at 1.
  destruct (decide (i < bound)%Z); [reflexivity | contradiction].
Qed.

Lemma for_step_exit i bound step body acc :
  (bound <= i)%Z -> for_step i bound step body acc = acc.
Proof.
  intros H. rewrite for_step_equation_1.
  destruct (decide (i < bound)%Z); [lia | reflexivity].
Qed.

(** A stepped loop that starts at [i] and leaves after exactly [n] rounds
    runs its body on [i, i + step, ..., i + (n-1) step], in order. *)
Lemma for_step_fold (n : nat) i bound step body acc :
  (bound <= i + Z.of_nat n * Z.pos step)%Z ->
  (n = 0%nat \/ i + (Z.of_nat n - 1) * Z.pos step < bound)%Z ->
  for_step i bound step body acc
  = fold_left (fun a x => body x a)
      ((fun k => i + k * Z.pos step)%Z <$> seqZ 0 (Z.of_nat n)) acc.
Proof.
  revert i acc. induction n as [| n IH]; intros i acc Hend Hlast.
  - rewrite for_step_exit by lia. now rewrite seqZ_nil by lia.
  - destruct Hlast as [Hn | Hlast]; [discriminate |].
    rewrite for_step_continue by nia.
    rewrite seqZ_cons by lia. rewrite fmap_cons. cbn [fold_left].
    replace (i + 0 * Z.pos step)%Z with i by lia.
    replace (Z.pred (Z.of_nat (S n))) with (Z.of_nat n) by lia.
    rewrite IH.
    + f_equal. change (Z.succ 0) with (1 + 0)%Z.
      rewrite <- fmap_add_seqZ, <- list_fmap_compose.
      apply list_fmap_ext. intros _ k _. cbn. lia.
    + lia.
    + destruct n as [| n]; [now left | right]. lia.
Qed.

End Loops.

Lemma fold_left_push {A B : Type} (f : B -> A) (l : list B) (acc : list A) :
  fold_left (fun (a : list A) (x : B) => a ++ [f x]) l acc = acc ++ (f <$> l).
Proof.
  revert acc. induction l as [| x l IH]; intros acc; cbn.
  - now rewrite app_nil_r.
  - rewrite IH, <- app_assoc. reflexivity.
Qed.

Lemma getSunPath_points (this : Solograph.t) (day : num) :
  Solograph.getSunPath this day
  = pathPointOf this day <$> ((fun k => 5 * k)%Z <$> seqZ 0 288).
Proof.
  unfold Solograph.getSunPath.
  rewrite (for_step_fold (Z.to_nat 288)) by (rewrite ?Z2Nat.id; lia).
  rewrite Z2Nat.id by lia.
  change (fun (a : list Solograph.Path.point) (x : Z) => _)
    with (fun (a : list Solograph.Path.point) (x : Z) => a ++ [pathPointOf this day x]).
  rewrite fold_left_push. cbn [app].
  f_equal; try (apply list_fmap_ext; intros _ k _; lia).
Qed.

Lemma pathPointOf_hour (this : Solograph.t) (day : num) (m : Z) :
  Solograph.Path.hour (pathPointOf this day m) = Fin (IZR m / 60).
Proof. cbn. apply ndiv_Fin. lra. Qed.

Lemma pushTracePoint_fold (this : Solograph.t) (h : Z) (ds : list Z)
    (m : gmap Z (list Solograph.Trace.point)) (l0 : list Solograph.Trace.point) :
  m !! h = Some l0 ->
  fold_left (fun a d => Solograph.pushTracePoint this h d a) ds m
  = <[h := l0 ++ (tracePointOf this h <$> ds)]> m.
Proof.
  revert m l0. induction ds as [| d ds IH]; intros m l0 Hm; cbn [fold_left].
  - cbn. rewrite app_nil_r. symmetry. now apply insert_id.
  - rewrite (IH _ (l0 ++ [tracePointOf this h d])).
    + unfold Solograph.pushTracePoint. rewrite insert_alter_eq.
      rewrite fmap_cons, <- app_assoc. reflexivity.
    + unfold Solograph.pushTracePoint. rewrite lookup_alter_eq, Hm. reflexivity.
Qed.

(** One round of the outer loop stores the whole yearly trace of its hour. *)
Lemma hour_round (this : Solograph.t) (h : Z)
    (m : gmap Z (list Solograph.Trace.point)) :
  for_upto 1 365 (Solograph.pushTracePoint this h) (<[h := []]> m)
  = <[h := tracePointOf this h <$> seqZ 1 365]> m.
Proof.
  change 365%Z with (1 + Z.of_nat (Z.to_nat 365) - 1)%Z at 1.
  rewrite for_upto_fold, Z2Nat.id by lia.
  rewrite (pushTracePoint_fold this h _ _ []) by apply lookup_insert_eq.
  cbn [app]. apply insert_insert_eq.
Qed.

Lemma fold_insert_notin {V : Type} (g : Z -> V) (hs : list Z) (m : gmap Z V) (h : Z) :
  h ∉ hs -> fold_left (fun a x => <[x := g x]> a) hs m !! h = m !! h.
Proof.
  revert m. induction hs as [| x hs IH]; intros m Hh; cbn [fold_left]; [reflexivity |].
  apply not_elem_of_cons in Hh as [Hx Hhs].
  rewrite IH by assumption. now apply lookup_insert_ne.
Qed.

Lemma fold_insert_in {V : Type} (g : Z -> V) (hs : list Z) (m : gmap Z V) (h : Z) :
  h ∈ hs -> fold_left (fun a x => <[x := g x]> a) hs m !! h = Some (g h).
Proof.
  revert m. induction hs as [| x hs IH]; intros m Hh; cbn [fold_left].
  - now apply elem_of_nil in Hh.
  - destruct (decide (h ∈ hs)) as [Hin | Hnin]; [now apply IH |].
    apply elem_of_cons in Hh as [-> | Hin]; [| contradiction].
    rewrite fold_insert_notin by assumption. apply lookup_insert_eq.
Qed.

Lemma initializeHourTraces_map (this : Solograph.t) :
  Solograph.hourTraces (Solograph.initializeHourTraces this)
  = fold_left (fun a h => <[h := tracePointOf this h <$> seqZ 1 365]> a)
      (seqZ 5 15) ∅.
Proof.
  unfold Solograph.initializeHourTraces. cbn [Solograph.hourTraces Solograph.set_hourTraces].
  change 19%Z with (5 + Z.of_nat (Z.to_nat 15) - 1)%Z.
  rewrite for_upto_fold, Z2Nat.id by lia.
  generalize (∅ : gmap Z (list Solograph.Trace.point)).
  induction (seqZ 5 15) as [| h hs IH]; intros m; cbn [fold_left]; [reflexivity |].
  rewrite hour_round. apply IH.
Qed.

(** C9.  [getSunPath] returns exactly 288 points, the k-th at hour 5k/60,
    strictly increasing; [initializeHourTraces] stores under each hour from
    5 to 19 (and under no other key) exactly 365 entries, the k-th being
    the entry of day k+1. *)
Theorem traces_are_ordered (this : Solograph.t) (day : num) :
  let path := Solograph.getSunPath this day in
  let traces := Solograph.hourTraces (Solograph.initializeHourTraces this) in
  path = pathPointOf this day <$> ((fun k => 5 * k)%Z <$> seqZ 0 288)
  /\ length path = 288%nat
  /\ (forall k : nat, (k < 288)%nat ->
        Solograph.Path.hour <$> path !! k = Some (Fin (IZR (5 * Z.of_nat k) / 60)))
  /\ (forall j k : nat, (j < k)%nat ->
        IZR (5 * Z.of_nat j) / 60 < IZR (5 * Z.of_nat k) / 60)
  /\ (forall h : Z, (5 <= h <= 19)%Z ->
        traces !! h = Some (tracePointOf this h <$> seqZ 1 365))
  /\ (forall h : Z, ~ (5 <= h <= 19)%Z -> traces !! h = None)
  /\ (forall h : Z, length (tracePointOf this h <$> seqZ 1 365) = 365%nat)
  /\ (forall (h : Z) (k : nat), (k < 365)%nat ->
        Solograph.Trace.day <$> (tracePointOf this h <$> seqZ 1 365) !! k
        = Some (1 + Z.of_nat k)%Z).
Proof.
  intros path traces. subst path traces.
  rewrite getSunPath_points, initializeHourTraces_map.
  split; [reflexivity |]. split; [| split; [| split; [| split; [| split; [| split]]]]].
  - now rewrite !length_fmap, length_seqZ.
  - intros k Hk.
    rewrite !list_lookup_fmap, lookup_seqZ_lt by lia.
    cbn [fmap option_fmap option_map]. rewrite pathPointOf_hour.
    do 3 f_equal; lia.
  - intros j k Hjk.
    apply Rmult_lt_compat_r; [lra |]. apply IZR_lt. lia.
  - intros h Hh.
    apply (fold_insert_in (fun x => tracePointOf this x <$> seqZ 1 365)).
    apply elem_of_seqZ. lia.
  - intros h Hh.
    rewrite (fold_insert_notin (fun x => tracePointOf this x <$> seqZ 1 365));
      [apply lookup_empty |].
    rewrite elem_of_seqZ. lia.
  - intros h. now rewrite length_fmap, length_seqZ.
  - intros h k Hk. rewrite list_lookup_fmap, lookup_seqZ_lt by lia. reflexivity.
Qed.

Lemma traces_are_ordered_witness :
  length (Solograph.getSunPath Solograph.initial (Fin 172)) = 288%nat
  /\ Solograph.Path.hour <$> Solograph.getSunPath Solograph.initial (Fin 172) !! 287%nat
     = Some (Fin (IZR (5 * Z.of_nat 287) / 60))
  /\ Solograph.hourTraces (Solograph.initializeHourTraces Solograph.initial) !! 12%Z
     = Some (tracePointOf Solograph.initial 12 <$> seqZ 1 365)
  /\ Solograph.hourTraces (Solograph.initializeHourTraces Solograph.initial) !! 20%Z
     = None
  /\ Solograph.Trace.day <$> (tracePointOf Solograph.initial 12 <$> seqZ 1 365) !! 364%nat
     = Some (1 + Z.of_nat 364)%Z.
Proof.
  destruct (traces_are_ordered Solograph.initial (Fin 172))
    as (_ & Hlen & Hhour & _ & Hin & Hout & _ & Hday).
  split; [exact Hlen |].
  split; [apply Hhour; lia |].
  split; [apply Hin; lia |].
  split; [apply Hout; lia | apply Hday; lia].
Defined.

(* ===================================================================== *)
(** ** Equatorial to horizontal coordinates *)
(* ===================================================================== *)

Lemma clamp_range (x : R) : -1 <= Rmax (-1) (Rmin 1 x) <= 1.
Proof.
  unfold Rmax, Rmin.
  destruct (Rle_dec 1 x); destruct (Rle_dec (-1) _); lra.
Qed.

Lemma clamp_id (x : R) : -1 <= x <= 1 -> Rmax (-1) (Rmin 1 x) = x.
Proof.
  intros H. unfold Rmax, Rmin.
  destruct (Rle_dec 1 x); destruct (Rle_dec (-1) _); lra.
Qed.

(** The sine of the altitude is a cosine of an angular distance. *)
Lemma sinAlt_bound (dec lat ha : R) :
  -1 <= sin dec * sin lat + cos dec * cos lat * cos ha <= 1.
Proof.
  pose proof (sin2_cos2 dec) as Hd. pose proof (sin2_cos2 lat) as Hl.
  pose proof (COS_bound ha) as [Hh1 Hh2]. unfold Rsqr in Hd, Hl.
  set (a := sin dec) in *. set (b := cos dec) in *.
  set (c := sin lat) in *. set (d := cos lat) in *. set (h := cos ha) in *.
  assert (H1 : 0 <= (a * d * h - b * c) ^ 2) by apply pow2_ge_0.
  assert (H2 : 0 <= d ^ 2 * (1 - h ^ 2)) by (apply Rmult_le_pos; [apply pow2_ge_0 | nra]).
  assert (H3 : 0 <= (b * d) ^ 2 * (1 - h ^ 2))
    by (apply Rmult_le_pos; [apply pow2_ge_0 | nra]).
  assert (Hsq : (a * c + b * d * h) ^ 2 <= 1).
  { assert (E : (a * c + b * d * h) ^ 2 + (a * d * h - b * c) ^ 2
                = (a * a + b * b) * (c * c + d * d * h * h)) by ring.
    rewrite Hd in E. nra. }
  split; nra.
Qed.

Lemma cos_asin_nonneg (x : R) : 0 <= cos (asin x).
Proof. pose proof (asin_bound x) as [H1 H2]. apply cos_ge_0; lra. Qed.

Lemma toRad_latitude_range (lat : R) :
  -90 <= lat <= 90 -> - (PI / 2) <= lat * PI / 180 <= PI / 2.
Proof.
  intros [H0 H1]. pose proof PI_RGT_0 as Hpi.
  assert (lat * PI <= 90 * PI) by (apply Rmult_le_compat_r; lra).
  assert ((-90) * PI <= lat * PI) by (apply Rmult_le_compat_r; lra).
  lra.
Qed.

Lemma Rabs_bound_inv (a b : R) : Rabs a <= b -> - b <= a <= b.
Proof. unfold Rabs. destruct (Rcase_abs a); lra. Qed.

Lemma altitude_degrees_range (x : R) : -90 <= asin x * 180 / PI <= 90.
Proof.
  pose proof (asin_bound x) as [H1 H2].
  assert (B : Rabs (asin x * 180 / PI) <= 90).
  { apply degrees_bound. split; lra. }
  apply Rabs_bound_inv in B. lra.
Qed.

Lemma Solograph_equatorialToHorizontal_Fin (H dec lat : R) :
  -90 <= lat <= 90 ->
  let ha := H * 15 * PI / 180 in
  let phi := lat * PI / 180 in
  let sinAlt := sin dec * sin phi + cos dec * cos phi * cos ha in
  let alt := asin (Rmax (-1) (Rmin 1 sinAlt)) in
  let cosAz := (sin dec - sin phi * sinAlt) / (cos phi * cos alt + 0.0001) in
  let sinAz := - sin ha * cos dec / (cos alt + 0.0001) in
  Solograph.equatorialToHorizontal (Fin H) (Fin dec) (Fin lat)
  = {| altitude := Fin (alt * 180 / PI);
       azimuth := Fin (Ratan2 sinAz cosAz * 180 / PI) |}.
Proof.
  intros Hlat ha phi sinAlt alt cosAz sinAz.
  pose proof (toRad_latitude_range lat Hlat) as [Hp1 Hp2].
  assert (Hcphi : 0 <= cos phi) by (apply cos_ge_0; assumption).
  assert (Hcalt : 0 <= cos alt) by apply cos_asin_nonneg.
  assert (Hprod : 0 <= cos phi * cos alt) by now apply Rmult_le_pos.
  unfold Solograph.equatorialToHorizontal. cbn [nmul].
  rewrite !Solograph_toRad_Fin. fin_arith. fold ha phi. fold sinAlt.
  cbn [Math_max Math_min].
  rewrite Math_asin_Fin by apply clamp_range. fold alt.
  rewrite Solograph_toDeg_Fin. fin_arith.
  cbn [Math_atan2]. rewrite Solograph_toDeg_Fin. reflexivity.
Qed.







(** *** The sky view, away from the poles and from the zenith *)

Lemma cos_asin_pos (x : R) : -1 < x < 1 -> 0 < cos (asin x).
Proof.
  intros Hx. pose proof (asin_bound_lt x Hx) as [H1 H2]. apply cos_gt_0; lra.
Qed.

Lemma Sky_equatorialToHorizontal_Some (H dec lat : R) :
  let ha := H * 15 * PI / 180 in
  let phi := lat * PI / 180 in
  let sinAlt := sin dec * sin phi + cos dec * cos phi * cos ha in
  let alt := asin sinAlt in
  cos phi * cos alt <> 0 ->
  Sky.equatorialToHorizontal (Fin H) (Fin dec) (Fin lat)
  = Some {| altitude := Fin (alt * 180 / PI);
            azimuth :=
              Fin (Ratan2 (- sin ha * cos dec / cos alt)
                          ((sin dec - sin phi * sinAlt) / (cos phi * cos alt))
                   * 180 / PI) |}.
Proof.
  intros ha phi sinAlt alt Hden.
  assert (Hcalt : cos alt <> 0) by (intros H0; apply Hden; rewrite H0; ring).
  unfold Sky.equatorialToHorizontal. cbn [nmul].
  rewrite !Sky_toRad_Fin. fin_arith. fold ha phi. fold sinAlt.
  rewrite Math_asin_Fin by apply sinAlt_bound. fold alt.
  cbn [Math_cos nmul is_zero].
  destruct (Req_dec_T (cos phi * cos alt) 0) as [H0 | _]; [contradiction |].
  rewrite !ndiv_Fin by assumption.
  cbn [Math_atan2]. rewrite !Sky_toDeg_Fin. reflexivity.
Qed.

(** Where an exact cosine vanishes, at a pole or at the zenith, the
    model of the sky view gives no position. *)
Lemma Sky_equatorialToHorizontal_None (H dec lat : R) :
  let ha := H * 15 * PI / 180 in
  let phi := lat * PI / 180 in
  let sinAlt := sin dec * sin phi + cos dec * cos phi * cos ha in
  cos phi * cos (asin sinAlt) = 0 ->
  Sky.equatorialToHorizontal (Fin H) (Fin dec) (Fin lat) = None.
Proof.
  intros ha phi sinAlt Hden.
  unfold Sky.equatorialToHorizontal. cbn [nmul].
  rewrite !Sky_toRad_Fin. fin_arith. fold ha phi. fold sinAlt.
  rewrite Math_asin_Fin by apply sinAlt_bound.
  cbn [Math_cos nmul is_zero].
  destruct (Req_dec_T (cos phi * cos (asin sinAlt)) 0); [reflexivity | contradiction].
Qed.



(** *** The padding at moderate altitude *)



Lemma asin_pos (x : R) : 0 < x <= 1 -> 0 < asin x.
Proof.
  intros [H0 H1]. destruct (Rlt_le_dec 0 (asin x)) as [H | H]; [assumption | exfalso].
  pose proof (asin_bound x) as [Hb _]. pose proof PI_RGT_0 as Hpi.
  assert (Hs : 0 <= sin (- asin x)) by (apply sin_ge_0; lra).
  rewrite sin_neg, sin_asin in Hs by lra. lra.
Qed.




Lemma declination_day172_range :
  0 < asin (sin (23.44 * PI / 180) * sin (2 * PI * (172 - 80) / 365)) < PI / 2.
Proof.
  pose proof PI_RGT_0 as Hpi.
  assert (Ho : 0 < sin (23.44 * PI / 180) < 1).
  { split; [apply sin_gt_0; lra |].
    apply (sin_lt_1_open (23.44 * PI / 180)). apply toRad_open_range. lra. }
  assert (Ha : 0 < sin (2 * PI * (172 - 80) / 365)) by (apply sin_gt_0; lra).
  pose proof (SIN_bound (2 * PI * (172 - 80) / 365)) as [_ Ha1].
  assert (Hx : 0 < sin (23.44 * PI / 180) * sin (2 * PI * (172 - 80) / 365) < 1)
    by (split; nra).
  split; [apply asin_pos; lra |]. apply asin_bound_lt. lra.
Qed.


(* ===================================================================== *)
(** ** Apparent against mean solar time *)
(* ===================================================================== *)

(** Strictly between the poles and for an hour angle that is neither 0
    nor 12 hours, the Sun is neither at the zenith nor at the nadir. *)
Lemma sinAlt_strict (dec phi ha : R) :
  - (PI / 2) < phi < PI / 2 -> - (PI / 2) < dec < PI / 2 ->
  -1 < cos ha < 1 ->
  -1 < sin dec * sin phi + cos dec * cos phi * cos ha < 1.
Proof.
  intros Hphi Hdec Hc.
  assert (Hcp : 0 < cos phi) by (apply cos_gt_0; lra).
  assert (Hcd : 0 < cos dec) by (apply cos_gt_0; lra).
  assert (Hp : 0 < cos dec * cos phi) by now apply Rmult_lt_0_compat.
  pose proof (COS_bound (phi - dec)) as [_ Hu].
  pose proof (COS_bound (phi + dec)) as [_ Hl].
  rewrite cos_minus in Hu. rewrite cos_plus in Hl.
  assert (HQ : - (cos dec * cos phi) < cos dec * cos phi * cos ha
               < cos dec * cos phi) by (split; nra).
  split; lra.
Qed.

Lemma cos_Rabs (x : R) : cos (Rabs x) = cos x.
Proof.
  unfold Rabs. destruct (Rcase_abs x); [apply cos_neg | reflexivity].
Qed.

Lemma hour_angle_Rabs (H : R) : Rabs (H * 15 * PI / 180) = Rabs H * (PI / 12).
Proof.
  pose proof PI_RGT_0 as Hpi.
  replace (H * 15 * PI / 180) with (H * (PI / 12)) by field.
  rewrite Rabs_mult, (Rabs_right (PI / 12)); [reflexivity | lra].
Qed.

(** The cosine of the hour angle falls as the hour angle moves away from
    noon, up to 12 hours on either side. *)
Lemma cos_hour_angle_order (H1 H2 : R) :
  Rabs H1 < Rabs H2 -> Rabs H2 <= 12 ->
  cos (H2 * 15 * PI / 180) < cos (H1 * 15 * PI / 180).
Proof.
  intros Hlt Hle. pose proof PI_RGT_0 as Hpi.
  rewrite <- (cos_Rabs (H1 * 15 * PI / 180)), <- (cos_Rabs (H2 * 15 * PI / 180)).
  rewrite !hour_angle_Rabs.
  pose proof (Rabs_pos H1) as H0.
  apply cos_decreasing_1; nra.
Qed.

Lemma cos_hour_angle_strict (H : R) :
  0 < Rabs H < 12 -> -1 < cos (H * 15 * PI / 180) < 1.
Proof.
  intros [H0 H12]. pose proof PI_RGT_0 as Hpi. split.
  - replace (-1) with (cos (12 * 15 * PI / 180))
      by (replace (12 * 15 * PI / 180) with PI by field; apply cos_PI).
    apply cos_hour_angle_order; [| rewrite Rabs_right; lra].
    rewrite (Rabs_right 12); lra.
  - replace 1 with (cos (0 * 15 * PI / 180))
      by (replace (0 * 15 * PI / 180) with 0 by lra; apply cos_0).
    apply cos_hour_angle_order; [rewrite Rabs_R0; lra | lra].
Qed.

Lemma Sky_equatorialToHorizontal_altitude (H dec lat : R) :
  -90 < lat < 90 -> - (PI / 2) < dec < PI / 2 -> 0 < Rabs H < 12 ->
  altitude <$> Sky.equatorialToHorizontal (Fin H) (Fin dec) (Fin lat)
  = Some (Fin (asin (sin dec * sin (lat * PI / 180)
                     + cos dec * cos (lat * PI / 180) * cos (H * 15 * PI / 180))
               * 180 / PI)).
Proof.
  intros Hlat Hdec HH.
  pose proof (toRad_open_range lat Hlat) as Hphi.
  pose proof (sinAlt_strict dec _ _ Hphi Hdec (cos_hour_angle_strict H HH)) as Hs.
  rewrite Sky_equatorialToHorizontal_Some.
  - reflexivity.
  - apply Rgt_not_eq, Rmult_lt_0_compat;
      [apply cos_gt_0; lra | now apply cos_asin_pos].
Qed.

Lemma Solograph_equatorialToHorizontal_altitude (H dec lat : R) :
  -90 <= lat <= 90 ->
  altitude (Solograph.equatorialToHorizontal (Fin H) (Fin dec) (Fin lat))
  = Fin (asin (sin dec * sin (lat * PI / 180)
               + cos dec * cos (lat * PI / 180) * cos (H * 15 * PI / 180))
         * 180 / PI).
Proof.
  intros Hlat.
  rewrite (Solograph_equatorialToHorizontal_Fin H dec lat Hlat). cbn [altitude].
  rewrite clamp_id by apply sinAlt_bound. reflexivity.
Qed.

Lemma asin_lt_neq (x y : R) :
  -1 <= x -> x < y -> y <= 1 -> asin x * 180 / PI <> asin y * 180 / PI.
Proof.
  intros Hx Hxy Hy Heq. pose proof PI_RGT_0 as Hpi.
  assert (Ha : asin x = asin y).
  { apply Rmult_eq_reg_r with (r := 180 / PI).
    - unfold Rdiv in *. rewrite <- !Rmult_assoc. exact Heq.
    - apply Rgt_not_eq, Rdiv_lt_0_compat; lra. }
  assert (Hs : sin (asin x) = sin (asin y)) by now rewrite Ha.
  rewrite !sin_asin in Hs by lra. lra.
Qed.

(** Day 80, the spring equinox of the model: mean anomaly of the sky view
    with its perihelion on day 3. *)
Lemma posmod_442 : posmod (80 - 3 + 365) 365 = 77.
Proof.
  replace (80 - 3 + 365) with (IZR 442) by lra.
  rewrite (posmod_IZR 442 365) by lia. reflexivity.
Qed.

Lemma Sky_meanAnomaly_day80 :
  Sky.getMeanAnomaly Sky.defaults (Fin 80) = Fin (2 * PI * 77 / 365).
Proof.
  rewrite (Sky_getMeanAnomaly_Fin Sky.defaults 80 3) by (reflexivity || lra).
  now rewrite posmod_442.
Qed.

Lemma M80_range : 0 < 2 * PI * 77 / 365 < PI.
Proof. pose proof PI_RGT_0. split; lra. Qed.

(** The equation of center on day 80 is a small positive angle. *)
Lemma center_day80_range :
  let M := 2 * PI * 77 / 365 in
  0 < 2 * 0.0167 * sin M + 1.25 * 0.0167 * 0.0167 * sin (2 * M) < 1.
Proof.
  intros M. destruct M80_range as [H0 H1]. fold M in H0, H1.
  assert (Hs : 0 < sin M) by now apply sin_gt_0.
  pose proof (SIN_bound M) as [_ Hs1]. pose proof (COS_bound M) as [Hc0 Hc1].
  rewrite sin_2a. split; nra.
Qed.

Lemma Sky_declination_day80 :
  let M := 2 * PI * 77 / 365 in
  let C := 2 * 0.0167 * sin M + 1.25 * 0.0167 * 0.0167 * sin (2 * M) in
  Sky.getDeclination Sky.defaults (Fin 80)
  = Fin (asin (sin (23.44 * PI / 180) * sin (C + PI))).
Proof.
  intros M C. unfold Sky.getDeclination.
  rewrite Sky_meanAnomaly_day80. fold M.
  rewrite (Sky_getTrueAnomaly_Fin Sky.defaults 0.0167 M) by reflexivity.
  cbn [Sky.tilt Sky.perihelionDay Sky.defaults nsub nneg nadd nmul].
  rewrite !Sky_toRad_Fin. fin_arith. rewrite !Sky_toRad_Fin. fin_arith.
  rewrite Math_asin_Fin by apply sin_prod_bound.
  replace (trueAnomalySeries2 0.0167 M + 360 * (3 + - (80)) / 365 * PI / 180 + PI)
    with (C + PI) by (unfold trueAnomalySeries2, C, M; field).
  reflexivity.
Qed.

Lemma Sky_equationOfTime_day80 :
  let M := 2 * PI * 77 / 365 in
  let C := 2 * 0.0167 * sin M + 1.25 * 0.0167 * 0.0167 * sin (2 * M) in
  Sky.getEquationOfTime Sky.defaults (Fin 80) = Fin (- C * 24 / (2 * PI)).
Proof.
  intros M C. pose proof PI_RGT_0 as Hpi. unfold Sky.getEquationOfTime.
  rewrite Sky_meanAnomaly_day80. fold M.
  cbn [Sky.tilt Sky.eccentricity Sky.defaults nsub nneg nadd nmul].
  rewrite !Sky_toRad_Fin. fin_arith. rewrite !Sky_toRad_Fin. fin_arith.
  rewrite Math_tan_Fin by (apply cos_half_tilt_neq0; lra).
  fin_arith.
  replace (2 * (360 * (80 + - (80)) / 365 * PI / 180)) with 0 by (field; lra).
  replace (4 * (360 * (80 + - (80)) / 365 * PI / 180)) with 0 by (field; lra).
  rewrite sin_0. f_equal. unfold C. field. lra.
Qed.

Lemma initializeHourTraces_lookup (g : Solograph.t) (h : Z) :
  (5 <= h <= 19)%Z ->
  Solograph.hourTraces (Solograph.initializeHourTraces g) !! h
  = Some (tracePointOf g h <$> seqZ 1 365).
Proof.
  intros Hh. rewrite initializeHourTraces_map.
  apply (fold_insert_in (fun x => tracePointOf g x <$> seqZ 1 365)).
  apply elem_of_seqZ. lia.
Qed.

Lemma yearly_trace_lookup (g : Solograph.t) (h d : Z) :
  (1 <= d <= 365)%Z ->
  (tracePointOf g h <$> seqZ 1 365) !! Z.to_nat (d - 1) = Some (tracePointOf g h d).
Proof.
  intros Hd. rewrite list_lookup_fmap, lookup_seqZ_lt by lia.
  cbn. do 2 f_equal. lia.
Qed.

(** One declination, one latitude, two hour angles at different
    distances from noon: two altitudes. *)
Lemma altitude_changes_with_hour_angle (dec lat H1 H2 : R) :
  -90 < lat < 90 -> - (PI / 2) < dec < PI / 2 ->
  Rabs H1 <= 12 -> Rabs H2 <= 12 -> Rabs H1 <> Rabs H2 ->
  asin (sin dec * sin (lat * PI / 180)
        + cos dec * cos (lat * PI / 180) * cos (H1 * 15 * PI / 180)) * 180 / PI
  <> asin (sin dec * sin (lat * PI / 180)
           + cos dec * cos (lat * PI / 180) * cos (H2 * 15 * PI / 180)) * 180 / PI.
Proof.
  intros Hlat Hdec H1le H2le Hne.
  pose proof (toRad_open_range lat Hlat) as Hphi.
  assert (Hcp : 0 < cos (lat * PI / 180)) by (apply cos_gt_0; lra).
  assert (Hcd : 0 < cos dec) by (apply cos_gt_0; lra).
  assert (Hp : 0 < cos dec * cos (lat * PI / 180)) by now apply Rmult_lt_0_compat.
  destruct (Rtotal_order (Rabs H1) (Rabs H2)) as [Hlt | [Heq | Hgt]];
    [| contradiction |].
  - pose proof (cos_hour_angle_order H1 H2 Hlt H2le) as Hc.
    apply not_eq_sym, asin_lt_neq; [apply sinAlt_bound | nra | apply sinAlt_bound].
  - pose proof (cos_hour_angle_order H2 H1 Hgt H1le) as Hc.
    apply asin_lt_neq; [apply sinAlt_bound | nra | apply sinAlt_bound].
Qed.

(** The Equation of Time of the sky view on day 80 is a small negative
    number of hours, its declination an angle strictly between the poles. *)
Lemma Sky_equationOfTime_day80_range :
  exists eot : R,
    Sky.getEquationOfTime Sky.defaults (Fin 80) = Fin eot /\ -12 < eot < 0.
Proof.
  pose proof PI_bounds as [Hp1 Hp2].
  destruct center_day80_range as [HC0 HC1].
  set (M := 2 * PI * 77 / 365) in *.
  set (C := 2 * 0.0167 * sin M + 1.25 * 0.0167 * 0.0167 * sin (2 * M)) in *.
  exists (- C * 24 / (2 * PI)). split; [apply Sky_equationOfTime_day80 |].
  replace (- C * 24 / (2 * PI)) with (- (C * (12 / PI))) by (field; lra).
  assert (Hk : 0 < 12 / PI < 12).
  { split; [apply Rdiv_lt_0_compat; lra |].
    apply Rmult_lt_reg_r with (r := PI); [lra |].
    unfold Rdiv. rewrite Rmult_assoc, Rinv_l by lra. lra. }
  split; nra.
Qed.

Lemma Sky_declination_day80_range :
  exists dec : R,
    Sky.getDeclination Sky.defaults (Fin 80) = Fin dec
    /\ - (PI / 2) < dec < PI / 2.
Proof.
  eexists. split; [apply Sky_declination_day80 |].
  apply declination_open_range. lra.
Qed.

(** On day 80 at clock hour 12, latitude 40: the solograph puts the Sun on
    the meridian at altitude asin(cos(lat)), the sky view strictly lower. *)
Lemma altitudes_differ_day80 :
  altitude <$> Sky.getSunPosition Sky.defaults (Fin 80) (Fin 12)
  <> Some (Solograph.Trace.altitude (tracePointOf Solograph.initial 12 80)).
Proof.
  pose proof PI_RGT_0 as Hpi.
  destruct Sky_equationOfTime_day80_range as (eot & Heot & He).
  destruct Sky_declination_day80_range as (d1 & Hd1 & Hd1r).
  assert (Hd1s : sin d1 < 0).
  { rewrite Sky_declination_day80 in Hd1. apply Fin_inj in Hd1. subst d1.
    destruct center_day80_range as [HC0 HC1].
    set (M := 2 * PI * 77 / 365) in *.
    set (C := 2 * 0.0167 * sin M + 1.25 * 0.0167 * 0.0167 * sin (2 * M)) in *.
    rewrite sin_asin by apply sin_prod_bound. rewrite neg_sin.
    assert (Hobl : 0 < sin (23.44 * PI / 180)) by (apply sin_gt_0; lra).
    assert (HsC : 0 < sin C) by (pose proof PI2_1; apply sin_gt_0; lra).
    nra. }
  unfold Sky.getSunPosition, tracePointOf. cbn [Solograph.Trace.altitude].
  rewrite Hd1, Heot.
  rewrite (Solograph_getDeclination_Fin Solograph.initial 80 23.44) by reflexivity.
  cbn [nadd nsub nneg Sky.latitude Sky.defaults Solograph.latitude Solograph.initial].
  rewrite Sky_equatorialToHorizontal_altitude;
    [| lra | assumption
     | replace (12 + eot + - (12)) with eot by ring;
       rewrite Rabs_left by lra; lra].
  rewrite Solograph_equatorialToHorizontal_altitude by lra.
  set (phi := 40 * PI / 180).
  set (h1 := (12 + eot + - (12)) * 15 * PI / 180).
  replace (2 * PI * (80 - 80) / 365) with 0 by (field; lra).
  rewrite sin_0, Rmult_0_r, asin_0, sin_0, cos_0.
  replace ((12 + - (12)) * 15 * PI / 180) with 0 by (field; lra).
  rewrite cos_0.
  intros Heq. injection Heq as Heq. revert Heq.
  assert (Hsphi : 0 < sin phi) by (apply sin_gt_0; unfold phi; lra).
  assert (Hcphi : 0 < cos phi) by (apply cos_gt_0; unfold phi; lra).
  assert (Hcd1 : 0 <= cos d1 <= 1).
  { split; [apply cos_ge_0; lra | apply COS_bound]. }
  pose proof (COS_bound h1) as [Hh0 Hh1].
  assert (Hprod : cos d1 * cos h1 <= 1) by nra.
  assert (Hlt : sin d1 * sin phi + cos d1 * cos phi * cos h1
                < 0 * sin phi + 1 * cos phi * 1) by nra.
  apply asin_lt_neq.
  - apply sinAlt_bound.
  - exact Hlt.
  - pose proof (COS_bound phi). lra.
Qed.

(** The shift by the Equation of Time moves the Sun: the position of the
    sky view against the unshifted transform of the solograph, on the sky
    view's own declination. *)
Lemma shifted_position_differs (s : Sky.t) (day hour lat e dec : R) :
  Sky.latitude s = Fin lat ->
  Sky.getEquationOfTime s (Fin day) = Fin e ->
  Sky.getDeclination s (Fin day) = Fin dec ->
  -90 < lat < 90 -> - (PI / 2) < dec < PI / 2 ->
  Rabs (hour - 12) <= 12 ->
  0 < Rabs (hour + e - 12) < 12 ->
  Rabs (hour + e - 12) <> Rabs (hour - 12) ->
  exists shifted unshifted : R,
    altitude <$> Sky.getSunPosition s (Fin day) (Fin hour) = Some (Fin shifted)
    /\ altitude (Solograph.equatorialToHorizontal
                   (Fin hour - Fin 12)%num (Fin dec) (Fin lat))
       = Fin unshifted
    /\ shifted <> unshifted.
Proof.
  intros Hlat He Hdec Hl Hd H1 H2 Hne.
  unfold Sky.getSunPosition. rewrite Hlat, He, Hdec.
  cbn [nadd nsub nneg].
  replace (hour + e + - (12)) with (hour + e - 12) by ring.
  replace (hour + - (12)) with (hour - 12) by ring.
  rewrite Sky_equatorialToHorizontal_altitude by assumption.
  rewrite Solograph_equatorialToHorizontal_altitude by lra.
  do 2 eexists. split; [reflexivity |]. split; [reflexivity |].
  apply altitude_changes_with_hour_angle; try assumption. lra.
Qed.

(** C3.  The sky view locates the Sun at hour angle
    (hour + equationOfTime(day)) - 12; the solograph's yearly traces store,
    for a clock hour and a day, the position at hour angle hour - 12.  The
    shift matters: on one declination and latitude, whenever the shifted
    and the unshifted hour angle lie at different distances from noon the
    sky view's altitude differs from that of the solograph's transform at
    the unshifted hour angle.  On day 80 at hour 12, at the common default
    latitude 40, the Equation of Time of the sky view is not zero, the
    shift lowers the Sun, and the position of the sky view differs from
    the entry stored in the solograph's trace. *)
Theorem analemma_paths_disagree :
  (forall (s : Sky.t) (day hour : num),
     Sky.getSunPosition s day hour
     = Sky.equatorialToHorizontal
         (hour + Sky.getEquationOfTime s day - Fin 12)%num
         (Sky.getDeclination s day) (Sky.latitude s))
  /\ (forall (g : Solograph.t) (h d : Z),
        (5 <= h <= 19)%Z -> (1 <= d <= 365)%Z ->
        exists trace : list Solograph.Trace.point,
          Solograph.hourTraces (Solograph.initializeHourTraces g) !! h = Some trace
          /\ trace !! Z.to_nat (d - 1)
             = Some
                 (let pos := Solograph.equatorialToHorizontal
                               (Fin (IZR h) - Fin 12)%num
                               (Solograph.getDeclination g (Fin (IZR d)))
                               (Solograph.latitude g) in
                  {| Solograph.Trace.day := d;
                     Solograph.Trace.altitude := altitude pos;
                     Solograph.Trace.azimuth := azimuth pos |}))
  /\ (forall (s : Sky.t) (day hour lat e dec : R),
        Sky.latitude s = Fin lat ->
        Sky.getEquationOfTime s (Fin day) = Fin e ->
        Sky.getDeclination s (Fin day) = Fin dec ->
        -90 < lat < 90 -> - (PI / 2) < dec < PI / 2 ->
        Rabs (hour - 12) <= 12 ->
        0 < Rabs (hour + e - 12) < 12 ->
        Rabs (hour + e - 12) <> Rabs (hour - 12) ->
        exists shifted unshifted : R,
          altitude <$> Sky.getSunPosition s (Fin day) (Fin hour)
          = Some (Fin shifted)
          /\ altitude (Solograph.equatorialToHorizontal
                         (Fin hour - Fin 12)%num (Fin dec) (Fin lat))
             = Fin unshifted
          /\ shifted <> unshifted)
  /\ Sky.latitude Sky.defaults = Solograph.latitude Solograph.initial
  /\ exists eot dec shifted unshifted : R,
       Sky.getEquationOfTime Sky.defaults (Fin 80) = Fin eot
       /\ eot <> 0
       /\ Sky.getDeclination Sky.defaults (Fin 80) = Fin dec
       /\ altitude <$> Sky.getSunPosition Sky.defaults (Fin 80) (Fin 12)
          = Some (Fin shifted)
       /\ altitude (Solograph.equatorialToHorizontal
                      (Fin 12 - Fin 12)%num (Fin dec) (Fin 40))
          = Fin unshifted
       /\ shifted <> unshifted
       /\ Some (Fin shifted)
          <> Some (Solograph.Trace.altitude (tracePointOf Solograph.initial 12 80)).
Proof.
  split; [reflexivity |].
  split.
  { intros g h d Hh Hd. exists (tracePointOf g h <$> seqZ 1 365).
    split; [now apply initializeHourTraces_lookup | now apply yearly_trace_lookup]. }
  split; [exact shifted_position_differs |].
  split; [reflexivity |].
  destruct Sky_equationOfTime_day80_range as (eot & Heot & He).
  destruct Sky_declination_day80_range as (dec & Hdec & Hdr).
  destruct (shifted_position_differs Sky.defaults 80 12 40 eot dec
              eq_refl Heot Hdec) as (a1 & a2 & H1 & H2 & Hne).
  - lra.
  - assumption.
  - replace (12 - 12) with 0 by ring. rewrite Rabs_R0. lra.
  - replace (12 + eot - 12) with eot by ring. rewrite Rabs_left by lra. lra.
  - replace (12 + eot - 12) with eot by ring. replace (12 - 12) with 0 by ring.
    rewrite Rabs_R0, Rabs_left by lra. lra.
  - exists eot, dec, a1, a2.
    split; [exact Heot |]. split; [lra |]. split; [exact Hdec |].
    split; [exact H1 |]. split; [exact H2 |]. split; [exact Hne |].
    rewrite <- H1. apply altitudes_differ_day80.
Qed.

Lemma analemma_paths_disagree_witness :
  exists (trace : list Solograph.Trace.point) (shifted : R),
    Solograph.hourTraces (Solograph.initializeHourTraces Solograph.initial) !! 12%Z
    = Some trace
    /\ trace !! Z.to_nat (80 - 1) = Some (tracePointOf Solograph.initial 12 80)
    /\ altitude <$> Sky.getSunPosition Sky.defaults (Fin 80) (Fin 12)
       = Some (Fin shifted)
    /\ Some (Fin shifted)
       <> Some (Solograph.Trace.altitude (tracePointOf Solograph.initial 12 80)).
Proof.
  destruct analemma_paths_disagree
    as (_ & Htr & _ & _ & eot & dec & a1 & a2 & _ & _ & _ & H1 & _ & _ & Hne).
  destruct (Htr Solograph.initial 12%Z 80%Z ltac:(lia) ltac:(lia))
    as (trace & Ht1 & Ht2).
  exists trace, a1. split; [exact Ht1 |]. split; [exact Ht2 |].
  split; [exact H1 | exact Hne].
Defined.

(* ===================================================================== *)
(** ** Orbital speed *)
(* ===================================================================== *)

Lemma Analemma_getOrbitalSpeed_Fin (p : Analemma.params) (day e M : R) :
  Analemma.eccentricity p = Fin e ->
  Analemma.getMeanAnomaly p (Fin day) = Fin M ->
  Analemma.getOrbitalSpeed p (Fin day)
  = Fin (1 + e * cos (trueAnomalySeries e M)).
Proof.
  intros He HM. unfold Analemma.getOrbitalSpeed.
  rewrite HM, (Analemma_getTrueAnomaly_Fin p e M He), He. reflexivity.
Qed.

(** *** Sums *)

Lemma Rsum_snoc (l : list R) (x : R) : Rsum (l ++ [x]) = Rsum l + x.
Proof. unfold Rsum. now rewrite fold_left_app. Qed.

Lemma fold_left_Rplus_acc (l : list R) (a : R) :
  fold_left Rplus l a = a + Rsum l.
Proof.
  unfold Rsum. revert a. induction l as [| x l IH]; intros a; cbn.
  - lra.
  - rewrite IH, (IH (0 + x)). lra.
Qed.

Lemma fold_nadd_Fin (f : Z -> num) (g : Z -> R) (l : list Z) (a : R) :
  (forall d, d ∈ l -> f d = Fin (g d)) ->
  fold_left nadd (f <$> l) (Fin a) = Fin (a + Rsum (g <$> l)).
Proof.
  revert a. induction l as [| x l IH]; intros a Hf.
  - cbn. f_equal. unfold Rsum. cbn. lra.
  - rewrite !fmap_cons. cbn [fold_left].
    rewrite (Hf x) by apply list_elem_of_here. cbn [nadd].
    rewrite IH by (intros d Hd; apply Hf; now apply list_elem_of_further).
    f_equal. unfold Rsum at 2. cbn [fold_left]. rewrite fold_left_Rplus_acc. lra.
Qed.

(** *** A full turn of equally spaced cosines sums to zero *)

Lemma cos_shift_nat (x : R) (k : nat) : cos (x - 2 * INR k * PI) = cos x.
Proof.
  rewrite <- (cos_period (x - 2 * INR k * PI) k). f_equal. ring.
Qed.

Lemma cos_shift_Z (x : R) (k : Z) : cos (x - 2 * IZR k * PI) = cos x.
Proof.
  destruct (Z_le_gt_dec 0 k) as [Hk | Hk].
  - rewrite <- (Z2Nat.id k Hk), <- INR_IZR_INZ. apply cos_shift_nat.
  - replace (x - 2 * IZR k * PI) with (x + 2 * IZR (- k) * PI)
      by (rewrite opp_IZR; ring).
    rewrite <- (Z2Nat.id (- k)) by lia. rewrite <- INR_IZR_INZ. apply cos_period.
Qed.

Lemma cos_progression (phi alpha : R) (n : nat) :
  2 * sin (alpha / 2)
  * Rsum ((fun d => cos (phi + IZR d * alpha)) <$> seqZ 0 (Z.of_nat n))
  = sin (phi + (INR n - 1 / 2) * alpha) - sin (phi - alpha / 2).
Proof.
  induction n as [| n IH].
  - rewrite seqZ_nil by lia. unfold Rsum. cbn.
    replace (phi + (0 - 1 / 2) * alpha) with (phi - alpha / 2) by field. ring.
  - rewrite seqZ_S, fmap_app.
    change ((fun d => cos (phi + IZR d * alpha)) <$> [(0 + Z.of_nat n)%Z])
      with [cos (phi + IZR (0 + Z.of_nat n) * alpha)].
    rewrite Rsum_snoc, Rmult_plus_distr_l, IH.
    rewrite Z.add_0_l, <- INR_IZR_INZ, S_INR.
    replace (phi + (INR n + 1 - 1 / 2) * alpha)
      with ((phi + INR n * alpha) + alpha / 2) by field.
    replace (phi + (INR n - 1 / 2) * alpha)
      with ((phi + INR n * alpha) - alpha / 2) by field.
    rewrite sin_plus, sin_minus. ring.
Qed.

Lemma cos_full_turn (phi alpha : R) (n j : nat) :
  INR n * alpha = 2 * INR j * PI ->
  sin (alpha / 2) <> 0 ->
  Rsum ((fun d => cos (phi + IZR d * alpha)) <$> seqZ 0 (Z.of_nat n)) = 0.
Proof.
  intros Hturn Hsin. pose proof (cos_progression phi alpha n) as H.
  replace (phi + (INR n - 1 / 2) * alpha)
    with ((phi - alpha / 2) + 2 * INR j * PI) in H by (rewrite <- Hturn; field).
  rewrite sin_period, Rminus_diag in H.
  apply Rmult_integral in H as [H | H]; [| exact H].
  apply Rmult_integral in H as [H | H]; [lra | contradiction].
Qed.

(** *** The cosine of the true anomaly, to first order in the eccentricity *)

Lemma sin_sq_le (y : R) : -1 <= y <= 1 -> sin y * sin y <= y * y.
Proof.
  intros [H1 H2]. pose proof PI2_1 as Hpi.
  assert (Hpos : forall z, 0 <= z <= 1 -> 0 <= sin z <= z).
  { intros z [Hz0 Hz1]. split; [apply sin_ge_0; lra |].
    destruct (Req_dec_T z 0) as [-> | Hz]; [rewrite sin_0; lra |].
    left. apply sin_lt_x. lra. }
  destruct (Rle_dec 0 y) as [Hy | Hy].
  - destruct (Hpos y ltac:(lra)). nra.
  - destruct (Hpos (- y) ltac:(lra)) as [Ha Hb]. rewrite sin_neg in Ha, Hb. nra.
Qed.

Lemma one_minus_cos_bound (x : R) : -2 <= x <= 2 -> 0 <= 1 - cos x <= x * x / 2.
Proof.
  intros Hx. replace x with (2 * (x / 2)) at 1 2 by field.
  rewrite cos_2a_sin.
  pose proof (sin_sq_le (x / 2) ltac:(lra)) as Hs.
  assert (0 <= sin (x / 2) * sin (x / 2)) by nra.
  split; nra.
Qed.

Lemma sin_lb_val (x : R) : sin_lb x = x - x ^ 3 / 6 + x ^ 5 / 120 - x ^ 7 / 5040.
Proof.
  unfold sin_lb, sin_approx, sin_term. simpl sum_f_R0.
  unfold Rdiv. simpl. field.
Qed.

Lemma sin_near_id_pos (x : R) : 0 <= x <= 0.035 -> 0 <= x - sin x <= 0.00001.
Proof.
  intros [H0 H1]. pose proof PI2_1 as Hpi.
  destruct (SIN x ltac:(lra) ltac:(lra)) as [Hlb _]. rewrite sin_lb_val in Hlb.
  assert (Hle : sin x <= x).
  { destruct (Req_dec_T x 0) as [-> | Hz]; [rewrite sin_0; lra |].
    left. apply sin_lt_x. lra. }
  assert (Hx2 : 0 <= x ^ 2 <= 0.001225) by nra.
  assert (Hx3 : 0 <= x ^ 3 <= 0.000042875) by nra.
  assert (Hx4 : 0 <= x ^ 4 <= 1) by nra.
  assert (Hx5 : 0 <= x ^ 5).
  { replace (x ^ 5) with (x ^ 3 * x ^ 2) by ring. apply Rmult_le_pos; lra. }
  assert (Hx7 : x ^ 7 <= x ^ 3).
  { replace (x ^ 7) with (x ^ 3 * x ^ 4) by ring. nra. }
  split; lra.
Qed.

Lemma sin_near_id (x : R) :
  -0.035 <= x <= 0.035 -> -0.00001 <= sin x - x <= 0.00001.
Proof.
  intros [H0 H1]. destruct (Rle_dec 0 x) as [Hx | Hx].
  - pose proof (sin_near_id_pos x ltac:(lra)). lra.
  - pose proof (sin_near_id_pos (- x) ltac:(lra)) as H. rewrite sin_neg in H. lra.
Qed.

(** With the default eccentricity 0.017 and a = 2e - e^3/4:
    cos(nu(M)) <= cos M + (a/2) cos 2M - a/2 + 0.001 for every M. *)
Lemma cos_trueAnomaly_bound (M : R) :
  let a := 2 * 0.017 - 0.017 ^ 3 / 4 in
  cos (trueAnomalySeries 0.017 M) <= cos M + a / 2 * cos (2 * M) - a / 2 + 0.001.
Proof.
  intros a.
  pose proof (SIN_bound M) as [Hs1 Hs2]. pose proof (SIN_bound (2 * M)) as [Ht1 Ht2].
  pose proof (SIN_bound (3 * M)) as [Hu1 Hu2]. pose proof (COS_bound M) as [Hc1 Hc2].
  set (b := 5 * 0.017 ^ 2 / 4). set (c := 13 * 0.017 ^ 3 / 12).
  set (C := a * sin M + b * sin (2 * M) + c * sin (3 * M)).
  replace (trueAnomalySeries 0.017 M) with (M + C)
    by (unfold trueAnomalySeries, C, a, b, c; ring).
  assert (Ha : 0.0339 <= a <= 0.034) by (unfold a; lra).
  assert (Hb : 0 <= b <= 0.000362) by (unfold b; lra).
  assert (Hc : 0 <= c <= 0.000006) by (unfold c; lra).
  assert (HC : -0.0344 <= C <= 0.0344) by (unfold C; nra).
  pose proof (one_minus_cos_bound C ltac:(lra)) as [Hk0 Hk1].
  assert (Hk2 : 1 - cos C <= 0.0006) by nra.
  pose proof (sin_near_id C ltac:(lra)) as [Hn0 Hn1].
  rewrite cos_plus, cos_2a_sin.
  set (s := sin M) in *. set (s2 := sin (2 * M)) in *. set (s3 := sin (3 * M)) in *.
  set (k := cos M) in *. set (kc := cos C) in *. set (sc := sin C) in *.
  assert (E1 : k * kc - k <= 0.0006) by nra.
  assert (E2 : - (s * (sc - C)) <= 0.00001) by nra.
  assert (P2 : -1 <= s * s2 <= 1) by (split; nra).
  assert (P3 : -1 <= s * s3 <= 1) by (split; nra).
  assert (E3 : - (b * (s * s2)) <= 0.000362) by nra.
  assert (E4 : - (c * (s * s3)) <= 0.000006) by nra.
  assert (E5 : s * C = a * (s * s) + b * (s * s2) + c * (s * s3)) by (unfold C; ring).
  assert (E6 : k * kc - s * sc = k + (k * kc - k) - s * C - s * (sc - C)) by ring.
  rewrite E6, E5. lra.
Qed.

(** *** The yearly mean with the default parameters *)

Lemma Rsum_le_linear (f u v : Z -> R) (kappa p q : R) :
  (forall d : Z, (0 <= d)%Z -> f d <= kappa + p * u d + q * v d) ->
  forall n : nat,
    Rsum (f <$> seqZ 0 (Z.of_nat n))
    <= INR n * kappa + p * Rsum (u <$> seqZ 0 (Z.of_nat n))
       + q * Rsum (v <$> seqZ 0 (Z.of_nat n)).
Proof.
  intros Hf n. induction n as [| n IH].
  - rewrite seqZ_nil by lia. unfold Rsum. cbn. lra.
  - rewrite seqZ_S, !fmap_app.
    change (f <$> [(0 + Z.of_nat n)%Z]) with [f (0 + Z.of_nat n)%Z].
    change (u <$> [(0 + Z.of_nat n)%Z]) with [u (0 + Z.of_nat n)%Z].
    change (v <$> [(0 + Z.of_nat n)%Z]) with [v (0 + Z.of_nat n)%Z].
    rewrite !Rsum_snoc, S_INR.
    pose proof (Hf (0 + Z.of_nat n)%Z ltac:(lia)). lra.
Qed.

(** Mean anomaly of the dashboard on an integer day, up to whole turns. *)
Lemma default_meanAnomaly_day (d : Z) :
  (0 <= d)%Z ->
  let M := 2 * PI * posmod (IZR d - 3 + 365) 365 / 365 in
  Analemma.getMeanAnomaly Analemma.defaults (Fin (IZR d)) = Fin M
  /\ cos M = cos (2 * PI * 362 / 365 + IZR d * (2 * PI / 365))
  /\ cos (2 * M) = cos (2 * (2 * PI * 362 / 365) + IZR d * (2 * (2 * PI / 365))).
Proof.
  intros Hd M. apply IZR_le in Hd.
  split; [apply Analemma_getMeanAnomaly_Fin; [reflexivity | lra] |].
  destruct (posmod_congruent (IZR d - 3 + 365) 365) as [k Hk].
  unfold M. set (r := posmod (IZR d - 3 + 365) 365) in *.
  assert (Hr : r = IZR d + 362 - 365 * IZR k) by lra.
  split.
  - rewrite <- (cos_shift_Z (2 * PI * 362 / 365 + IZR d * (2 * PI / 365)) k).
    f_equal. rewrite Hr. field.
  - rewrite <- (cos_shift_Z (2 * (2 * PI * 362 / 365)
                             + IZR d * (2 * (2 * PI / 365))) (2 * k)).
    f_equal. rewrite Hr, mult_IZR. field.
Qed.

Lemma default_speed_day (d : Z) :
  (0 <= d)%Z ->
  let a := 2 * 0.017 - 0.017 ^ 3 / 4 in
  let M := 2 * PI * posmod (IZR d - 3 + 365) 365 / 365 in
  let t := 1 + 0.017 * cos (trueAnomalySeries 0.017 M) in
  Analemma.getOrbitalSpeed Analemma.defaults (Fin (IZR d)) = Fin t
  /\ t <= (1 + 0.017 * (0.001 - a / 2))
          + 0.017 * cos (2 * PI * 362 / 365 + IZR d * (2 * PI / 365))
          + 0.017 * (a / 2)
            * cos (2 * (2 * PI * 362 / 365) + IZR d * (2 * (2 * PI / 365))).
Proof.
  intros Hd a M t. destruct (default_meanAnomaly_day d Hd) as (HM & H1 & H2).
  fold M in HM, H1, H2. split.
  - now apply Analemma_getOrbitalSpeed_Fin.
  - pose proof (cos_trueAnomaly_bound M) as HB. cbv zeta in HB. fold a in HB.
    rewrite H1, H2 in HB. unfold t. lra.
Qed.

Lemma sin_turn_fraction (j : R) : 0 < j < 365 -> sin (j * PI / 365) <> 0.
Proof.
  intros [H0 H1]. pose proof PI_RGT_0 as Hpi. apply Rgt_not_eq, sin_gt_0.
  - apply Rdiv_lt_0_compat; [| lra]. apply Rmult_lt_0_compat; lra.
  - assert (j * PI < 365 * PI) by (apply Rmult_lt_compat_r; lra). lra.
Qed.

(** The daily speeds of the default orbit over any 365 consecutive days
    add up to less than 365. *)
Lemma default_speed_sum (first : Z) :
  (0 <= first)%Z ->
  exists S : R,
    fold_left nadd
      ((fun d => Analemma.getOrbitalSpeed Analemma.defaults (Fin (IZR d)))
         <$> seqZ first 365) (Fin 0) = Fin S
    /\ S < 365.
Proof.
  intros Hfirst.
  set (a := 2 * 0.017 - 0.017 ^ 3 / 4).
  set (phi := 2 * PI * 362 / 365 + IZR first * (2 * PI / 365)).
  set (u := fun d : Z => cos (phi + IZR d * (2 * PI / 365))).
  set (v := fun d : Z => cos (2 * phi + IZR d * (2 * (2 * PI / 365)))).
  set (kappa := 1 + 0.017 * (0.001 - a / 2)).
  set (g := fun d : Z =>
              1 + 0.017 * cos (trueAnomalySeries 0.017
                                 (2 * PI * posmod (IZR d - 3 + 365) 365 / 365))).
  assert (Hg : forall d : Z, (0 <= d)%Z ->
            Analemma.getOrbitalSpeed Analemma.defaults (Fin (IZR d)) = Fin (g d)).
  { intros d Hd. exact (proj1 (default_speed_day d Hd)). }
  assert (Hle : forall i : Z, (0 <= i)%Z ->
            g (first + i)%Z <= kappa + 0.017 * u i + 0.017 * (a / 2) * v i).
  { intros i Hi. pose proof (proj2 (default_speed_day (first + i) ltac:(lia))) as H.
    cbv zeta in H. fold a kappa in H. unfold u, v, phi, g.
    rewrite plus_IZR in H.
    replace (2 * PI * 362 / 365 + IZR first * (2 * PI / 365) + IZR i * (2 * PI / 365))
      with (2 * PI * 362 / 365 + (IZR first + IZR i) * (2 * PI / 365)) by ring.
    replace (2 * (2 * PI * 362 / 365 + IZR first * (2 * PI / 365))
             + IZR i * (2 * (2 * PI / 365)))
      with (2 * (2 * PI * 362 / 365) + (IZR first + IZR i) * (2 * (2 * PI / 365)))
      by ring.
    rewrite plus_IZR. exact H. }
  assert (H365 : INR 365 = 365) by (rewrite INR_IZR_INZ; reflexivity).
  exists (0 + Rsum (g <$> seqZ first 365)). split.
  - apply fold_nadd_Fin. intros d Hd%elem_of_seqZ. apply Hg. lia.
  - replace (seqZ first 365) with (Z.add first <$> seqZ 0 365)
      by (rewrite fmap_add_seqZ; f_equal; lia).
    rewrite <- list_fmap_compose.
    pose proof (Rsum_le_linear (g ∘ Z.add first) u v kappa 0.017 (0.017 * (a / 2))
                  Hle 365) as Hsum.
    change (Z.of_nat 365) with 365%Z in Hsum.
    assert (Hu : Rsum (u <$> seqZ 0 365) = 0).
    { change 365%Z with (Z.of_nat 365). apply (cos_full_turn _ _ 365 1).
      - rewrite H365. change (INR 1) with 1. field.
      - replace (2 * PI / 365 / 2) with (1 * PI / 365) by field.
        apply sin_turn_fraction. lra. }
    assert (Hv : Rsum (v <$> seqZ 0 365) = 0).
    { change 365%Z with (Z.of_nat 365). apply (cos_full_turn _ _ 365 2).
      - rewrite H365. replace (INR 2) with 2 by (rewrite INR_IZR_INZ; reflexivity).
        field.
      - replace (2 * (2 * PI / 365) / 2) with (2 * PI / 365) by field.
        apply sin_turn_fraction. lra. }
    rewrite Hu, Hv, H365 in Hsum.
    assert (Hk : kappa < 1) by (unfold kappa, a; lra).
    lra.
Qed.

(** C8, the claim as stated, fails: with the constructor's parameters
    (eccentricity 0.017, perihelion on day 3) the mean of [getOrbitalSpeed]
    over the 365 days of the year is not 1, whether the days are counted
    0..364 or 1..365. *)
Lemma default_yearly_mean_speed_not_one :
  yearlyMeanSpeed 0 Analemma.defaults <> Fin 1
  /\ yearlyMeanSpeed 1 Analemma.defaults <> Fin 1.
Proof.
  split; unfold yearlyMeanSpeed.
  - destruct (default_speed_sum 0 ltac:(lia)) as (S & HS & Hlt).
    rewrite HS, ndiv_Fin by lra. intros H%Fin_inj. lra.
  - destruct (default_speed_sum 1 ltac:(lia)) as (S & HS & Hlt).
    rewrite HS, ndiv_Fin by lra. intros H%Fin_inj. lra.
Qed.

Lemma Rsum_ones (l : list Z) : Rsum ((fun _ : Z => 1) <$> l) = INR (length l).
Proof.
  induction l as [| x l IH] using rev_ind.
  - reflexivity.
  - rewrite fmap_app. change ((fun _ : Z => 1) <$> [x]) with [1].
    rewrite Rsum_snoc, IH, length_app. cbn [length].
    rewrite Nat.add_1_r, S_INR. reflexivity.
Qed.

Lemma circular_yearly_mean (first : Z) (p : Analemma.params) (pd : R) :
  Analemma.eccentricity p = Fin 0 ->
  Analemma.perihelionDay p = Fin pd ->
  yearlyMeanSpeed first p = Fin 1.
Proof.
  intros He Hpd. unfold yearlyMeanSpeed.
  rewrite (fold_nadd_Fin _ (fun _ => 1)).
  - rewrite Rsum_ones, length_seqZ.
    rewrite ndiv_Fin by lra. f_equal.
    replace (INR (Z.to_nat 365)) with 365 by (rewrite INR_IZR_INZ; reflexivity).
    field.
  - intros d _.
    destruct (Analemma_getMeanAnomaly_finite p (IZR d) pd Hpd) as [M HM].
    rewrite (Analemma_getOrbitalSpeed_Fin p (IZR d) 0 M He HM). f_equal. ring.
Qed.

(** C8, as the code has it.  [getOrbitalSpeed day] is
    1 + e cos(trueAnomaly(meanAnomaly(day))), a value in [[1 - e, 1 + e]];
    nothing rescales it, and its yearly mean is 1 on a circular orbit
    (e = 0), where the speed is 1 on every day. *)
Theorem getOrbitalSpeed_formula (p : Analemma.params) (day e pd : R) :
  Analemma.eccentricity p = Fin e ->
  Analemma.perihelionDay p = Fin pd ->
  exists M : R,
    Analemma.getMeanAnomaly p (Fin day) = Fin M
    /\ Analemma.getTrueAnomaly p (Fin M) = Fin (trueAnomalySeries e M)
    /\ Analemma.getOrbitalSpeed p (Fin day)
       = Fin (1 + e * cos (trueAnomalySeries e M))
    /\ (0 <= e -> 1 - e <= 1 + e * cos (trueAnomalySeries e M) <= 1 + e)
    /\ (e = 0 -> 1 + e * cos (trueAnomalySeries e M) = 1
                 /\ yearlyMeanSpeed 0 p = Fin 1
                 /\ yearlyMeanSpeed 1 p = Fin 1).
Proof.
  intros He Hpd.
  destruct (Analemma_getMeanAnomaly_finite p day pd Hpd) as [M HM].
  exists M. split; [exact HM |].
  split; [now apply Analemma_getTrueAnomaly_Fin |].
  split; [now apply Analemma_getOrbitalSpeed_Fin |].
  split.
  - intros Hpos. pose proof (COS_bound (trueAnomalySeries e M)) as [Hc0 Hc1].
    split; nra.
  - intros ->. split; [ring |].
    split; now apply (circular_yearly_mean _ p pd).
Qed.

(** The circular orbit: speed 1 on day 100, yearly mean 1. *)
Lemma getOrbitalSpeed_formula_witness :
  exists M : R,
    Analemma.getOrbitalSpeed (set_eccentricity Analemma.defaults (Fin 0)) (Fin 100)
    = Fin (1 + 0 * cos (trueAnomalySeries 0 M))
    /\ 1 + 0 * cos (trueAnomalySeries 0 M) = 1
    /\ yearlyMeanSpeed 0 (set_eccentricity Analemma.defaults (Fin 0)) = Fin 1.
Proof.
  destruct (getOrbitalSpeed_formula
              (set_eccentricity Analemma.defaults (Fin 0)) 100 0 3 eq_refl eq_refl)
    as (M & _ & _ & Hs & _ & H0).
  exists M. destruct (H0 eq_refl) as (H1 & Hmean & _).
  split; [exact Hs | split; [exact H1 | exact Hmean]].
Defined.

(* ===================================================================== *)
(** ** Sunrise and sunset at the poles *)
(* ===================================================================== *)

Lemma sin_lower_bound (x : R) : 0.035 <= x <= PI / 2 -> 0.0349 <= sin x.
Proof.
  intros [H1 H2]. pose proof PI_RGT_0 as Hpi.
  pose proof (sin_near_id_pos 0.035 ltac:(lra)) as [_ Hs].
  assert (sin 0.035 <= sin x) by (apply sin_incr_1; lra).
  lra.
Qed.

(** Day 172 at the default tilt: the tangent of the declination is far
    above the reciprocal of the tangent the program has at a pole. *)
Lemma tan_declination_day172 :
  let dec := asin (sin (23.44 * PI / 180) * sin (2 * PI * (172 - 80) / 365)) in
  cos dec <> 0 /\ 0.001 <= tan dec.
Proof.
  intros dec. pose proof PI_bounds as [Hp1 Hp2].
  destruct declination_day172_range as [Hd0 Hd1]. fold dec in Hd0, Hd1.
  assert (Hc : 0 < cos dec) by (apply cos_gt_0; lra).
  pose proof (COS_bound dec) as [_ Hc1].
  assert (Hso : 0.0349 <= sin (23.44 * PI / 180))
    by (apply sin_lower_bound; split; lra).
  assert (Hsa : 0.0349 <= sin (2 * PI * (172 - 80) / 365)).
  { rewrite <- sin_PI_x. apply sin_lower_bound. split; lra. }
  assert (Hs : sin dec = sin (23.44 * PI / 180) * sin (2 * PI * (172 - 80) / 365)).
  { unfold dec. apply sin_asin, sin_prod_bound. }
  assert (Hp : 0.001 <= sin dec) by (rewrite Hs; nra).
  split; [lra |].
  unfold tan. apply Rmult_le_reg_r with (r := cos dec); [assumption |].
  unfold Rdiv. rewrite Rmult_assoc, Rinv_l by lra. nra.
Qed.

(** The equator on day 172 (sunrise at 6); the north pole on day 80,
    where the declination is 0 (sunrise at 6 as well); the north pole on
    day 172 (midnight sun); the south pole on day 172 (polar night). *)
Lemma getSunTimes_three_branches_witness :
  Solograph.getSunTimes (Solograph.set_latitude Solograph.initial (Fin 0)) (Fin 172)
  = {| Solograph.sunrise := Fin 6; Solograph.sunset := Fin 18;
       Solograph.dayLength := Fin 12;
       Solograph.neverSets := None; Solograph.neverRises := None |}
  /\ Solograph.getSunTimes
       (Solograph.set_latitude Solograph.initial (Fin 90)) (Fin 80)
     = {| Solograph.sunrise := Fin 6; Solograph.sunset := Fin 18;
          Solograph.dayLength := Fin 12;
          Solograph.neverSets := None; Solograph.neverRises := None |}
  /\ Solograph.getSunTimes
       (Solograph.set_latitude Solograph.initial (Fin 90)) (Fin 172)
     = {| Solograph.sunrise := Fin 0; Solograph.sunset := Fin 24;
          Solograph.dayLength := Fin 24;
          Solograph.neverSets := Some true; Solograph.neverRises := None |}
  /\ Solograph.getSunTimes
       (Solograph.set_latitude Solograph.initial (Fin (-90))) (Fin 172)
     = {| Solograph.sunrise := Fin 12; Solograph.sunset := Fin 12;
          Solograph.dayLength := Fin 0;
          Solograph.neverSets := None; Solograph.neverRises := Some true |}.
Proof.
  pose proof PI_RGT_0 as Hpi.
  assert (Hquarter : forall c : R, c = 0 ->
            {| Solograph.sunrise := Fin (12 - acos c * 180 / PI / 15);
               Solograph.sunset := Fin (12 + acos c * 180 / PI / 15);
               Solograph.dayLength :=
                 Fin (12 + acos c * 180 / PI / 15 - (12 - acos c * 180 / PI / 15));
               Solograph.neverSets := None; Solograph.neverRises := None |}
            = {| Solograph.sunrise := Fin 6; Solograph.sunset := Fin 18;
                 Solograph.dayLength := Fin 12;
                 Solograph.neverSets := None; Solograph.neverRises := None |}).
  { intros c ->. rewrite acos_0. f_equal; f_equal; field; lra. }
  destruct tan_declination_day172 as [Hcd Htd].
  set (dec := asin (sin (23.44 * PI / 180) * sin (2 * PI * (172 - 80) / 365))) in *.
  assert (HT : 1000 < tan_next_to_pole) by (unfold tan_next_to_pole; lra).
  split; [| split; [| split]].
  - destruct (getSunTimes_three_branches
                (Solograph.set_latitude Solograph.initial (Fin 0)) 172 0 23.44
                eq_refl eq_refl ltac:(lra))
      as (_ & _ & _ & _ & Hord & _).
    assert (Hc0 : - Rtan (0 * PI / 180) * Rtan dec = 0).
    { replace (0 * PI / 180) with 0 by lra.
      rewrite (Rtan_tan 0) by (rewrite cos_0; lra). rewrite tan_0. ring. }
    fold dec in Hord. destruct (Hord ltac:(lra)) as [Heq _].
    rewrite Heq. now apply Hquarter.
  - destruct (getSunTimes_three_branches
                (Solograph.set_latitude Solograph.initial (Fin 90)) 80 90 23.44
                eq_refl eq_refl ltac:(lra))
      as (_ & _ & _ & _ & Hord & _).
    assert (Hc0 : - Rtan (90 * PI / 180)
                  * Rtan (asin (sin (23.44 * PI / 180)
                                * sin (2 * PI * (80 - 80) / 365))) = 0).
    { replace (2 * PI * (80 - 80) / 365) with 0 by lra.
      rewrite sin_0, Rmult_0_r, asin_0.
      rewrite (Rtan_tan 0) by (rewrite cos_0; lra). rewrite tan_0. ring. }
    destruct (Hord ltac:(lra)) as [Heq _].
    rewrite Heq. now apply Hquarter.
  - destruct (getSunTimes_three_branches
                (Solograph.set_latitude Solograph.initial (Fin 90)) 172 90 23.44
                eq_refl eq_refl ltac:(lra))
      as (_ & _ & Hmid & _).
    apply Hmid. fold dec. rewrite Rtan_north_pole, (Rtan_tan dec) by assumption.
    nra.
  - destruct (getSunTimes_three_branches
                (Solograph.set_latitude Solograph.initial (Fin (-90))) 172 (-90) 23.44
                eq_refl eq_refl ltac:(lra))
      as (_ & _ & _ & Hpol & _).
    apply Hpol. fold dec.
    replace (-90 * PI / 180) with (- (90 * PI / 180)) by lra.
    rewrite Rtan_neg, Rtan_north_pole, (Rtan_tan dec) by assumption.
    nra.
Defined.

(* ===================================================================== *)
(** ** The calendar helpers *)
(* ===================================================================== *)

Lemma getDayMonth_loop_step (m : nat) (d : Z) :
  (m < 12)%nat -> (Dashboard.daysInMonth !!! m <= d)%Z ->
  Dashboard.getDayMonth_loop m d
  = Dashboard.getDayMonth_loop (S m) (d - Dashboard.daysInMonth !!! m).
Proof.
  intros Hm Hd. rewrite Dashboard.getDayMonth_loop_equation_1 at 1.
  destruct (decide (m < 12)%nat); [| contradiction]. cbn.
  destruct (decide (Dashboard.daysInMonth !!! m <= d)%Z); [reflexivity | contradiction].
Qed.

Lemma getDayMonth_loop_stop (m : nat) (d : Z) :
  (m < 12)%nat -> (d < Dashboard.daysInMonth !!! m)%Z ->
  Dashboard.getDayMonth_loop m d = (m, d).
Proof.
  intros Hm Hd. rewrite Dashboard.getDayMonth_loop_equation_1.
  destruct (decide (m < 12)%nat); [| contradiction]. cbn.
  destruct (decide (Dashboard.daysInMonth !!! m <= d)%Z); [lia | reflexivity].
Qed.

Lemma getDayMonth_loop_end (m : nat) (d : Z) :
  (12 <= m)%nat -> Dashboard.getDayMonth_loop m d = (m, d).
Proof.
  intros Hm. rewrite Dashboard.getDayMonth_loop_equation_1.
  destruct (decide (m < 12)%nat); [lia | reflexivity].
Qed.

(** The loop of [getDayMonth] stops in month [m] with the days left over. *)
Lemma getDayMonth_loop_at (m : nat) (d : Z) :
  (m < 12)%nat -> (0 <= d < Dashboard.daysInMonth !!! m)%Z ->
  Dashboard.getDayMonth_loop 0 (daysBefore m + d) = (m, d).
Proof.
  intros Hm Hd.
  do 12 (destruct m as [| m];
         [ cbn in Hd |- *;
           repeat (rewrite getDayMonth_loop_step by (cbn; lia); cbn);
           rewrite getDayMonth_loop_stop by (cbn; lia);
           f_equal; lia | ]).
  lia.
Qed.

(** The loop of [getDayName] returns in month [m] with the days left over. *)
Lemma getDayName_loop_at (m : nat) (k : Z) :
  (m < 12)%nat -> (1 <= k <= SolographView.daysInMonth !!! m)%Z ->
  SolographView.getDayName_loop (seq 0 12) (daysBefore m + k)
  = (SolographView.months !!! m) +:+ " " +:+ pretty k.
Proof.
  intros Hm Hk.
  do 12 (destruct m as [| m];
         [ cbn in Hk; cbn -[pretty pretty_Z];
           repeat (case_decide; [lia |]);
           case_decide; [| lia];
           match goal with
           | |- context [pretty ?x] => replace x with k by lia
           end; reflexivity | ]).
  lia.
Qed.

(** Every day of the year lies in exactly one month. *)
Lemma day_of_year_split (d : Z) :
  (0 <= d < 365)%Z ->
  exists (m : nat) (k : Z),
    (m < 12)%nat /\ (0 <= k < Dashboard.daysInMonth !!! m)%Z
    /\ d = (daysBefore m + k)%Z.
Proof.
  intros Hd.
  assert (Hc : (d < 31 \/ 31 <= d < 59 \/ 59 <= d < 90 \/ 90 <= d < 120
                \/ 120 <= d < 151 \/ 151 <= d < 181 \/ 181 <= d < 212
                \/ 212 <= d < 243 \/ 243 <= d < 273 \/ 273 <= d < 304
                \/ 304 <= d < 334 \/ 334 <= d)%Z) by lia.
  decompose [or] Hc; clear Hc;
    [ exists 0%nat | exists 1%nat | exists 2%nat | exists 3%nat
    | exists 4%nat | exists 5%nat | exists 6%nat | exists 7%nat
    | exists 8%nat | exists 9%nat | exists 10%nat | exists 11%nat ];
    match goal with
    | |- exists k, (?m < _)%nat /\ _ =>
        exists (d - daysBefore m)%Z; cbn; repeat split; lia
    end.
Qed.

(** X1.  On the dashboard, [getDayMonth] inverts the count of days: day
    [k] of month [m] is day-of-year [daysBefore m + k - 1] (the dashboard
    counts days of the year from 0), and [getDayMonth] gives back month
    name and day. *)
Theorem getDayMonth_round_trip (m : nat) (k : Z) :
  (m < 12)%nat ->
  (1 <= k <= Dashboard.daysInMonth !!! m)%Z ->
  Dashboard.getDayMonth (daysBefore m + k - 1)
  = {| Dashboard.month := Dashboard.months !!! m; Dashboard.day := k |}.
Proof.
  intros Hm Hk. unfold Dashboard.getDayMonth.
  replace (daysBefore m + k - 1)%Z with (daysBefore m + (k - 1))%Z by lia.
  rewrite getDayMonth_loop_at by (try assumption; lia).
  destruct (decide (12 <= m)%nat); [lia |].
  f_equal. lia.
Qed.

Lemma getDayMonth_round_trip_witness :
  Dashboard.getDayMonth (daysBefore 1 + 14 - 1)
  = {| Dashboard.month := Dashboard.months !!! 1%nat; Dashboard.day := 14 |}.
Proof. apply (getDayMonth_round_trip 1 14); cbn; lia. Defined.

(** X2.  Outside the year [getDayMonth] falls back to January: for a day
    below 0 the loop never starts, for a day of 365 or more it runs through
    all twelve months and the result is reset; either way the answer is
    "Jan" with the day-of-year plus one. *)
Theorem getDayMonth_outside_year (d : Z) :
  (d < 0 \/ 365 <= d)%Z ->
  Dashboard.getDayMonth d
  = {| Dashboard.month := "Jan"; Dashboard.day := (d + 1)%Z |}.
Proof.
  intros [Hd | Hd]; unfold Dashboard.getDayMonth.
  - rewrite getDayMonth_loop_stop by (cbn; lia). reflexivity.
  - repeat (rewrite getDayMonth_loop_step by (cbn; lia); cbn).
    rewrite getDayMonth_loop_end by lia. reflexivity.
Qed.

Lemma getDayMonth_outside_year_witness :
  Dashboard.getDayMonth 365
  = {| Dashboard.month := "Jan"; Dashboard.day := (365 + 1)%Z |}.
Proof. apply (getDayMonth_outside_year 365); lia. Defined.

(** X3.  In the solograph, [getDayName] inverts the count of days: day [k]
    of month [m] is day-of-year [daysBefore m + k] (the solograph counts
    days of the year from 1), and the label is the month name, a blank and
    [k]. *)
Theorem getDayName_round_trip (m : nat) (k : Z) :
  (m < 12)%nat ->
  (1 <= k <= SolographView.daysInMonth !!! m)%Z ->
  SolographView.getDayName (daysBefore m + k)
  = (SolographView.months !!! m) +:+ " " +:+ pretty k.
Proof. intros Hm Hk. now apply getDayName_loop_at. Qed.

Lemma getDayName_round_trip_witness :
  SolographView.getDayName (daysBefore 5 + 21) = "Jun 21".
Proof. apply (getDayName_round_trip 5 21); cbn; lia. Defined.

(** X4.  Outside the year [getDayName] does not fail: a day above 365
    falls out of the loop and is labelled "Dec 31", a day of 0 or less
    is taken for a day of January and labelled with its own number. *)
Theorem getDayName_outside_year (d : Z) :
  ((365 < d)%Z -> SolographView.getDayName d = "Dec 31")
  /\ ((d <= 0)%Z -> SolographView.getDayName d = "Jan " +:+ pretty d).
Proof.
  split; intros Hd; unfold SolographView.getDayName;
    cbn -[pretty pretty_Z].
  - repeat (case_decide; [lia |]). reflexivity.
  - case_decide; [reflexivity | lia].
Qed.

Lemma getDayName_outside_year_witness :
  SolographView.getDayName 366 = "Dec 31"
  /\ SolographView.getDayName 0 = "Jan 0".
Proof.
  split.
  - apply (proj1 (getDayName_outside_year 366)). lia.
  - apply (proj2 (getDayName_outside_year 0)). lia.
Defined.

(** X5.  The two calendars name the same date: the dashboard's day [d]
    (from 0) is the solograph's day [d + 1] (from 1), and the solograph's
    label is the dashboard's month and day joined by a blank. *)
Theorem calendars_agree (d : Z) :
  (0 <= d < 365)%Z ->
  SolographView.getDayName (d + 1)
  = Dashboard.month (Dashboard.getDayMonth d) +:+ " "
    +:+ pretty (Dashboard.day (Dashboard.getDayMonth d)).
Proof.
  intros Hd. destruct (day_of_year_split d Hd) as (m & k & Hm & Hk & ->).
  unfold SolographView.getDayName, Dashboard.getDayMonth.
  rewrite getDayMonth_loop_at by assumption.
  destruct (decide (12 <= m)%nat); [lia |].
  replace (daysBefore m + k + 1)%Z with (daysBefore m + (k + 1))%Z by lia.
  rewrite getDayName_loop_at by (try assumption; change SolographView.daysInMonth with Dashboard.daysInMonth; lia).
  reflexivity.
Qed.

Lemma calendars_agree_witness :
  SolographView.getDayName (171 + 1)
  = Dashboard.month (Dashboard.getDayMonth 171) +:+ " "
    +:+ pretty (Dashboard.day (Dashboard.getDayMonth 171)).
Proof. apply (calendars_agree 171); lia. Defined.

(* ===================================================================== *)
(** ** Noon, sunrise and sunset in the solograph *)
(* ===================================================================== *)

Lemma asin_cos (x : R) : - PI <= x <= PI -> asin (cos x) = PI / 2 - Rabs x.
Proof.
  intros Hx. unfold Rabs. destruct (Rcase_abs x) as [Hn | Hp].
  - rewrite <- (cos_neg x), <- sin_shift. rewrite asin_sin; lra.
  - rewrite <- sin_shift. rewrite asin_sin; lra.
Qed.

(** The altitude of the transform at hour angle 0, in degrees. *)
Lemma altitude_at_noon (lat dec : R) :
  -90 <= lat <= 90 -> - (PI / 2) <= dec <= PI / 2 ->
  asin (sin dec * sin (lat * PI / 180)
        + cos dec * cos (lat * PI / 180) * cos (0 * 15 * PI / 180)) * 180 / PI
  = 90 - Rabs (lat - dec * 180 / PI).
Proof.
  intros Hlat Hdec. pose proof PI_RGT_0 as Hpi.
  pose proof (toRad_latitude_range lat Hlat) as Hphi.
  replace (0 * 15 * PI / 180) with 0 by lra. rewrite cos_0.
  replace (sin dec * sin (lat * PI / 180) + cos dec * cos (lat * PI / 180) * 1)
    with (cos (lat * PI / 180 - dec)) by (rewrite cos_minus; ring).
  rewrite asin_cos by lra.
  replace (lat - dec * 180 / PI) with ((lat * PI / 180 - dec) * (180 / PI))
    by (field; lra).
  rewrite Rabs_mult, (Rabs_right (180 / PI)).
  - field; lra.
  - apply Rle_ge, Rlt_le, Rdiv_lt_0_compat; lra.
Qed.

Lemma getNoonAltitude_Fin (this : Solograph.t) (day lat t : R) :
  Solograph.latitude this = Fin lat -> Solograph.tilt this = Fin t ->
  let dec := asin (sin (t * PI / 180) * sin (2 * PI * (day - 80) / 365)) in
  SolographView.getNoonAltitude this (Fin day)
  = Fin (90 - Rabs (lat - dec * 180 / PI)).
Proof.
  intros Hlat Ht dec. unfold SolographView.getNoonAltitude.
  rewrite Hlat, (Solograph_getDeclination_Fin this day t Ht), Solograph_toDeg_Fin.
  reflexivity.
Qed.

(** The altitude of a point of the day path. *)
Lemma pathPointOf_altitude (this : Solograph.t) (day lat t : R) (m : Z) :
  Solograph.latitude this = Fin lat -> Solograph.tilt this = Fin t ->
  -90 <= lat <= 90 ->
  let dec := asin (sin (t * PI / 180) * sin (2 * PI * (day - 80) / 365)) in
  Solograph.Path.altitude (pathPointOf this (Fin day) m)
  = Fin (asin (sin dec * sin (lat * PI / 180)
               + cos dec * cos (lat * PI / 180)
                 * cos ((IZR m / 60 - 12) * 15 * PI / 180))
         * 180 / PI).
Proof.
  intros Hlat Ht Hl dec. unfold pathPointOf. cbn [Solograph.Path.altitude].
  rewrite Hlat, (Solograph_getDeclination_Fin this day t Ht).
  rewrite ndiv_Fin by lra. cbn [nsub nadd nneg].
  rewrite Solograph_equatorialToHorizontal_altitude by assumption.
  reflexivity.
Qed.

(** The altitude falls as the cosine of the hour angle does. *)
Lemma altitude_le_noon (lat dec ha : R) :
  -90 <= lat <= 90 -> - (PI / 2) <= dec <= PI / 2 ->
  asin (sin dec * sin (lat * PI / 180)
        + cos dec * cos (lat * PI / 180) * cos ha) * 180 / PI
  <= asin (sin dec * sin (lat * PI / 180)
           + cos dec * cos (lat * PI / 180) * cos (0 * 15 * PI / 180)) * 180 / PI.
Proof.
  intros Hlat Hdec. pose proof PI_RGT_0 as Hpi.
  pose proof (toRad_latitude_range lat Hlat) as Hphi.
  assert (Hcd : 0 <= cos dec) by (apply cos_ge_0; lra).
  assert (Hcl : 0 <= cos (lat * PI / 180)) by (apply cos_ge_0; lra).
  pose proof (COS_bound ha) as [_ Hc].
  pose proof (sinAlt_bound dec (lat * PI / 180) ha) as [Hlo _].
  pose proof (sinAlt_bound dec (lat * PI / 180) (0 * 15 * PI / 180)) as [_ Hhi].
  replace (0 * 15 * PI / 180) with 0 in * by lra. rewrite cos_0 in *.
  assert (Hprod : 0 <= cos dec * cos (lat * PI / 180))
    by (apply Rmult_le_pos; assumption).
  assert (Hle : sin dec * sin (lat * PI / 180)
                + cos dec * cos (lat * PI / 180) * cos ha
                <= sin dec * sin (lat * PI / 180)
                   + cos dec * cos (lat * PI / 180) * 1) by nra.
  pose proof (asin_le_compat _ _ Hlo Hle Hhi) as Hm.
  apply Rmult_le_compat_r.
  - apply Rlt_le, Rinv_0_lt_compat; lra.
  - apply Rmult_le_compat_r; lra.
Qed.

(** X6.  [getNoonAltitude], the closed formula 90 - |latitude -
    declination| that decides whether the noon sun is drawn, is the
    altitude that [equatorialToHorizontal] gives at hour angle 0, for every
    latitude from pole to pole and every tilt from 0 to 90 degrees. *)
Theorem getNoonAltitude_is_altitude_at_noon
    (this : Solograph.t) (day lat t : R) :
  Solograph.latitude this = Fin lat ->
  Solograph.tilt this = Fin t ->
  -90 <= lat <= 90 ->
  0 <= t <= 90 ->
  SolographView.getNoonAltitude this (Fin day)
  = altitude (Solograph.equatorialToHorizontal (Fin 0)
                (Solograph.getDeclination this (Fin day))
                (Solograph.latitude this)).
Proof.
  intros Hlat Ht Hl Hr.
  rewrite (getNoonAltitude_Fin this day lat t Hlat Ht).
  rewrite Hlat, (Solograph_getDeclination_Fin this day t Ht).
  rewrite Solograph_equatorialToHorizontal_altitude by assumption.
  f_equal. symmetry. apply altitude_at_noon; [assumption |].
  pose proof (asin_sin_prod_bound _ (2 * PI * (day - 80) / 365)
                (toRad_tilt_range t Hr)) as Hb.
  pose proof (toRad_tilt_range t Hr). lra.
Qed.

Lemma getNoonAltitude_is_altitude_at_noon_witness :
  SolographView.getNoonAltitude Solograph.initial (Fin 172)
  = altitude (Solograph.equatorialToHorizontal (Fin 0)
                (Solograph.getDeclination Solograph.initial (Fin 172))
                (Solograph.latitude Solograph.initial)).
Proof.
  apply (getNoonAltitude_is_altitude_at_noon Solograph.initial 172 40 23.44);
    first [reflexivity | lra].
Defined.

(** X7.  Noon is the highest point of the day path: the point that
    [getSunPath] stores for 12:00 (index 144) has the altitude of
    [getNoonAltitude], and no point of the path is higher. *)
Theorem noon_is_highest_point (this : Solograph.t) (day lat t : R) :
  Solograph.latitude this = Fin lat ->
  Solograph.tilt this = Fin t ->
  -90 <= lat <= 90 ->
  0 <= t <= 90 ->
  exists noon : R,
    SolographView.getNoonAltitude this (Fin day) = Fin noon
    /\ Solograph.Path.altitude <$> Solograph.getSunPath this (Fin day) !! 144%nat
       = Some (Fin noon)
    /\ forall p : Solograph.Path.point,
         p ∈ Solograph.getSunPath this (Fin day) ->
         exists a : R, Solograph.Path.altitude p = Fin a /\ a <= noon.
Proof.
  intros Hlat Ht Hl Hr.
  set (dec := asin (sin (t * PI / 180) * sin (2 * PI * (day - 80) / 365))).
  assert (Hdec : - (PI / 2) <= dec <= PI / 2).
  { pose proof (asin_sin_prod_bound _ (2 * PI * (day - 80) / 365)
                  (toRad_tilt_range t Hr)) as Hb.
    pose proof (toRad_tilt_range t Hr). unfold dec. lra. }
  exists (90 - Rabs (lat - dec * 180 / PI)).
  split; [apply (getNoonAltitude_Fin this day lat t Hlat Ht) |].
  rewrite <- (altitude_at_noon lat dec Hl Hdec).
  rewrite getSunPath_points. split.
  - rewrite !list_lookup_fmap, lookup_seqZ_lt by lia. cbn [fmap option_fmap option_map].
    rewrite (pathPointOf_altitude this day lat t _ Hlat Ht Hl).
    fold dec. replace (5 * (0 + Z.of_nat 144))%Z with 720%Z by lia.
    replace ((720 / 60 - 12) * 15 * PI / 180) with (0 * 15 * PI / 180) by lra.
    reflexivity.
  - intros p Hp. apply list_elem_of_fmap in Hp as (m & -> & _).
    eexists. split.
    + apply (pathPointOf_altitude this day lat t m Hlat Ht Hl).
    + fold dec. apply altitude_le_noon; assumption.
Qed.

Lemma noon_is_highest_point_witness :
  exists noon : R,
    SolographView.getNoonAltitude Solograph.initial (Fin 172) = Fin noon
    /\ Solograph.Path.altitude
         <$> Solograph.getSunPath Solograph.initial (Fin 172) !! 144%nat
       = Some (Fin noon)
    /\ forall p : Solograph.Path.point,
         p ∈ Solograph.getSunPath Solograph.initial (Fin 172) ->
         exists a : R, Solograph.Path.altitude p = Fin a /\ a <= noon.
Proof.
  apply (noon_is_highest_point Solograph.initial 172 40 23.44);
    first [reflexivity | lra].
Defined.

Lemma getSunTimes_midnight_sun (s : Solograph.t) (day : num) (c : R) :
  cosHourAngle s day = Fin c -> c < -1 ->
  Solograph.getSunTimes s day
  = {| Solograph.sunrise := Fin 0; Solograph.sunset := Fin 24;
       Solograph.dayLength := Fin 24;
       Solograph.neverSets := Some true; Solograph.neverRises := None |}.
Proof.
  intros Hc Hr. rewrite getSunTimes_unfold, Hc.
  rewrite nlt_Fin_true by lra. reflexivity.
Qed.

Lemma getSunTimes_polar_night (s : Solograph.t) (day : num) (c : R) :
  cosHourAngle s day = Fin c -> 1 < c ->
  Solograph.getSunTimes s day
  = {| Solograph.sunrise := Fin 12; Solograph.sunset := Fin 12;
       Solograph.dayLength := Fin 0;
       Solograph.neverSets := None; Solograph.neverRises := Some true |}.
Proof.
  intros Hc Hr. rewrite getSunTimes_unfold, Hc. unfold ngt.
  rewrite nlt_Fin_false, nlt_Fin_true by lra. reflexivity.
Qed.

(** At the hour angle whose cosine is -tan(lat) tan(dec) the sine of the
    altitude vanishes. *)
Lemma sinAlt_on_horizon (phi dec : R) :
  cos phi <> 0 -> cos dec <> 0 ->
  sin dec * sin phi + cos dec * cos phi * (- tan phi * tan dec) = 0.
Proof. intros Hp Hd. unfold tan. field. split; assumption. Qed.

(** X8.  On a day with a sunrise and a sunset (neither flag set), the
    transform puts the sun exactly on the horizon at the two hours that
    [getSunTimes] returns: the altitude at hour angle sunrise - 12 and at
    sunset - 12 is 0. *)
Theorem sun_on_horizon_at_sunrise_and_sunset
    (this : Solograph.t) (day lat t : R) :
  Solograph.latitude this = Fin lat ->
  Solograph.tilt this = Fin t ->
  -90 < lat < 90 ->
  -90 < t < 90 ->
  let times := Solograph.getSunTimes this (Fin day) in
  let declination := Solograph.getDeclination this (Fin day) in
  Solograph.neverSets times = None ->
  Solograph.neverRises times = None ->
  altitude (Solograph.equatorialToHorizontal
              (Solograph.sunrise times - Fin 12)%num declination
              (Solograph.latitude this)) = Fin 0
  /\ altitude (Solograph.equatorialToHorizontal
                 (Solograph.sunset times - Fin 12)%num declination
                 (Solograph.latitude this)) = Fin 0.
Proof.
  intros Hlat Ht Hl Hr times declination. subst times declination.
  pose proof (cosHourAngle_Fin this day lat t Hlat Ht Hl Hr) as Hc.
  set (dec := asin (sin (t * PI / 180) * sin (2 * PI * (day - 80) / 365))) in *.
  set (c := - tan (lat * PI / 180) * tan dec) in *.
  destruct (Rlt_dec c (-1)) as [Hlo | Hlo].
  { rewrite (getSunTimes_midnight_sun this _ c Hc Hlo). discriminate. }
  destruct (Rlt_dec 1 c) as [Hhi | Hhi].
  { rewrite (getSunTimes_polar_night this _ c Hc Hhi). discriminate. }
  assert (Hb : -1 <= c <= 1) by lra.
  rewrite (getSunTimes_ordinary this _ c Hc Hb). intros _ _.
  cbn [Solograph.sunrise Solograph.sunset nsub nadd nneg].
  rewrite Hlat, (Solograph_getDeclination_Fin this day t Ht). fold dec.
  rewrite !Solograph_equatorialToHorizontal_altitude by lra.
  pose proof PI_RGT_0 as Hpi.
  pose proof (toRad_open_range lat Hl) as Hphi.
  pose proof (declination_open_range t (2 * PI * (day - 80) / 365) Hr) as Hd.
  fold dec in Hd.
  assert (Hcp : cos (lat * PI / 180) <> 0) by (apply Rgt_not_eq, cos_gt_0; lra).
  assert (Hcd : cos dec <> 0) by (apply Rgt_not_eq, cos_gt_0; lra).
  replace ((12 - acos c * 180 / PI / 15 + - (12)) * 15 * PI / 180)
    with (- acos c) by (field; lra).
  replace ((12 + acos c * 180 / PI / 15 + - (12)) * 15 * PI / 180)
    with (acos c) by (field; lra).
  rewrite cos_neg, cos_acos by assumption. unfold c.
  rewrite sinAlt_on_horizon by assumption. rewrite asin_0.
  split; f_equal; field; lra.
Qed.

Lemma sun_on_horizon_at_sunrise_and_sunset_witness :
  altitude (Solograph.equatorialToHorizontal
              (Solograph.sunrise
                 (Solograph.getSunTimes
                    (Solograph.set_latitude Solograph.initial (Fin 0)) (Fin 172))
               - Fin 12)%num
              (Solograph.getDeclination
                 (Solograph.set_latitude Solograph.initial (Fin 0)) (Fin 172))
              (Fin 0)) = Fin 0
  /\ altitude (Solograph.equatorialToHorizontal
                 (Solograph.sunset
                    (Solograph.getSunTimes
                       (Solograph.set_latitude Solograph.initial (Fin 0)) (Fin 172))
                  - Fin 12)%num
                 (Solograph.getDeclination
                    (Solograph.set_latitude Solograph.initial (Fin 0)) (Fin 172))
                 (Fin 0)) = Fin 0.
Proof.
  assert (Hc : cosHourAngle (Solograph.set_latitude Solograph.initial (Fin 0))
                 (Fin 172) = Fin 0).
  { rewrite (cosHourAngle_Fin
               (Solograph.set_latitude Solograph.initial (Fin 0))
               172 0 23.44 eq_refl eq_refl) by lra.
    f_equal. replace (0 * PI / 180) with 0 by lra. rewrite tan_0. ring. }
  apply (sun_on_horizon_at_sunrise_and_sunset
           (Solograph.set_latitude Solograph.initial (Fin 0)) 172 0 23.44);
    try reflexivity; try lra;
    rewrite (getSunTimes_ordinary _ _ 0 Hc) by lra; reflexivity.
Defined.

(** The days on which the cosine of the sunset hour angle is 0. *)
Lemma cosHourAngle_zero (this : Solograph.t) (day lat t : R) :
  Solograph.latitude this = Fin lat ->
  Solograph.tilt this = Fin t ->
  -90 < lat < 90 ->
  -90 < t < 90 ->
  lat = 0 \/ day = 80 ->
  cosHourAngle this (Fin day) = Fin 0.
Proof.
  intros Hlat Ht Hl Hr Hcase.
  rewrite (cosHourAngle_Fin this day lat t Hlat Ht Hl Hr). f_equal.
  destruct Hcase as [-> | ->].
  - replace (0 * PI / 180) with 0 by lra. rewrite tan_0. ring.
  - replace (2 * PI * (80 - 80) / 365) with 0 by lra.
    rewrite sin_0, Rmult_0_r, asin_0, tan_0. ring.
Qed.

Lemma getSunTimes_quarter_arc (this : Solograph.t) (day : num) :
  cosHourAngle this day = Fin 0 ->
  Solograph.getSunTimes this day
  = {| Solograph.sunrise := Fin 6; Solograph.sunset := Fin 18;
       Solograph.dayLength := Fin 12;
       Solograph.neverSets := None; Solograph.neverRises := None |}.
Proof.
  intros Hc. rewrite (getSunTimes_ordinary this _ 0 Hc) by lra.
  rewrite acos_0. pose proof PI_RGT_0 as Hpi.
  f_equal; f_equal; field; lra.
Qed.

(** X9.  At the equator on every day, and at every latitude short of the
    poles on day 80 (the equinox of the declination formula),
    [getSunTimes] gives sunrise 6, sunset 18 and a day of 12 hours, with
    no flag. *)
Theorem twelve_hour_days (this : Solograph.t) (day lat t : R) :
  Solograph.latitude this = Fin lat ->
  Solograph.tilt this = Fin t ->
  -90 < lat < 90 ->
  -90 < t < 90 ->
  lat = 0 \/ day = 80 ->
  Solograph.getSunTimes this (Fin day)
  = {| Solograph.sunrise := Fin 6; Solograph.sunset := Fin 18;
       Solograph.dayLength := Fin 12;
       Solograph.neverSets := None; Solograph.neverRises := None |}.
Proof.
  intros Hlat Ht Hl Hr Hcase. apply getSunTimes_quarter_arc.
  now apply (cosHourAngle_zero this day lat t).
Qed.

Lemma twelve_hour_days_witness :
  Solograph.getSunTimes (Solograph.set_latitude Solograph.initial (Fin 0)) (Fin 172)
  = {| Solograph.sunrise := Fin 6; Solograph.sunset := Fin 18;
       Solograph.dayLength := Fin 12;
       Solograph.neverSets := None; Solograph.neverRises := None |}.
Proof.
  apply (twelve_hour_days
           (Solograph.set_latitude Solograph.initial (Fin 0)) 172 0 23.44);
    first [reflexivity | lra | (left; reflexivity)].
Defined.

(** X10.  Opposite latitudes share the 24 hours: at every latitude from
    -90 to 90, the poles included, for every tilt and on every day, the day
    lengths that [getSunTimes] gives for latitude [lat] and for [-lat] add
    up to 24, also when one of the two has midnight sun and the other
    polar night. *)
Theorem day_lengths_of_opposite_latitudes
    (this : Solograph.t) (day lat t : R) :
  Solograph.latitude this = Fin lat ->
  Solograph.tilt this = Fin t ->
  -90 <= lat <= 90 ->
  exists L : R,
    0 <= L <= 24
    /\ Solograph.dayLength (Solograph.getSunTimes this (Fin day)) = Fin L
    /\ Solograph.dayLength
         (Solograph.getSunTimes
            (Solograph.set_latitude this (Fin (- lat))) (Fin day))
       = Fin (24 - L).
Proof.
  intros Hlat Ht Hl.
  pose proof (cosHourAngle_Rtan this day lat t Hlat Ht) as Hc.
  pose proof (cosHourAngle_Rtan (Solograph.set_latitude this (Fin (- lat)))
                day (- lat) t eq_refl Ht) as Hc'.
  set (dec := asin (sin (t * PI / 180) * sin (2 * PI * (day - 80) / 365))) in *.
  replace (- lat * PI / 180) with (- (lat * PI / 180)) in Hc' by lra.
  rewrite Rtan_neg in Hc'.
  set (c := - Rtan (lat * PI / 180) * Rtan dec) in *.
  replace (- - Rtan (lat * PI / 180) * Rtan dec) with (- c) in Hc'
    by (unfold c; ring).
  pose proof PI_RGT_0 as Hpi.
  destruct (Rlt_dec c (-1)) as [Hlo | Hlo].
  { exists 24.
    rewrite (getSunTimes_midnight_sun this _ c Hc Hlo).
    rewrite (getSunTimes_polar_night _ _ (- c) Hc') by lra.
    cbn [Solograph.dayLength]. repeat split; try lra. f_equal; lra. }
  destruct (Rlt_dec 1 c) as [Hhi | Hhi].
  { exists 0.
    rewrite (getSunTimes_polar_night this _ c Hc Hhi).
    rewrite (getSunTimes_midnight_sun _ _ (- c) Hc') by lra.
    cbn [Solograph.dayLength]. repeat split; try lra. f_equal; lra. }
  assert (Hb : -1 <= c <= 1) by lra.
  exists (12 + acos c * 180 / PI / 15 - (12 - acos c * 180 / PI / 15)).
  rewrite (getSunTimes_ordinary this _ c Hc Hb).
  rewrite (getSunTimes_ordinary _ _ (- c) Hc') by lra.
  cbn [Solograph.dayLength]. rewrite acos_opp.
  pose proof (half_day_arc c Hb) as Ha.
  split; [lra |]. split; [reflexivity |]. f_equal. field. lra.
Qed.

(** The two poles on day 172. *)
Lemma day_lengths_of_opposite_latitudes_witness :
  exists L : R,
    0 <= L <= 24
    /\ Solograph.dayLength
         (Solograph.getSunTimes
            (Solograph.set_latitude Solograph.initial (Fin 90)) (Fin 172))
       = Fin L
    /\ Solograph.dayLength
         (Solograph.getSunTimes
            (Solograph.set_latitude
               (Solograph.set_latitude Solograph.initial (Fin 90))
               (Fin (- 90))) (Fin 172))
       = Fin (24 - L).
Proof.
  apply (day_lengths_of_opposite_latitudes
           (Solograph.set_latitude Solograph.initial (Fin 90)) 172 90 23.44);
    first [reflexivity | lra].
Defined.

(** X11.  The day path is symmetric about noon in altitude: the points
    that [getSunPath] stores 5 j minutes before and 5 j minutes after
    12:00 have the same altitude. *)
Theorem sun_path_symmetric_about_noon
    (this : Solograph.t) (day lat t : R) (j : nat) :
  Solograph.latitude this = Fin lat ->
  Solograph.tilt this = Fin t ->
  -90 <= lat <= 90 ->
  (j <= 143)%nat ->
  Solograph.Path.altitude
    <$> Solograph.getSunPath this (Fin day) !! (144 - j)%nat
  = Solograph.Path.altitude
      <$> Solograph.getSunPath this (Fin day) !! (144 + j)%nat.
Proof.
  intros Hlat Ht Hl Hj. rewrite getSunPath_points.
  rewrite !list_lookup_fmap, !lookup_seqZ_lt by lia.
  cbn [fmap option_fmap option_map].
  rewrite !(pathPointOf_altitude this day lat t _ Hlat Ht Hl).
  replace (5 * (0 + Z.of_nat (144 - j)))%Z with (720 - 5 * Z.of_nat j)%Z by lia.
  replace (5 * (0 + Z.of_nat (144 + j)))%Z with (720 + 5 * Z.of_nat j)%Z by lia.
  rewrite minus_IZR, plus_IZR, mult_IZR.
  replace ((720 - 5 * IZR (Z.of_nat j)) / 60 - 12)
    with (- ((720 + 5 * IZR (Z.of_nat j)) / 60 - 12)) by lra.
  replace (- ((720 + 5 * IZR (Z.of_nat j)) / 60 - 12) * 15 * PI / 180)
    with (- (((720 + 5 * IZR (Z.of_nat j)) / 60 - 12) * 15 * PI / 180)) by lra.
  rewrite cos_neg. reflexivity.
Qed.

Lemma sun_path_symmetric_about_noon_witness :
  Solograph.Path.altitude
    <$> Solograph.getSunPath Solograph.initial (Fin 172) !! (144 - 72)%nat
  = Solograph.Path.altitude
      <$> Solograph.getSunPath Solograph.initial (Fin 172) !! (144 + 72)%nat.
Proof.
  apply (sun_path_symmetric_about_noon Solograph.initial 172 40 23.44 72);
    first [reflexivity | lra | lia].
Defined.

(* ===================================================================== *)
(** ** The orbit: speed, declination and Equation of Time across the views *)
(* ===================================================================== *)

Lemma trueAnomalySeries_0 (e : R) : trueAnomalySeries e 0 = 0.
Proof.
  unfold trueAnomalySeries. rewrite !Rmult_0_r, sin_0. ring.
Qed.

Lemma trueAnomalySeries_circular (M : R) : trueAnomalySeries 0 M = M.
Proof. unfold trueAnomalySeries. field. Qed.

(** X12.  The orbital speed of the dashboard stays between 1 - e and
    1 + e on every day, and on the perihelion day it is exactly 1 + e, the
    fastest. *)
Theorem getOrbitalSpeed_range (p : Analemma.params) (day e pd : R) :
  Analemma.eccentricity p = Fin e ->
  Analemma.perihelionDay p = Fin pd ->
  0 <= e ->
  Analemma.getOrbitalSpeed p (Fin pd) = Fin (1 + e)
  /\ exists v : R,
       Analemma.getOrbitalSpeed p (Fin day) = Fin v /\ 1 - e <= v <= 1 + e.
Proof.
  intros He Hpd Hpos. split.
  - assert (HM : Analemma.getMeanAnomaly p (Fin pd) = Fin 0).
    { rewrite (Analemma_getMeanAnomaly_Fin p pd pd Hpd) by lra.
      replace (pd - pd + 365) with (IZR 365) by lra.
      rewrite (posmod_IZR 365 365) by lia. f_equal.
      change (365 mod 365)%Z with 0%Z. lra. }
    rewrite (Analemma_getOrbitalSpeed_Fin p pd e 0 He HM).
    rewrite trueAnomalySeries_0, cos_0. f_equal. ring.
  - destruct (Analemma_getMeanAnomaly_finite p day pd Hpd) as [M HM].
    rewrite (Analemma_getOrbitalSpeed_Fin p day e M He HM).
    eexists. split; [reflexivity |].
    pose proof (COS_bound (trueAnomalySeries e M)) as [Hlo Hhi]. nra.
Qed.

Lemma getOrbitalSpeed_range_witness :
  Analemma.getOrbitalSpeed Analemma.defaults (Fin 3) = Fin (1 + 0.017)
  /\ exists v : R,
       Analemma.getOrbitalSpeed Analemma.defaults (Fin 200) = Fin v
       /\ 1 - 0.017 <= v <= 1 + 0.017.
Proof.
  apply (getOrbitalSpeed_range Analemma.defaults 200 0.017 3);
    first [reflexivity | lra].
Defined.

Lemma eccentricityEffect_circular (M : R) : eccentricityEffect 0 M = 0.
Proof. unfold eccentricityEffect. ring. Qed.

Lemma obliquityEffect_upright (L : R) :
  obliquityEffect (tan (0 * PI / 180 / 2)) L = 0.
Proof.
  replace (0 * PI / 180 / 2) with 0 by lra. rewrite tan_0.
  unfold obliquityEffect. ring.
Qed.

(** X13.  Each component of the Equation of Time vanishes with its cause:
    on a circular orbit (e = 0) the eccentricity component of
    [getEOTComponents] is 0 on every day, with an upright axis (tilt 0) the
    obliquity component is 0 on every day, and with both the Equation of
    Time is 0 whatever the toggles say. *)
Theorem equation_of_time_vanishes_with_its_causes
    (p : Analemma.params) (day t e pd : R) :
  Analemma.tilt p = Fin t -> -180 < t < 180 ->
  Analemma.eccentricity p = Fin e ->
  Analemma.perihelionDay p = Fin pd ->
  (e = 0 ->
   Analemma.EOT.eccentricity (Analemma.getEOTComponents p (Fin day)) = Fin 0)
  /\ (t = 0 ->
      Analemma.EOT.obliquity (Analemma.getEOTComponents p (Fin day)) = Fin 0)
  /\ (e = 0 -> t = 0 -> Analemma.getEquationOfTime p (Fin day) = Fin 0).
Proof.
  intros Ht Hr He Hpd.
  destruct (Analemma_getMeanAnomaly_finite p day pd Hpd) as [M HM].
  unfold Analemma.getEquationOfTime.
  rewrite (getEOTComponents_Fin p day t e M Ht Hr He HM).
  cbn [Analemma.EOT.eccentricity Analemma.EOT.obliquity].
  split; [| split].
  - intros ->. rewrite eccentricityEffect_circular. f_equal. ring.
  - intros ->. rewrite obliquityEffect_upright. f_equal. ring.
  - intros -> ->. rewrite eccentricityEffect_circular, obliquityEffect_upright.
    destruct (Analemma.showEccentricityComponent p),
             (Analemma.showTiltComponent p);
      cbn [nadd]; f_equal; ring.
Qed.

Lemma equation_of_time_vanishes_with_its_causes_witness :
  Analemma.getEquationOfTime
    (set_tilt (set_eccentricity Analemma.defaults (Fin 0)) (Fin 0)) (Fin 100)
  = Fin 0.
Proof.
  apply (equation_of_time_vanishes_with_its_causes
           (set_tilt (set_eccentricity Analemma.defaults (Fin 0)) (Fin 0))
           100 0 0 3);
    first [reflexivity | lra].
Defined.

(** X14.  The earlier revision of [getEquationOfTime], which masks the
    two effects in radians and converts their sum once, returns what the
    present one returns, which sums the converted components: for every
    day and every setting of the toggles. *)
Theorem getEquationOfTime_revisions_agree
    (p : Analemma.params) (day t e pd : R) :
  Analemma.tilt p = Fin t -> -180 < t < 180 ->
  Analemma.eccentricity p = Fin e ->
  Analemma.perihelionDay p = Fin pd ->
  Dashboard.getEquationOfTime_earlier p (Fin day)
  = Analemma.getEquationOfTime p (Fin day).
Proof.
  intros Ht Hr He Hpd.
  destruct (Analemma_getMeanAnomaly_finite p day pd Hpd) as [M HM].
  unfold Analemma.getEquationOfTime.
  rewrite (getEOTComponents_Fin p day t e M Ht Hr He HM).
  cbn [Analemma.EOT.eccentricity Analemma.EOT.obliquity].
  unfold Dashboard.getEquationOfTime_earlier.
  rewrite Ht, He, HM, !toRad_Fin. fin_arith. rewrite !toRad_Fin.
  rewrite Math_tan_Fin by now apply cos_half_tilt_neq0.
  fin_arith. unfold eccentricityEffect, obliquityEffect.
  replace ((360 * (day + - (80)) / 365) * PI / 180)
    with (2 * PI * (day - 80) / 365) by field.
  destruct (Analemma.showEccentricityComponent p),
           (Analemma.showTiltComponent p);
    cbn [nadd nmul]; f_equal; ring.
Qed.

Lemma getEquationOfTime_revisions_agree_witness :
  Dashboard.getEquationOfTime_earlier Analemma.defaults (Fin 100)
  = Analemma.getEquationOfTime Analemma.defaults (Fin 100).
Proof.
  apply (getEquationOfTime_revisions_agree Analemma.defaults 100 23.4 0.017 3);
    first [reflexivity | lra].
Defined.

Lemma Sky_getEquationOfTime_Fin (s : Sky.t) (day t e M : R) :
  Sky.tilt s = Fin t -> -180 < t < 180 ->
  Sky.eccentricity s = Fin e ->
  Sky.getMeanAnomaly s (Fin day) = Fin M ->
  Sky.getEquationOfTime s (Fin day)
  = Fin ((eccentricityEffect e M
          + obliquityEffect (tan (t * PI / 180 / 2))
              (2 * PI * (day - 80) / 365)) * 24 / (2 * PI)).
Proof.
  intros Ht Hr He HM. pose proof PI_RGT_0 as Hpi. unfold Sky.getEquationOfTime.
  rewrite Ht, He, HM, !Sky_toRad_Fin. fin_arith. rewrite !Sky_toRad_Fin.
  rewrite Math_tan_Fin by now apply cos_half_tilt_neq0.
  fin_arith. unfold eccentricityEffect, obliquityEffect.
  replace ((360 * (day + - (80)) / 365) * PI / 180)
    with (2 * PI * (day - 80) / 365) by field.
  f_equal. f_equal. f_equal. ring.
Qed.

Lemma minutes_per_hour_of_angle : Rabs (2 * PI / 24 * 229.18 - 60) <= 0.001.
Proof.
  pose proof PI_bounds as [Hlo Hhi]. apply Rabs_le. lra.
Qed.

(** X15.  The sky view and the dashboard compute one Equation of Time in
    two units: with the same tilt, eccentricity and perihelion day (and
    both toggles on), the dashboard's minutes are the sky view's hours
    times 2 PI / 24 * 229.18, which is 60 to within a thousandth. *)
Theorem equation_of_time_hours_and_minutes
    (p : Analemma.params) (s : Sky.t) (day t e pd : R) :
  Analemma.tilt p = Fin t -> Sky.tilt s = Fin t -> -180 < t < 180 ->
  Analemma.eccentricity p = Fin e -> Sky.eccentricity s = Fin e ->
  Analemma.perihelionDay p = Fin pd -> Sky.perihelionDay s = Fin pd ->
  Analemma.showEccentricityComponent p = true ->
  Analemma.showTiltComponent p = true ->
  exists h m : R,
    Sky.getEquationOfTime s (Fin day) = Fin h
    /\ Analemma.getEquationOfTime p (Fin day) = Fin m
    /\ m = h * (2 * PI / 24 * 229.18)
    /\ Rabs (m - 60 * h) <= 0.001 * Rabs h.
Proof.
  intros Ht Ht' Hr He He' Hpd Hpd' Hse Hst.
  destruct (Analemma_getMeanAnomaly_finite p day pd Hpd) as [M HM].
  assert (HM' : Sky.getMeanAnomaly s (Fin day) = Fin M).
  { rewrite <- HM. unfold Sky.getMeanAnomaly, Analemma.getMeanAnomaly.
    rewrite Hpd, Hpd'. reflexivity. }
  pose proof PI_RGT_0 as Hpi.
  rewrite (Sky_getEquationOfTime_Fin s day t e M Ht' Hr He' HM').
  unfold Analemma.getEquationOfTime.
  rewrite (getEOTComponents_Fin p day t e M Ht Hr He HM), Hse, Hst.
  cbn [Analemma.EOT.eccentricity Analemma.EOT.obliquity nadd].
  set (E := eccentricityEffect e M).
  set (O := obliquityEffect (tan (t * PI / 180 / 2)) (2 * PI * (day - 80) / 365)).
  exists ((E + O) * 24 / (2 * PI)), (0 + E * 229.18 + O * 229.18).
  split; [reflexivity |]. split; [reflexivity |].
  assert (Hm : 0 + E * 229.18 + O * 229.18
               = (E + O) * 24 / (2 * PI) * (2 * PI / 24 * 229.18))
    by (field; lra).
  split; [exact Hm |]. rewrite Hm.
  replace ((E + O) * 24 / (2 * PI) * (2 * PI / 24 * 229.18)
           - 60 * ((E + O) * 24 / (2 * PI)))
    with ((2 * PI / 24 * 229.18 - 60) * ((E + O) * 24 / (2 * PI))) by ring.
  rewrite Rabs_mult.
  apply Rmult_le_compat_r; [apply Rabs_pos | apply minutes_per_hour_of_angle].
Qed.

Lemma equation_of_time_hours_and_minutes_witness :
  exists h m : R,
    Sky.getEquationOfTime
      {| Sky.hour := Fin 12; Sky.latitude := Fin 40; Sky.tilt := Fin 23.4;
         Sky.eccentricity := Fin 0.017; Sky.perihelionDay := Fin 3 |} (Fin 100)
    = Fin h
    /\ Analemma.getEquationOfTime Analemma.defaults (Fin 100) = Fin m
    /\ m = h * (2 * PI / 24 * 229.18)
    /\ Rabs (m - 60 * h) <= 0.001 * Rabs h.
Proof.
  apply (equation_of_time_hours_and_minutes Analemma.defaults
           {| Sky.hour := Fin 12; Sky.latitude := Fin 40; Sky.tilt := Fin 23.4;
              Sky.eccentricity := Fin 0.017; Sky.perihelionDay := Fin 3 |}
           100 23.4 0.017 3);
    first [reflexivity | lra].
Defined.

Lemma Analemma_getSolarLongitude_Fin (p : Analemma.params) (day e M : R) :
  Analemma.eccentricity p = Fin e ->
  Analemma.getMeanAnomaly p (Fin day) = Fin M ->
  Analemma.getSolarLongitude p (Fin day)
  = Fin (2 * PI * (day - 80) / 365 + (trueAnomalySeries e M - M)).
Proof.
  intros He HM. unfold Analemma.getSolarLongitude.
  rewrite HM, (Analemma_getTrueAnomaly_Fin p e M He). fin_arith.
  rewrite toRad_Fin. fin_arith. f_equal. field.
Qed.

(** X16.  On a circular orbit the dashboard's declination is the
    solograph's: with e = 0 and the same tilt, [getSolarDeclination]
    returns, in degrees, the angle that the solograph's [getDeclination]
    returns in radians, on every day. *)
Theorem circular_orbit_declination
    (p : Analemma.params) (g : Solograph.t) (day t pd : R) :
  Analemma.tilt p = Fin t ->
  Solograph.tilt g = Fin t ->
  Analemma.eccentricity p = Fin 0 ->
  Analemma.perihelionDay p = Fin pd ->
  Analemma.getSolarDeclination p (Fin day)
  = Analemma.toDeg (Solograph.getDeclination g (Fin day)).
Proof.
  intros Ht Ht' He Hpd.
  destruct (Analemma_getMeanAnomaly_finite p day pd Hpd) as [M HM].
  pose proof (Analemma_getSolarLongitude_Fin p day 0 M He HM) as Hlon.
  rewrite trueAnomalySeries_circular in Hlon.
  replace (2 * PI * (day - 80) / 365 + (M - M))
    with (2 * PI * (day - 80) / 365) in Hlon by ring.
  rewrite (Analemma_getSolarDeclination_Fin p day t _ Ht Hlon).
  rewrite (Solograph_getDeclination_Fin g day t Ht'), toDeg_Fin.
  reflexivity.
Qed.

Lemma circular_orbit_declination_witness :
  Analemma.getSolarDeclination
    (set_tilt (set_eccentricity Analemma.defaults (Fin 0)) (Fin 23.44)) (Fin 172)
  = Analemma.toDeg (Solograph.getDeclination Solograph.initial (Fin 172)).
Proof.
  apply (circular_orbit_declination
           (set_tilt (set_eccentricity Analemma.defaults (Fin 0)) (Fin 23.44))
           Solograph.initial 172 23.44 3);
    reflexivity.
Defined.

Lemma sin_shift_Z (x : R) (k : Z) : sin (x - 2 * IZR k * PI) = sin x.
Proof.
  destruct (Z_le_gt_dec 0 k) as [Hk | Hk].
  - rewrite <- (Z2Nat.id k Hk), <- INR_IZR_INZ.
    rewrite <- (sin_period (x - 2 * INR (Z.to_nat k) * PI) (Z.to_nat k)).
    f_equal. ring.
  - replace (x - 2 * IZR k * PI) with (x + 2 * IZR (- k) * PI)
      by (rewrite opp_IZR; ring).
    rewrite <- (Z2Nat.id (- k)) by lia. rewrite <- INR_IZR_INZ. apply sin_period.
Qed.

(** The declination of the sky view: the solar longitude is the true
    anomaly plus the longitude of the perihelion plus PI. *)
Lemma Sky_getDeclination_Fin (s : Sky.t) (day t e pd M : R) :
  Sky.tilt s = Fin t -> Sky.eccentricity s = Fin e ->
  Sky.perihelionDay s = Fin pd ->
  Sky.getMeanAnomaly s (Fin day) = Fin M ->
  Sky.getDeclination s (Fin day)
  = Fin (asin (sin (t * PI / 180)
               * sin (trueAnomalySeries2 e M + 2 * PI * (pd - 80) / 365 + PI))).
Proof.
  intros Ht He Hpd HM. unfold Sky.getDeclination.
  rewrite HM, (Sky_getTrueAnomaly_Fin s e M He), Ht, Hpd.
  cbn [nsub nneg nadd nmul].
  rewrite !Sky_toRad_Fin. fin_arith. rewrite !Sky_toRad_Fin. fin_arith.
  rewrite Math_asin_Fin by apply sin_prod_bound.
  replace (360 * (pd + - (80)) / 365 * PI / 180)
    with (2 * PI * (pd - 80) / 365) by field.
  reflexivity.
Qed.

(** The equation of center of the sky view is small. *)
Lemma center2_bound (e M : R) :
  0 <= e <= 0.02 -> Rabs (trueAnomalySeries2 e M - M) <= 0.0405.
Proof.
  intros He. unfold trueAnomalySeries2.
  pose proof (SIN_bound M) as [H1 H2].
  pose proof (SIN_bound (2 * M)) as [H3 H4].
  assert (Ha : - (2 * e) <= 2 * e * sin M <= 2 * e) by (split; nra).
  assert (He2 : 0 <= e ^ 2 <= 0.0004) by (split; nra).
  assert (Hb : - (1.25 * e ^ 2) <= 1.25 * e ^ 2 * sin (2 * M) <= 1.25 * e ^ 2)
    by (split; nra).
  apply Rabs_le. lra.
Qed.

Lemma asin_neg (x : R) : -1 <= x < 0 -> asin x < 0.
Proof.
  intros Hx. replace x with (- - x) by ring. rewrite asin_opp.
  assert (0 < asin (- x)) by (apply asin_pos; lra). lra.
Qed.

(** X17.  The sky view has the seasons of the solograph reversed: from
    day 83 to day 260 (northern spring and summer) the solograph's
    declination is positive while the sky view's, whose solar longitude
    carries an added PI, is negative, for every tilt up to 90 degrees and
    every eccentricity up to 0.02. *)
Theorem sky_view_seasons_reversed
    (s : Sky.t) (g : Solograph.t) (day t e pd : R) :
  Sky.tilt s = Fin t -> Solograph.tilt g = Fin t -> 0 < t <= 90 ->
  Sky.eccentricity s = Fin e -> 0 <= e <= 0.02 ->
  Sky.perihelionDay s = Fin pd -> 0 <= day - pd + 365 ->
  83 <= day <= 260 ->
  exists dSky dSolograph : R,
    Sky.getDeclination s (Fin day) = Fin dSky
    /\ Solograph.getDeclination g (Fin day) = Fin dSolograph
    /\ dSky < 0 < dSolograph.
Proof.
  intros Ht Ht' Hr He Her Hpd Hday Hrange.
  pose proof PI_bounds as [Hpl Hph].
  pose proof (Sky_getMeanAnomaly_Fin s day pd Hpd Hday) as HM.
  set (M := 2 * PI * posmod (day - pd + 365) 365 / 365) in *.
  rewrite (Sky_getDeclination_Fin s day t e pd M Ht He Hpd HM).
  rewrite (Solograph_getDeclination_Fin g day t Ht').
  do 2 eexists. split; [reflexivity |]. split; [reflexivity |].
  set (a := 2 * PI * (day - 80) / 365).
  assert (Ha : 0.05 < a < PI - 0.041) by (unfold a; split; nra).
  assert (Ho : 0 < t * PI / 180 <= PI / 2) by (split; nra).
  assert (Hso : 0 < sin (t * PI / 180) <= 1).
  { split; [apply sin_gt_0; lra | apply SIN_bound]. }
  destruct (posmod_congruent (day - pd + 365) 365) as [k Hk].
  pose proof (center2_bound e M Her) as HC.
  apply Rabs_bound_inv in HC.
  set (C := trueAnomalySeries2 e M - M) in *.
  replace (trueAnomalySeries2 e M + 2 * PI * (pd - 80) / 365 + PI)
    with (a + C + PI - 2 * IZR (k - 1) * PI).
  2:{ unfold C, a, M. rewrite minus_IZR.
      replace (posmod (day - pd + 365) 365)
        with (day - pd + 365 - 365 * IZR k) by lra.
      field. }
  rewrite sin_shift_Z, neg_sin.
  assert (Hsx : 0 < sin (a + C) <= 1).
  { split; [apply sin_gt_0; lra | apply SIN_bound]. }
  assert (Hsa : 0 < sin a <= 1).
  { split; [apply sin_gt_0; lra | apply SIN_bound]. }
  split.
  - apply asin_neg. split; nra.
  - apply asin_pos. split; nra.
Qed.

Lemma sky_view_seasons_reversed_witness :
  exists dSky dSolograph : R,
    Sky.getDeclination Sky.defaults (Fin 172) = Fin dSky
    /\ Solograph.getDeclination Solograph.initial (Fin 172) = Fin dSolograph
    /\ dSky < 0 < dSolograph.
Proof.
  apply (sky_view_seasons_reversed Sky.defaults Solograph.initial
           172 23.44 0.0167 3);
    first [reflexivity | lra].
Defined.

(* ===================================================================== *)
(** ** The projection onto the canvas *)
(* ===================================================================== *)

Lemma SkyView_skyToCanvas_Fin (c : Canvas) (cx hy rad alt az : R) :
  centerX c = Fin cx -> horizonY c = Fin hy -> skyRadius c = Fin rad ->
  SkyView.skyToCanvas c (Fin alt) (Fin az)
  = {| Point.x := Fin (cx + rad * (90 - alt) / 90 * sin ((az - 180) * PI / 180));
       Point.y := Fin (hy - rad * (90 - alt) / 90 * cos ((az - 180) * PI / 180)) |}.
Proof.
  intros Hx Hy Hr. unfold SkyView.skyToCanvas. rewrite Hx, Hy, Hr.
  cbn [nsub nneg nadd nmul]. rewrite Sky_toRad_Fin. fin_arith.
  reflexivity.
Qed.

Lemma SolographView_skyToCanvas_Fin (c : Canvas) (cx hy rad alt az : R) :
  centerX c = Fin cx -> horizonY c = Fin hy -> skyRadius c = Fin rad ->
  SolographView.skyToCanvas c (Fin alt) (Fin az)
  = {| Point.x := Fin (cx + rad * (90 - Rmax 0 alt) / 90
                       * sin ((az - 180) * PI / 180));
       Point.y := Fin (hy - rad * (90 - Rmax 0 alt) / 90
                       * cos ((az - 180) * PI / 180)) |}.
Proof.
  intros Hx Hy Hr. unfold SolographView.skyToCanvas. rewrite Hx, Hy, Hr.
  cbn [Math_max nsub nneg nadd nmul]. rewrite Solograph_toRad_Fin. fin_arith.
  reflexivity.
Qed.

(** A point at distance [r] in the direction [a] from the pivot. *)
Lemma polar_distance (cx hy r a : R) :
  (cx + r * sin a - cx) ^ 2 + (hy - r * cos a - hy) ^ 2 = r ^ 2.
Proof.
  replace ((cx + r * sin a - cx) ^ 2 + (hy - r * cos a - hy) ^ 2)
    with (r ^ 2 * ((sin a) ^ 2 + (cos a) ^ 2)) by ring.
  replace ((sin a) ^ 2 + (cos a) ^ 2) with ((sin a)² + (cos a)²)
    by (unfold Rsqr; ring).
  rewrite sin2_cos2. ring.
Qed.

(** X18.  The sky view's [skyToCanvas] is a polar chart about the point
    (centerX, horizonY): a position of altitude [alt] lands at distance
    skyRadius * (90 - alt) / 90 from it, whatever the azimuth, so the
    zenith lands on that point itself; azimuth 180 lands straight above
    it. *)
Theorem Sky_skyToCanvas_polar (c : Canvas) (cx hy rad alt az : R) :
  centerX c = Fin cx -> horizonY c = Fin hy -> skyRadius c = Fin rad ->
  exists x y : R,
    SkyView.skyToCanvas c (Fin alt) (Fin az) = {| Point.x := Fin x; Point.y := Fin y |}
    /\ (x - cx) ^ 2 + (y - hy) ^ 2 = (rad * (90 - alt) / 90) ^ 2
    /\ (alt = 90 -> x = cx /\ y = hy)
    /\ (az = 180 -> x = cx /\ y = hy - rad * (90 - alt) / 90).
Proof.
  intros Hx Hy Hr.
  rewrite (SkyView_skyToCanvas_Fin c cx hy rad alt az Hx Hy Hr).
  do 2 eexists. split; [reflexivity |]. split; [apply polar_distance |].
  split.
  - intros ->. split; field.
  - intros ->. replace ((180 - 180) * PI / 180) with 0 by lra.
    rewrite sin_0, cos_0. split; ring.
Qed.

Lemma Sky_skyToCanvas_polar_witness :
  exists x y : R,
    SkyView.skyToCanvas (setupCanvas (Fin 800) (Fin 600)) (Fin 30) (Fin 200)
    = {| Point.x := Fin x; Point.y := Fin y |}
    /\ (x - 800 / 2) ^ 2 + (y - 600 * 0.85) ^ 2
       = (600 * 0.75 * (90 - 30) / 90) ^ 2
    /\ (30 = 90 -> x = 800 / 2 /\ y = 600 * 0.85)
    /\ (200 = 180 ->
        x = 800 / 2 /\ y = 600 * 0.85 - 600 * 0.75 * (90 - 30) / 90).
Proof.
  apply (Sky_skyToCanvas_polar (setupCanvas (Fin 800) (Fin 600))
           (800 / 2) (600 * 0.85) (600 * 0.75) 30 200);
    unfold setupCanvas; cbn [centerX horizonY skyRadius nmul];
    try reflexivity.
  apply ndiv_Fin. lra.
Defined.

(** X19.  Every position that the solograph's transform computes is
    drawn inside the horizon circle: on a canvas laid out by [setupCanvas]
    the projected point is at most skyRadius = 0.75 height away from
    (width / 2, 0.85 height), it is exactly on that circle when the sun is
    below the horizon, and so it is never above the line 0.1 height. *)
Theorem Solograph_positions_inside_horizon_circle
    (w ht H dec lat : R) :
  -90 <= lat <= 90 ->
  0 <= ht ->
  let pos := Solograph.equatorialToHorizontal (Fin H) (Fin dec) (Fin lat) in
  exists alt x y : R,
    altitude pos = Fin alt
    /\ SolographView.skyToCanvas (setupCanvas (Fin w) (Fin ht))
         (altitude pos) (azimuth pos)
       = {| Point.x := Fin x; Point.y := Fin y |}
    /\ (x - w / 2) ^ 2 + (y - ht * 0.85) ^ 2 <= (ht * 0.75) ^ 2
    /\ (alt <= 0 -> (x - w / 2) ^ 2 + (y - ht * 0.85) ^ 2 = (ht * 0.75) ^ 2)
    /\ ht * 0.1 <= y.
Proof.
  intros Hlat Hht pos. subst pos.
  rewrite (Solograph_equatorialToHorizontal_Fin H dec lat Hlat).
  cbv zeta. cbn [altitude azimuth].
  set (alt := asin _ * 180 / PI). set (az := Ratan2 _ _ * 180 / PI).
  assert (Halt : -90 <= alt <= 90) by apply altitude_degrees_range.
  assert (Hcx : centerX (setupCanvas (Fin w) (Fin ht)) = Fin (w / 2))
    by (apply ndiv_Fin; lra).
  rewrite (SolographView_skyToCanvas_Fin _ (w / 2) (ht * 0.85) (ht * 0.75)
             alt az Hcx eq_refl eq_refl).
  exists alt. do 2 eexists.
  split; [reflexivity |]. split; [reflexivity |].
  rewrite polar_distance.
  set (f := (90 - Rmax 0 alt) / 90).
  assert (Hf : 0 <= f <= 1).
  { unfold f, Rmax. destruct (Rle_dec 0 alt); lra. }
  replace (ht * 0.75 * (90 - Rmax 0 alt) / 90) with (ht * 0.75 * f)
    by (unfold f; field).
  pose proof (COS_bound ((az - 180) * PI / 180)) as [Hc1 Hc2].
  assert (Hu : 0 <= ht * 0.75 * f <= ht * 0.75) by nra.
  split; [| split].
  - apply pow_incr. exact Hu.
  - intros Hneg. assert (Hf1 : f = 1).
    { unfold f, Rmax. destruct (Rle_dec 0 alt); [| lra].
      replace alt with 0 by lra. lra. }
    rewrite Hf1. ring.
  - nra.
Qed.

Lemma Solograph_positions_inside_horizon_circle_witness :
  exists alt x y : R,
    altitude (Solograph.equatorialToHorizontal (Fin 3) (Fin 0.4) (Fin 40))
    = Fin alt
    /\ SolographView.skyToCanvas (setupCanvas (Fin 800) (Fin 600))
         (altitude (Solograph.equatorialToHorizontal (Fin 3) (Fin 0.4) (Fin 40)))
         (azimuth (Solograph.equatorialToHorizontal (Fin 3) (Fin 0.4) (Fin 40)))
       = {| Point.x := Fin x; Point.y := Fin y |}
    /\ (x - 800 / 2) ^ 2 + (y - 600 * 0.85) ^ 2 <= (600 * 0.75) ^ 2
    /\ (alt <= 0 ->
        (x - 800 / 2) ^ 2 + (y - 600 * 0.85) ^ 2 = (600 * 0.75) ^ 2)
    /\ 600 * 0.1 <= y.
Proof.
  apply (Solograph_positions_inside_horizon_circle 800 600 3 0.4 40); lra.
Defined.

(* ===================================================================== *)
(** ** The clock labels *)
(* ===================================================================== *)

Lemma Int_part_IZR (z : Z) : Int_part (IZR z) = z.
Proof. symmetry. apply Int_part_spec. lra. Qed.

Lemma Int_part_add_small (z : Z) (f : R) :
  0 <= f < 1 -> Int_part (IZR z + f) = z.
Proof. intros Hf. symmetry. apply Int_part_spec. lra. Qed.

(** [formatTime] on hour [h] and [r] minutes: the hour field shows [h],
    the minute field shows [r] rounded to the nearest integer, a tie going
    up. *)
Lemma formatTime_Fin (h : Z) (r : R) :
  0 <= r < 60 ->
  formatTime (Fin (IZR h + r / 60))
  = padStart 2 "0" (pretty h) +:+ ":"
    +:+ padStart 2 "0" (pretty (Int_part (r + 0.5))).
Proof.
  intros Hr. unfold formatTime, Math_round.
  cbn [Math_floor nsub nneg nadd nmul toString].
  rewrite (Int_part_add_small h (r / 60)) by lra.
  rewrite !Int_part_IZR.
  replace ((IZR h + r / 60 + - IZR h) * 60 + 0.5) with (r + 0.5) by field.
  reflexivity.
Qed.

Lemma padStart_twoDigits (z : Z) :
  (0 <= z < 100)%Z -> padStart 2 "0" (pretty z) = twoDigits z.
Proof.
  intros Hz.
  assert (Hall : forallb (fun z => String.eqb (padStart 2 "0" (pretty z))
                                     (twoDigits z))
                   (seqZ 0 100) = true) by (vm_compute; reflexivity).
  rewrite forallb_forall in Hall. apply String.eqb_eq, Hall.
  apply list_elem_of_In, elem_of_seqZ. lia.
Qed.

(** X20.  On a whole minute [formatTime] prints the clock time: hour [h]
    (0 to 99) and [m] minutes (0 to 59) come out as the two digits of [h],
    a colon and the two digits of [m]. *)
Theorem formatTime_whole_minutes (h m : Z) :
  (0 <= h < 100)%Z ->
  (0 <= m < 60)%Z ->
  formatTime (Fin (IZR h + IZR m / 60))
  = twoDigits h +:+ ":" +:+ twoDigits m.
Proof.
  intros Hh Hm.
  assert (Hr : 0 <= IZR m < 60).
  { split; [apply IZR_le | apply IZR_lt]; lia. }
  rewrite formatTime_Fin by assumption.
  rewrite (Int_part_add_small m 0.5) by lra.
  rewrite !padStart_twoDigits by lia. reflexivity.
Qed.

Lemma formatTime_whole_minutes_witness :
  formatTime (Fin (IZR 6 + IZR 5 / 60)) = "06:05".
Proof. apply (formatTime_whole_minutes 6 5); lia. Defined.

(** X21.  In the last half minute of an hour [formatTime] shows minute
    60 and leaves the hour as it is: from [h]:59:30 on, the label is the
    two digits of [h] followed by ":60", not the next full hour. *)
Theorem formatTime_minute_sixty (h : Z) (r : R) :
  (0 <= h < 100)%Z ->
  59.5 <= r < 60 ->
  formatTime (Fin (IZR h + r / 60)) = twoDigits h +:+ ":60".
Proof.
  intros Hh Hr. rewrite formatTime_Fin by lra.
  replace (Int_part (r + 0.5)) with 60%Z
    by (apply Int_part_spec; lra).
  rewrite padStart_twoDigits by lia. reflexivity.
Qed.

Lemma formatTime_minute_sixty_witness :
  formatTime (Fin (IZR 5 + 59.7 / 60)) = "05:60".
Proof. apply (formatTime_minute_sixty 5 59.7); [lia | lra]. Defined.

(* ===================================================================== *)
(** ** The animation loops *)
(* ===================================================================== *)

Lemma nge_Fin_true (x y : R) : y <= x -> (Fin x >=? Fin y)%num = true.
Proof. intros H. unfold nge, nle. destruct (Rle_dec y x); [reflexivity | lra]. Qed.

Lemma nge_Fin_false (x y : R) : x < y -> (Fin x >=? Fin y)%num = false.
Proof. intros H. unfold nge, nle. destruct (Rle_dec y x); [lra | reflexivity]. Qed.

Lemma ngt_Fin_true (x y : R) : y < x -> (Fin x >? Fin y)%num = true.
Proof. intros H. unfold ngt. now apply nlt_Fin_true. Qed.

Lemma ngt_Fin_false (x y : R) : x <= y -> (Fin x >? Fin y)%num = false.
Proof. intros H. unfold ngt. now apply nlt_Fin_false. Qed.

(** X22.  A frame of the dashboard's [animate] keeps the day counter
    well formed and loses no time: if the current day is an integer from 0
    to 364 and the accumulator a fraction in [0, 1), they still are after
    the frame, and day plus accumulator has grown by exactly the elapsed
    time times 0.012 times the speed (by nothing when paused), up to whole
    years of 365 days. *)
Theorem animate_keeps_day_counter
    (this : Dashboard.AnimState) (t0 t1 v a : R) (d : Z) :
  Dashboard.lastTime this = Fin t0 -> t0 <= t1 ->
  Analemma.speed (Dashboard.params this) = Fin v -> 0 <= v ->
  Dashboard.dayAccumulator this = Fin a -> 0 <= a < 1 ->
  Analemma.currentDay (Dashboard.params this) = Fin (IZR d) ->
  (0 <= d < 365)%Z ->
  let next := Dashboard.animate this (Fin t1) in
  let advance :=
    if Analemma.isPlaying (Dashboard.params this)
    then (t1 - t0) * 0.012 * v else 0 in
  exists (d' : Z) (a' : R) (years : Z),
    Analemma.currentDay (Dashboard.params next) = Fin (IZR d')
    /\ (0 <= d' < 365)%Z
    /\ Dashboard.dayAccumulator next = Fin a'
    /\ 0 <= a' < 1
    /\ Dashboard.lastTime next = Fin t1
    /\ (0 <= years)%Z
    /\ IZR d' + a' = IZR d + a + advance - 365 * IZR years.
Proof.
  intros Hlast Ht Hv Hvpos Hacc Ha Hday Hd next advance.
  subst next advance. unfold Dashboard.animate.
  destruct (Analemma.isPlaying (Dashboard.params this)).
  2:{ exists d, a, 0%Z. cbn [Dashboard.params Dashboard.dayAccumulator
                              Dashboard.lastTime].
      repeat split; try assumption; try lia; try lra. }
  rewrite Hlast, Hv, Hacc, Hday. cbn [nsub nneg nadd nmul].
  set (acc := a + (t1 + - t0) * 0.012 * v).
  assert (Hadv : 0 <= (t1 + - t0) * 0.012 * v) by nra.
  assert (Hacc0 : 0 <= acc) by (unfold acc; lra).
  destruct (Rle_dec 1 acc) as [Hge | Hlt].
  - rewrite nge_Fin_true by assumption.
    cbn [Dashboard.params Dashboard.dayAccumulator Dashboard.lastTime
         Dashboard.set_currentDay Analemma.currentDay Math_floor nadd].
    pose proof (Int_part_bounds acc) as Hip.
    assert (Hipz : (1 <= Int_part acc)%Z).
    { assert (0 < Int_part acc)%Z by (apply lt_IZR; lra). lia. }
    rewrite <- plus_IZR.
    rewrite nmod_posmod by (try apply IZR_le; try lia; lra).
    rewrite (posmod_IZR (d + Int_part acc) 365) by lia.
    rewrite nmod_posmod by lra.
    exists ((d + Int_part acc) mod 365)%Z, (posmod acc 1),
           ((d + Int_part acc) / 365)%Z.
    pose proof (posmod_range acc 1 Rlt_0_1) as Hpr.
    split; [reflexivity |].
    split; [apply Z.mod_pos_bound; lia |].
    split; [reflexivity |].
    split; [exact Hpr |].
    split; [reflexivity |].
    split; [apply Z.div_pos; lia |].
    pose proof (Z_div_mod_eq_full (d + Int_part acc) 365) as Hdm.
    apply (f_equal IZR) in Hdm. rewrite !plus_IZR, mult_IZR in Hdm.
    unfold posmod. replace (acc / 1) with acc by field.
    unfold acc in *. lra.
  - rewrite nge_Fin_false by lra.
    cbn [Dashboard.params Dashboard.dayAccumulator Dashboard.lastTime].
    rewrite Hday. exists d, acc, 0%Z.
    repeat split; try assumption; try lia; unfold acc in *; lra.
Qed.

Lemma animate_keeps_day_counter_witness :
  exists (d' : Z) (a' : R) (years : Z),
    Analemma.currentDay
      (Dashboard.params
         (Dashboard.animate
            {| Dashboard.params := Analemma.defaults;
               Dashboard.lastTime := Fin 0;
               Dashboard.dayAccumulator := Fin 0 |} (Fin 100)))
    = Fin (IZR d')
    /\ (0 <= d' < 365)%Z
    /\ Dashboard.dayAccumulator
         (Dashboard.animate
            {| Dashboard.params := Analemma.defaults;
               Dashboard.lastTime := Fin 0;
               Dashboard.dayAccumulator := Fin 0 |} (Fin 100))
       = Fin a'
    /\ 0 <= a' < 1
    /\ Dashboard.lastTime
         (Dashboard.animate
            {| Dashboard.params := Analemma.defaults;
               Dashboard.lastTime := Fin 0;
               Dashboard.dayAccumulator := Fin 0 |} (Fin 100))
       = Fin 100
    /\ (0 <= years)%Z
    /\ IZR d' + a' = IZR 0 + 0 + (100 - 0) * 0.012 * 1 - 365 * IZR years.
Proof.
  apply (animate_keeps_day_counter
           {| Dashboard.params := Analemma.defaults;
              Dashboard.lastTime := Fin 0;
              Dashboard.dayAccumulator := Fin 0 |} 0 100 1 0 0);
    first [reflexivity | lra | lia].
Defined.

(** X23.  A frame of the solograph's animation keeps the day of the year
    between 1 and 365: it either advances by 30 days per second times the
    speed or, once past 365, restarts at 1; so the label that the frame
    shows, [getDayName] of the day rounded down, is always a real date. *)
Theorem Solograph_animate_keeps_day_in_year
    (dayOfYear v t0 t1 : R) :
  1 <= dayOfYear <= 365 ->
  0 <= v ->
  t0 <= t1 ->
  exists (d' : R) (m : nat) (k : Z),
    SolographView.animate (Fin dayOfYear) (Fin v) (Fin t0) (Fin t1) = Fin d'
    /\ 1 <= d' <= 365
    /\ (d' = dayOfYear + (t1 - t0) / 1000 * 30 * v \/ d' = 1)
    /\ (m < 12)%nat
    /\ (1 <= k <= SolographView.daysInMonth !!! m)%Z
    /\ SolographView.getDayName (Int_part d')
       = (SolographView.months !!! m) +:+ " " +:+ pretty k.
Proof.
  intros Hd Hv Ht. unfold SolographView.animate.
  cbn [nsub nneg nadd nmul]. rewrite ndiv_Fin by lra.
  cbn [nsub nneg nadd nmul].
  set (d1 := dayOfYear + (t1 + - t0) / 1000 * 30 * v).
  assert (Hadv : 0 <= (t1 + - t0) / 1000 * 30 * v) by nra.
  assert (Hlabel : forall d' : R, 1 <= d' <= 365 ->
            exists (m : nat) (k : Z),
              (m < 12)%nat
              /\ (1 <= k <= SolographView.daysInMonth !!! m)%Z
              /\ SolographView.getDayName (Int_part d')
                 = (SolographView.months !!! m) +:+ " " +:+ pretty k).
  { intros d' Hd'. pose proof (Int_part_bounds d') as Hip.
    assert (Hz : (0 <= Int_part d' - 1 < 365)%Z).
    { assert (0 < Int_part d')%Z by (apply lt_IZR; lra).
      assert (Int_part d' < 366)%Z by (apply lt_IZR; lra). lia. }
    destruct (day_of_year_split _ Hz) as (m & k & Hm & Hk & Heq).
    exists m, (k + 1)%Z. split; [assumption |].
    split; [change SolographView.daysInMonth with Dashboard.daysInMonth; lia |].
    replace (Int_part d') with (daysBefore m + (k + 1))%Z by lia.
    apply getDayName_loop_at; [assumption |].
    change SolographView.daysInMonth with Dashboard.daysInMonth. lia. }
  destruct (Rlt_dec 365 d1) as [Hover | Hin].
  - rewrite ngt_Fin_true by assumption.
    destruct (Hlabel 1) as (m & k & Hm & Hk & Hn); [lra |].
    exists 1, m, k.
    split; [reflexivity |]. split; [lra |]. split; [now right |].
    split; [assumption |]. split; assumption.
  - rewrite ngt_Fin_false by lra.
    assert (Hd1 : 1 <= d1 <= 365) by (unfold d1 in *; lra).
    destruct (Hlabel d1 Hd1) as (m & k & Hm & Hk & Hn).
    exists d1, m, k.
    split; [reflexivity |]. split; [assumption |].
    split; [left; unfold d1; lra |].
    split; [assumption |]. split; assumption.
Qed.

Lemma Solograph_animate_keeps_day_in_year_witness :
  exists (d' : R) (m : nat) (k : Z),
    SolographView.animate (Fin 364.9) (Fin 1) (Fin 0) (Fin 16) = Fin d'
    /\ 1 <= d' <= 365
    /\ (d' = 364.9 + (16 - 0) / 1000 * 30 * 1 \/ d' = 1)
    /\ (m < 12)%nat
    /\ (1 <= k <= SolographView.daysInMonth !!! m)%Z
    /\ SolographView.getDayName (Int_part d')
       = (SolographView.months !!! m) +:+ " " +:+ pretty k.
Proof.
  apply (Solograph_animate_keeps_day_in_year 364.9 1 0 16); lra.
Defined.

(** X24.  A frame of the sky view's animation keeps the hour between 4
    and 20: it either advances by one hour per second times the speed or,
    once past 20, restarts at 4. *)
Theorem Sky_animate_keeps_hour_in_range (hour v t0 t1 : R) :
  4 <= hour <= 20 ->
  0 <= v ->
  t0 <= t1 ->
  exists h' : R,
    SkyView.animate (Fin hour) (Fin v) (Fin t0) (Fin t1) = Fin h'
    /\ 4 <= h' <= 20
    /\ (h' = hour + (t1 - t0) / 1000 * v \/ h' = 4).
Proof.
  intros Hh Hv Ht. unfold SkyView.animate.
  cbn [nsub nneg nadd nmul]. rewrite ndiv_Fin by lra.
  cbn [nsub nneg nadd nmul].
  set (h1 := hour + (t1 + - t0) / 1000 * v).
  assert (Hadv : 0 <= (t1 + - t0) / 1000 * v) by nra.
  destruct (Rlt_dec 20 h1) as [Hover | Hin].
  - rewrite ngt_Fin_true by assumption.
    exists 4. split; [reflexivity |]. split; [lra |]. now right.
  - rewrite ngt_Fin_false by lra.
    exists h1. split; [reflexivity |].
    split; [unfold h1 in *; lra |]. left. unfold h1. lra.
Qed.

Lemma Sky_animate_keeps_hour_in_range_witness :
  exists h' : R,
    SkyView.animate (Fin 19.99) (Fin 1) (Fin 0) (Fin 16) = Fin h'
    /\ 4 <= h' <= 20
    /\ (h' = 19.99 + (16 - 0) / 1000 * 1 \/ h' = 4).
Proof.
  apply (Sky_animate_keeps_hour_in_range 19.99 1 0 16); lra.
Defined.

(* ===================================================================== *)
(** ** The stored traces and the day path *)
(* ===================================================================== *)

(** On a full hour the point of the day path is the entry of the yearly
    trace. *)
Lemma pathPointOf_full_hour (this : Solograph.t) (h d : Z) :
  let pp := pathPointOf this (Fin (IZR d)) (60 * h) in
  let tp := tracePointOf this h d in
  Solograph.Path.hour pp = Fin (IZR h)
  /\ Solograph.Path.altitude pp = Solograph.Trace.altitude tp
  /\ Solograph.Path.azimuth pp = Solograph.Trace.azimuth tp.
Proof.
  unfold pathPointOf, tracePointOf.
  cbn [Solograph.Path.hour Solograph.Path.altitude Solograph.Path.azimuth
       Solograph.Trace.altitude Solograph.Trace.azimuth].
  rewrite ndiv_Fin by lra.
  replace (IZR (60 * h) / 60) with (IZR h) by (rewrite mult_IZR; field).
  repeat split; reflexivity.
Qed.

(** X25.  The yearly traces and the day paths meet: for a clock hour
    [h] from 5 to 19 and a day [d] from 1 to 365, the entry of day [d] in
    the stored trace of hour [h] has the altitude and the azimuth of the
    point that [getSunPath] of day [d] stores for [h]:00, its 12 h-th. *)
Theorem traces_meet_day_paths (this : Solograph.t) (h d : Z) :
  (5 <= h <= 19)%Z ->
  (1 <= d <= 365)%Z ->
  exists (tp : Solograph.Trace.point) (pp : Solograph.Path.point),
    Solograph.hourTraces (Solograph.initializeHourTraces this) !! h
      ≫= (fun trace => trace !! Z.to_nat (d - 1)) = Some tp
    /\ Solograph.getSunPath this (Fin (IZR d)) !! Z.to_nat (12 * h) = Some pp
    /\ Solograph.Trace.day tp = d
    /\ Solograph.Path.hour pp = Fin (IZR h)
    /\ Solograph.Path.altitude pp = Solograph.Trace.altitude tp
    /\ Solograph.Path.azimuth pp = Solograph.Trace.azimuth tp.
Proof.
  intros Hh Hd.
  exists (tracePointOf this h d), (pathPointOf this (Fin (IZR d)) (60 * h)).
  split.
  { rewrite (initializeHourTraces_lookup this h Hh). cbn [mbind option_bind].
    apply yearly_trace_lookup. assumption. }
  split.
  { rewrite getSunPath_points.
    rewrite !list_lookup_fmap, lookup_seqZ_lt by lia.
    cbn [fmap option_fmap option_map]. do 2 f_equal. lia. }
  split; [reflexivity |]. apply pathPointOf_full_hour.
Qed.

Lemma traces_meet_day_paths_witness :
  exists (tp : Solograph.Trace.point) (pp : Solograph.Path.point),
    Solograph.hourTraces (Solograph.initializeHourTraces Solograph.initial) !! 9%Z
      ≫= (fun trace => trace !! Z.to_nat (172 - 1)) = Some tp
    /\ Solograph.getSunPath Solograph.initial (Fin (IZR 172))
         !! Z.to_nat (12 * 9) = Some pp
    /\ Solograph.Trace.day tp = 172%Z
    /\ Solograph.Path.hour pp = Fin (IZR 9)
    /\ Solograph.Path.altitude pp = Solograph.Trace.altitude tp
    /\ Solograph.Path.azimuth pp = Solograph.Trace.azimuth tp.
Proof. apply (traces_meet_day_paths Solograph.initial 9 172); lia. Defined.

Lemma tracePointOf_set_hourTraces (this : Solograph.t)
    (m : gmap Z (list Solograph.Trace.point)) :
  tracePointOf (Solograph.set_hourTraces this m) = tracePointOf this.
Proof. reflexivity. Qed.

Lemma initializeHourTraces_idempotent (this : Solograph.t) :
  Solograph.hourTraces
    (Solograph.initializeHourTraces (Solograph.initializeHourTraces this))
  = Solograph.hourTraces (Solograph.initializeHourTraces this).
Proof.
  rewrite !initializeHourTraces_map.
  unfold Solograph.initializeHourTraces at 1.
  rewrite tracePointOf_set_hourTraces. reflexivity.
Qed.

(** X26.  The stored traces never go stale: they are those of the
    present latitude when the constructor returns, the latitude slider
    recomputes them for the new latitude whatever was stored before, and
    the day slider, which changes neither latitude nor tilt, leaves them
    current. *)
Theorem traces_stay_current :
  TracesCurrent SolographView.construct
  /\ (forall (this : Solograph.t) (value : num),
        Solograph.latitude (SolographView.onLatitudeInput this value) = value
        /\ TracesCurrent (SolographView.onLatitudeInput this value))
  /\ (forall (this : Solograph.t) (value : num),
        TracesCurrent this ->
        TracesCurrent (SolographView.onDayInput this value)).
Proof.
  unfold TracesCurrent, SolographView.construct, SolographView.onLatitudeInput.
  split; [| split].
  - symmetry. apply initializeHourTraces_idempotent.
  - intros this value. split; [reflexivity |].
    symmetry. apply initializeHourTraces_idempotent.
  - intros this value Hcur.
    unfold SolographView.onDayInput. cbn [Solograph.hourTraces].
    rewrite Hcur at 1. rewrite !initializeHourTraces_map. reflexivity.
Qed.

Lemma traces_stay_current_witness :
  TracesCurrent
    (SolographView.onDayInput
       (SolographView.onLatitudeInput SolographView.construct (Fin 52))
       (Fin 80)).
Proof.
  apply (proj2 (proj2 traces_stay_current)).
  apply (proj2 (proj1 (proj2 traces_stay_current) SolographView.construct (Fin 52))).
Defined.

(* ===================================================================== *)
(** ** The info panel of the solograph *)
(* ===================================================================== *)

Lemma formatTime_full_hour (h : Z) :
  (0 <= h < 100)%Z -> formatTime (Fin (IZR h)) = twoDigits h +:+ ":00".
Proof.
  intros Hh. replace (IZR h) with (IZR h + 0 / 60) by lra.
  rewrite formatTime_Fin by lra.
  replace (Int_part (0 + 0.5)) with 0%Z by (apply Int_part_spec; lra).
  rewrite padStart_twoDigits by lia. reflexivity.
Qed.

(** The day-length text for a whole number of hours. *)
Lemma dayLength_text_full_hours (h : Z) :
  toString (Math_floor (Fin (IZR h))) +:+ "h "
  +:+ toString (Math_round ((Fin (IZR h) - Math_floor (Fin (IZR h)))
                            * Fin 60)%num) +:+ "m"
  = pretty h +:+ "h 0m".
Proof.
  unfold Math_round. cbn [Math_floor nsub nneg nadd nmul toString].
  rewrite !Int_part_IZR.
  replace ((IZR h + - IZR h) * 60 + 0.5) with (0 + 0.5) by ring.
  replace (Int_part (0 + 0.5)) with 0%Z by (apply Int_part_spec; lra).
  reflexivity.
Qed.

(** X27.  What the info panel shows on the special days: on a day of
    midnight sun (flag [neverSets]) sunrise 00:00, sunset 24:00 and a day
    of 24h 0m; on a day of polar night (flag [neverRises]) Never, Never
    and 0h 0m; at the equator on every day, and everywhere short of the
    poles on day 80, 06:00, 18:00 and 12h 0m. *)
Theorem info_panel_on_special_days (this : Solograph.t) (day lat t : R) :
  Solograph.latitude this = Fin lat ->
  Solograph.tilt this = Fin t ->
  Solograph.dayOfYear this = Fin day ->
  -90 < lat < 90 ->
  -90 < t < 90 ->
  let times := Solograph.getSunTimes this (Fin day) in
  let info := SolographView.drawCurrentDay_info this in
  (Solograph.neverSets times = Some true ->
   info = {| SolographView.sunriseTime := "00:00";
             SolographView.sunsetTime := "24:00";
             SolographView.noonTime := "12:00";
             SolographView.dayLength := "24h 0m" |})
  /\ (Solograph.neverRises times = Some true ->
      info = {| SolographView.sunriseTime := "Never";
                SolographView.sunsetTime := "Never";
                SolographView.noonTime := "12:00";
                SolographView.dayLength := "0h 0m" |})
  /\ (lat = 0 \/ day = 80 ->
      info = {| SolographView.sunriseTime := "06:00";
                SolographView.sunsetTime := "18:00";
                SolographView.noonTime := "12:00";
                SolographView.dayLength := "12h 0m" |}).
Proof.
  intros Hlat Ht Hday Hl Hr times info. subst times info.
  unfold SolographView.drawCurrentDay_info. rewrite Hday.
  pose proof (cosHourAngle_Fin this day lat t Hlat Ht Hl Hr) as Hc.
  set (c := - tan (lat * PI / 180)
            * tan (asin (sin (t * PI / 180)
                         * sin (2 * PI * (day - 80) / 365)))) in *.
  split; [| split].
  - destruct (Rlt_dec c (-1)) as [Hlo | Hlo].
    + rewrite (getSunTimes_midnight_sun this _ c Hc Hlo). intros _.
      cbn [Solograph.neverRises Solograph.neverSets Solograph.dayLength
           truthy default].
      rewrite (dayLength_text_full_hours 24). reflexivity.
    + destruct (Rlt_dec 1 c) as [Hhi | Hhi].
      * rewrite (getSunTimes_polar_night this _ c Hc Hhi). discriminate.
      * rewrite (getSunTimes_ordinary this _ c Hc) by lra. discriminate.
  - destruct (Rlt_dec c (-1)) as [Hlo | Hlo].
    + rewrite (getSunTimes_midnight_sun this _ c Hc Hlo). discriminate.
    + destruct (Rlt_dec 1 c) as [Hhi | Hhi].
      * rewrite (getSunTimes_polar_night this _ c Hc Hhi). intros _.
        reflexivity.
      * rewrite (getSunTimes_ordinary this _ c Hc) by lra. discriminate.
  - intros Hcase.
    rewrite (getSunTimes_quarter_arc this (Fin day)
               (cosHourAngle_zero this day lat t Hlat Ht Hl Hr Hcase)).
    cbn [Solograph.neverRises Solograph.neverSets Solograph.dayLength
         Solograph.sunrise Solograph.sunset truthy default].
    rewrite (formatTime_full_hour 6), (formatTime_full_hour 18) by lia.
    rewrite (dayLength_text_full_hours 12). reflexivity.
Qed.

Lemma info_panel_on_special_days_witness :
  SolographView.drawCurrentDay_info
    (Solograph.set_latitude Solograph.initial (Fin 0))
  = {| SolographView.sunriseTime := "06:00";
       SolographView.sunsetTime := "18:00";
       SolographView.noonTime := "12:00";
       SolographView.dayLength := "12h 0m" |}.
Proof.
  apply (proj2 (proj2 (info_panel_on_special_days
                         (Solograph.set_latitude Solograph.initial (Fin 0))
                         172 0 23.44 eq_refl eq_refl eq_refl
                         ltac:(lra) ltac:(lra)))).
  left. reflexivity.
Defined.
